(** * API crawler: the mock data sources, the request builder, the jobs list,
      the live log viewer, the collections, the notifications panel and
      the polling hook, embedded from their JavaScript sources, with the
      crawl job engine and the pagination detector of the backend modelled
      from the specification.

    Conventions of the embedding.
    - A JavaScript number that holds an integer is a [Z] (exact below
      2^53); the result of [parseInt] is an [option Z], [None] standing
      for [NaN].
    - A JavaScript string is a [string]; its characters stand for the code
      units U+0000..U+00FF.
    - A plain object used as a dictionary is an association list kept in
      property-insertion order.
    - [Date.now()] and [Math.random()] are read from explicit oracles, and
      the browser interfaces ([URL], [URLSearchParams], [JSON.stringify],
      [Date]) are the fields of a record of functions.
    - A handler of the mock server takes the results of [parseInt] on its
      query parameters; a module-level counter is threaded as state. *)

From Stdlib Require Import ZArith List Bool Ascii String Lia.
From Stdlib Require Import DecimalString DecimalPos.
From Stdlib Require Import Permutation Sorted.
Import ListNotations.

Local Open Scope Z_scope.

(* ================================================================== *)
(** * Part I: definitions *)
(* ================================================================== *)

(** ** JavaScript operators used by the sources *)

Module JS.

(** [parseInt(x) || d]: [NaN] and [0] are falsy, so both give [d]. *)
Definition or_default (x : option Z) (d : Z) : Z :=
  match x with
  | Some v => if v =? 0 then d else v
  | None => d
  end.

(** [a % b] takes the sign of the dividend. *)
Definition rem (a b : Z) : Z := Z.rem a b.

(** [Math.ceil(a / b)] for integers [a] and [b <> 0]. *)
Definition ceil_div (a b : Z) : Z := - ((- a) / b).

(** The relative index of [Array.prototype.slice]: a negative index counts
    from the end, and the result is clamped to [0 .. len]. *)
Definition rel_index (len k : Z) : Z :=
  if k <? 0 then Z.max (len + k) 0 else Z.min k len.

(** [l.slice(s, e)]. *)
Definition slice {A : Type} (l : list A) (s e : Z) : list A :=
  let len := Z.of_nat (List.length l) in
  let k := rel_index len s in
  let f := rel_index len e in
  firstn (Z.to_nat (f - k)) (skipn (Z.to_nat k) l).

(** [l.slice(s)]: the end defaults to the length. *)
Definition slice_from {A : Type} (l : list A) (s : Z) : list A :=
  slice l s (Z.of_nat (List.length l)).

(** The integers [a, a+1, ..., b-1] visited by
    [for (let i = a; i < b; i++)]. *)
Definition range (a b : Z) : list Z :=
  map (fun k => a + Z.of_nat k) (seq 0 (Z.to_nat (b - a))).

(** [String(i)] for an integer. *)
Definition str_of_Z (i : Z) : string :=
  NilEmpty.string_of_int (Z.to_int i).

End JS.

(** ** mock-server/server.js *)

Module MockServer.

Module User.
Record t := mk
  { id : Z; name : string; email : string; age : Z; city : string;
    created_at : Z }.
End User.

Module Post.
Record t := mk
  { id : Z; title : string; body : string; author_id : Z; likes : Z;
    comments_count : Z; published_at : Z }.
End Post.

Module Comment.
Record t := mk
  { id : Z; post_id : Z; user_id : Z; content : string; created_at : Z }.
End Comment.

Module Item.
Record t := mk { id : Z; value : string; timestamp : Z }.
End Item.

(** The clock: [clock i] is the reading of [Date.now()] in iteration [i] of
    the loop that builds a record.  Dates are kept as millisecond values;
    their ISO rendering is not modelled. *)
Definition Clock := Z -> Z.

Definition cities : list string :=
  ["New York"; "Los Angeles"; "Chicago"; "Houston"; "Phoenix"]%string.

Definition generateUsers (clock : Clock) (count : nat) : list User.t :=
  map (fun k =>
         let i := Z.of_nat k in
         User.mk i
           ("User " ++ JS.str_of_Z i)
           ("user" ++ JS.str_of_Z i ++ "@example.com")
           (20 + JS.rem i 50)
           (nth (Z.to_nat (JS.rem i 5)) cities EmptyString)
           (clock i - i * 86400000))
      (seq 1 count).

(** [rnd1000 i] and [rnd100 i] are the values of
    [Math.floor(Math.random() * 1000)] and [Math.floor(Math.random() * 100)]
    drawn for post [i]. *)
Definition generatePosts (clock : Clock) (rnd1000 rnd100 : Z -> Z)
  (count : nat) : list Post.t :=
  map (fun k =>
         let i := Z.of_nat k in
         Post.mk i
           ("Post Title " ++ JS.str_of_Z i)
           ("This is the body content for post " ++ JS.str_of_Z i
              ++ ". It contains some sample text.")
           (JS.rem i 10 + 1)
           (rnd1000 i)
           (rnd100 i)
           (clock i - i * 3600000))
      (seq 1 count).

Definition USERS (clock : Clock) : list User.t := generateUsers clock 150.

Definition POSTS (clock : Clock) (rnd1000 rnd100 : Z -> Z) : list Post.t :=
  generatePosts clock rnd1000 rnd100 500.

(** GET /api/users *)
Module ApiUsers.
Record pagination_t := mkPagination
  { currentPage : Z; perPage : Z; totalPages : Z; totalItems : Z }.
Record response := mkResponse
  { data : list User.t; pagination : pagination_t }.

(** [q_page] and [q_per_page] are [parseInt(req.query.page)] and
    [parseInt(req.query.per_page)]. *)
Definition handler (users : list User.t) (q_page q_per_page : option Z)
  : response :=
  let page := JS.or_default q_page 1 in
  let perPage := JS.or_default q_per_page 10 in
  let startIndex := (page - 1) * perPage in
  let endIndex := startIndex + perPage in
  let paginatedUsers := JS.slice users startIndex endIndex in
  let len := Z.of_nat (List.length users) in
  mkResponse paginatedUsers
    (mkPagination page perPage (JS.ceil_div len perPage) len).
End ApiUsers.

(** GET /api/posts *)
Module ApiPosts.
Record meta_t := mkMeta
  { offset : Z; limit : Z; total : Z; has_more : bool }.
Record response := mkResponse { items : list Post.t; meta : meta_t }.

Definition handler (posts : list Post.t) (q_offset q_limit : option Z)
  : response :=
  let offset := JS.or_default q_offset 0 in
  let limit := JS.or_default q_limit 25 in
  let paginatedPosts := JS.slice posts offset (offset + limit) in
  let len := Z.of_nat (List.length posts) in
  mkResponse paginatedPosts
    (mkMeta offset limit len (offset + limit <? len)).
End ApiPosts.

(** GET /api/comments *)
Module ApiComments.
Record response := mkResponse
  { data : list Comment.t; next_cursor : option Z; has_more : bool }.

Definition handler (clock : Clock) (q_cursor q_limit : option Z)
  : response :=
  let cursor := JS.or_default q_cursor 0 in
  let limit := JS.or_default q_limit 20 in
  let comments :=
    map (fun i =>
           Comment.mk (i + 1) (JS.rem i 50 + 1) (JS.rem i 30 + 1)
             ("This is comment " ++ JS.str_of_Z (i + 1) ++ ". Great post!")
             (clock i - i * 1800000))
        (JS.range cursor (Z.min (cursor + limit) 300)) in
  let nextCursor :=
    if cursor + limit <? 300 then Some (cursor + limit) else None in
  mkResponse comments nextCursor
    (match nextCursor with Some _ => true | None => false end).
End ApiComments.

(** GET /api/flaky: the handler reads and writes the module-level counter
    [flakyCallCount], which is threaded as state. *)
Module ApiFlaky.
Inductive response :=
| Status500 (error : string) (attempt : Z)
| Status200 (data : list Item.t) (page : Z) (total_pages : Z)
    (note : string).

Definition status_code (r : response) : Z :=
  match r with Status500 _ _ => 500 | Status200 _ _ _ _ => 200 end.

Definition initial_flakyCallCount : Z := 0.

Definition handler (clock : Clock) (flakyCallCount : Z)
  (q_page : option Z) : Z * response :=
  let flakyCallCount := flakyCallCount + 1 in
  if negb (JS.rem flakyCallCount 3 =? 0) then
    (flakyCallCount, Status500 "Random server error" flakyCallCount)
  else
    let page := JS.or_default q_page 1 in
    let limit := 10 in
    let startId := (page - 1) * limit + 1 in
    let data :=
      map (fun i =>
             Item.mk (startId + i) ("Item " ++ JS.str_of_Z (startId + i))
               (clock i))
          (JS.range 0 (Z.min limit (50 - startId + 1))) in
    (flakyCallCount,
     Status200 data page 5
       "This endpoint sometimes fails to test retry logic").
End ApiFlaky.

End MockServer.

(** ** JavaScript strings and JSON values *)

Module JStr.

Local Open Scope char_scope.

Definition DQ : ascii := "034".
Definition SQ : ascii := "039".
Definition LF : ascii := "010".
Definition BSL : ascii := "092".

(** White space of [\s] and of [String.prototype.trim] among the code
    units U+0000..U+00FF: TAB, LF, VT, FF, CR, SPACE and NBSP. *)
Definition is_space (c : ascii) : bool :=
  let n := nat_of_ascii c in
  ((9 <=? n) && (n <=? 13) || (n =? 32) || (n =? 160))%nat.

Definition is_digit (c : ascii) : bool :=
  let n := nat_of_ascii c in ((48 <=? n) && (n <=? 57))%nat.

(** [\w] is [[A-Za-z0-9_]]. *)
Definition is_word (c : ascii) : bool :=
  let n := nat_of_ascii c in
  ((65 <=? n) && (n <=? 90) || (97 <=? n) && (n <=? 122)
   || (48 <=? n) && (n <=? 57) || (n =? 95))%nat.

Definition to_lower (c : ascii) : ascii :=
  let n := nat_of_ascii c in
  if ((65 <=? n) && (n <=? 90))%nat then ascii_of_nat (n + 32) else c.

Local Open Scope string_scope.

Fixpoint toLowerCase (s : string) : string :=
  match s with
  | EmptyString => EmptyString
  | String c t => String (to_lower c) (toLowerCase t)
  end.

Fixpoint forallb (p : ascii -> bool) (s : string) : bool :=
  match s with
  | EmptyString => true
  | String c t => p c && forallb p t
  end.

(** The longest prefix whose characters satisfy [p], and the rest. *)
Fixpoint span (p : ascii -> bool) (s : string) : string * string :=
  match s with
  | EmptyString => (EmptyString, EmptyString)
  | String c t =>
      if p c then let (a, b) := span p t in (String c a, b)
      else (EmptyString, s)
  end.

Fixpoint strip_prefix (pre s : string) : option string :=
  match pre with
  | EmptyString => Some s
  | String c pre' =>
      match s with
      | EmptyString => None
      | String d s' => if Ascii.eqb c d then strip_prefix pre' s' else None
      end
  end.

Fixpoint rev_string (acc s : string) : string :=
  match s with
  | EmptyString => acc
  | String c t => rev_string (String c acc) t
  end.

Fixpoint trimStart (s : string) : string :=
  match s with
  | EmptyString => EmptyString
  | String c t => if is_space c then trimStart t else s
  end.

Definition trimEnd (s : string) : string :=
  rev_string EmptyString (trimStart (rev_string EmptyString s)).

Definition trim (s : string) : string := trimEnd (trimStart s).

(** [s.split(sep)] for a one-character separator: never the empty list. *)
Fixpoint split (sep : ascii) (s : string) : list string :=
  match s with
  | EmptyString => [EmptyString]
  | String c t =>
      if Ascii.eqb c sep then EmptyString :: split sep t
      else match split sep t with
           | [] => [String c EmptyString]
           | w :: ws => String c w :: ws
           end
  end.

(** [parts.join(sep)]. *)
Fixpoint join (sep : string) (parts : list string) : string :=
  match parts with
  | [] => EmptyString
  | [w] => w
  | w :: ws => w ++ sep ++ join sep ws
  end.

(** Whether [s] begins with a dash, the letter [x] and a white space
    character: the beginning of a command-line flag [-x] with an
    argument. *)
Definition flag_here (x : ascii) (s : string) : bool :=
  match s with
  | EmptyString => false
  | String c t =>
      if Ascii.eqb c "-"%char then
        match t with
        | String d (String e _) => Ascii.eqb d x && is_space e
        | _ => false
        end
      else false
  end.

(** Whether the flag [-x] followed by white space occurs somewhere in
    [s]. *)
Fixpoint has_flag (x : ascii) (s : string) : bool :=
  match s with
  | EmptyString => false
  | String _ t => flag_here x s || has_flag x t
  end.

(** A string is truthy when it is not empty. *)
Definition truthy (s : string) : bool :=
  match s with EmptyString => false | String _ _ => true end.

Definition digit_value (c : ascii) : option Z :=
  let n := nat_of_ascii c in
  if ((48 <=? n) && (n <=? 57))%nat then Some (Z.of_nat n - 48) else None.

Definition hex_value (c : ascii) : option Z :=
  let n := nat_of_ascii c in
  if ((48 <=? n) && (n <=? 57))%nat then Some (Z.of_nat n - 48)
  else if ((65 <=? n) && (n <=? 70))%nat then Some (Z.of_nat n - 55)
  else if ((97 <=? n) && (n <=? 102))%nat then Some (Z.of_nat n - 87)
  else None.

Fixpoint parse_digits (value : ascii -> option Z) (radix : Z)
  (acc : option Z) (s : string) : option Z :=
  match s with
  | EmptyString => acc
  | String c t =>
      match value c with
      | Some d =>
          parse_digits value radix
            (Some (match acc with Some a => a * radix + d | None => d end))
            t
      | None => acc
      end
  end.

(** [parseInt(s)] with no radix: leading white space, a sign, a [0x]
    prefix for base 16, then the longest run of digits; [NaN] (here
    [None]) when there is no digit. *)
Definition parseInt (s : string) : option Z :=
  let s := trimStart s in
  let '(sign, s) :=
    match s with
    | String "-"%char t => (-1, t)
    | String "+"%char t => (1, t)
    | _ => (1, s)
    end in
  let r :=
    match s with
    | String "0"%char (String "x"%char t) => parse_digits hex_value 16 None t
    | String "0"%char (String "X"%char t) => parse_digits hex_value 16 None t
    | _ => parse_digits digit_value 10 None s
    end in
  option_map (Z.mul sign) r.

End JStr.

Module Json.

(** The values [JSON.parse] can return.  A number literal is kept as an
    integer: only whether it is zero is ever inspected. *)
#[warnings="-register-all"]
Inductive t :=
| JNull
| JBool (b : bool)
| JNum (z : Z)
| JString (s : string)
| JArray (l : list t)
| JObject (fields : list (string * t)).

Definition truthy (v : t) : bool :=
  match v with
  | JNull => false
  | JBool b => b
  | JNum z => negb (z =? 0)
  | JString s => JStr.truthy s
  | JArray _ => true
  | JObject _ => true
  end.

(** Property lookup in a parsed object: [None] is [undefined]. *)
Fixpoint lookup (k : string) (fields : list (string * t)) : option t :=
  match fields with
  | [] => None
  | (k', v) :: rest => if String.eqb k k' then Some v else lookup k rest
  end.

End Json.

(** ** The crawl job engine (backend) *)

Module Engine.

Inductive status := pending | running | paused | completed | failed | stopped.
Inductive level := debug | info | success | warning | error.
Inductive notification_type := note_info | note_success | note_error.

(** Modelled from the spec: the Job record of the backend (section 3 of the
    specification); the backend's models are not among the sources. *)
Record Job := mkJob
  { table_name : string;
    curl_command : string;
    start_interval : Z;
    end_interval : Z;
    randomize_interval : bool;
    max_pages : option Z;
    job_status : status;
    current_page : Z;
    total_records : Z;
    retry_count : Z;
    error_message : option string }.

(** What one step of the job loop emits, in order. *)
Inductive event :=
| Log (lvl : level)
| Backoff (seconds : Z)
| Wait (seconds : Z)
| Notify (kind : notification_type).

Definition with_retry (j : Job) (rc : Z) : Job :=
  mkJob (table_name j) (curl_command j) (start_interval j) (end_interval j)
    (randomize_interval j) (max_pages j) (job_status j) (current_page j)
    (total_records j) rc (error_message j).

Definition with_failure (j : Job) (rc : Z) (msg : string) : Job :=
  mkJob (table_name j) (curl_command j) (start_interval j) (end_interval j)
    (randomize_interval j) (max_pages j) failed (current_page j)
    (total_records j) rc (Some msg).

Definition with_page_done (j : Job) (records : Z) : Job :=
  mkJob (table_name j) (curl_command j) (start_interval j) (end_interval j)
    (randomize_interval j) (max_pages j) (job_status j) (current_page j + 1)
    (total_records j + records) 0 (error_message j).

Definition with_status (j : Job) (st : status) : Job :=
  mkJob (table_name j) (curl_command j) (start_interval j) (end_interval j)
    (randomize_interval j) (max_pages j) st (current_page j)
    (total_records j) (retry_count j) (error_message j).

(** Modelled from the spec: step (b) of the job loop of the backend's
    scheduler (section 4.4), not among the sources.  When the detector
    signals termination the job becomes completed. *)
Definition on_termination (j : Job) : Job := with_status j completed.

(** Modelled from the spec: step (d) of the job loop of the backend's
    scheduler (section 4.4), not among the sources.  On a failed fetch the
    retry count is incremented; below 3 the job logs a warning and backs
    off [2 ^ retry_count] seconds before retrying the same page; at 3 it
    becomes failed, records the error and emits an error notification. *)
Definition on_failure (j : Job) (msg : string) : Job * list event :=
  let rc := retry_count j + 1 in
  if rc <? 3 then (with_retry j rc, [Log warning; Backoff (2 ^ rc)])
  else (with_failure j rc msg, [Notify note_error]).

(** Modelled from the spec: the delay of step (c) of the job loop,
    [randomize_interval ? uniform(start_interval, end_interval)
    : end_interval]; [draw] is the uniform draw. *)
Definition delay (j : Job) (draw : Z) : Z :=
  if randomize_interval j then draw else end_interval j.

(** Modelled from the spec: step (c) of the job loop of the backend's
    scheduler (section 4.4), not among the sources.  On a 2xx answer the
    retry count returns to 0, the page and record counters advance, a
    success is logged and the job waits for the interval. *)
Definition on_success (j : Job) (records draw : Z) : Job * list event :=
  (with_page_done j records, [Log success; Wait (delay j draw)]).

(** The answer of a source to one fetch: the HTTP status code and the
    number of records of the page. *)
Record answer := mkAnswer { status_code : Z; records : Z }.

Definition is_2xx (code : Z) : bool := (200 <=? code) && (code <? 300).

(** Modelled from the spec: the fetch of one page with its retries
    (section 4.4, steps c and d), not among the sources.  [call] is the
    source, a state machine; [fuel] bounds the number of attempts.  The
    result is [None] only when the fuel runs out before the page is
    settled. *)
Fixpoint fetch_page {S : Type} (call : S -> S * answer) (draw : Z)
  (fuel : nat) (s : S) (j : Job) : option (S * Job * list event) :=
  match fuel with
  | O => None
  | Datatypes.S fuel' =>
      let (s', a) := call s in
      if is_2xx (status_code a) then
        let (j', evs) := on_success j (records a) draw in
        Some (s', j', evs)
      else
        let (j', evs) := on_failure j "HTTP error" in
        match job_status j' with
        | failed => Some (s', j', evs)
        | _ =>
            match fetch_page call draw fuel' s' j' with
            | Some (s'', j'', evs') => Some (s'', j'', evs ++ evs')
            | None => None
            end
        end
  end.

Definition warnings (evs : list event) : nat :=
  List.length
    (filter (fun e => match e with Log warning => true | _ => false end)
       evs).

Definition backoffs (evs : list event) : list Z :=
  flat_map (fun e => match e with Backoff d => [d] | _ => [] end) evs.

(** The flaky test source as seen by the engine: its state is the call
    counter of the mock server. *)
Definition flaky_source (clock : MockServer.Clock) (q_page : option Z)
  (count : Z) : Z * answer :=
  let (count', r) := MockServer.ApiFlaky.handler clock count q_page in
  (count',
   mkAnswer (MockServer.ApiFlaky.status_code r)
     (match r with
      | MockServer.ApiFlaky.Status200 data _ _ _ =>
          Z.of_nat (List.length data)
      | MockServer.ApiFlaky.Status500 _ _ => 0
      end)).

(** The job configuration posted to the backend. *)
Record JobConfig := mkConfig
  { cfg_curl_command : string;
    cfg_table_name : string;
    cfg_start_interval : option Z;
    cfg_end_interval : option Z;
    cfg_randomize_interval : bool;
    cfg_max_pages : option Z;
    cfg_start_date : option string;
    cfg_end_date : option string }.

Inductive start_result :=
| Created (j : Job)
| RejectedConfig
| RejectedParse.

(** Modelled from the spec: the validation of a job configuration by the
    backend (section 6: [start_interval: int >= 1],
    [end_interval: int >= start_interval], [max_pages: int > 0 | null]);
    the backend's schemas are not among the sources. *)
Definition config_ok (c : JobConfig) : bool :=
  match cfg_start_interval c, cfg_end_interval c with
  | Some s, Some e =>
      (1 <=? s) && (s <=? e)
      && match cfg_max_pages c with Some m => 0 <? m | None => true end
  | _, _ => false
  end.

(** Modelled from the spec: the start of a crawl by the backend (sections
    3, 6, 7 and 8), not among the sources.  A configuration that fails
    validation, or whose request description has no URL ([has_url], the
    parser's ParseError), is rejected and no job is created; otherwise a
    pending job is appended to the job table. *)
Definition start_crawl (has_url : string -> bool) (jobs : list Job)
  (c : JobConfig) : list Job * start_result :=
  match cfg_start_interval c, cfg_end_interval c with
  | Some s, Some e =>
      if negb (config_ok c) then (jobs, RejectedConfig)
      else if negb (has_url (cfg_curl_command c)) then (jobs, RejectedParse)
      else
        let j := mkJob (cfg_table_name c) (cfg_curl_command c) s e
                   (cfg_randomize_interval c) (cfg_max_pages c) pending
                   0 0 0 None in
        (jobs ++ [j], Created j)
  | _, _ => (jobs, RejectedConfig)
  end.

End Engine.

(** ** The pagination strategy detector (backend) *)

Module Detector.

Inductive pagination_type := page | offset | cursor | none.

(** The sample request as the detector sees it: the names of the
    parameters its URL carries. *)
Record sample_request := mkRequest { params : list string }.

(** Modelled from the spec: the tests of section 4.2 on the names carried
    by the sample request and the sample response; the backend's
    pagination service is not among the sources.  [has_any] compares
    names exactly, [has_any_ci] without regard to case. *)
Definition has_any (names : list string) (present : list string) : bool :=
  existsb (fun n => existsb (String.eqb n) present) names.

Definition has_any_ci (names : list string) (present : list string) : bool :=
  existsb
    (fun n =>
       existsb (fun p => String.eqb (JStr.toLowerCase n) (JStr.toLowerCase p))
         present)
    names.

Definition keys (v : Json.t) : list string :=
  match v with
  | Json.JObject fields => map fst fields
  | _ => []
  end.

(** Modelled from the spec: the nested next-link field, [links.next]. *)
Definition has_next_link (v : Json.t) : bool :=
  match v with
  | Json.JObject fields =>
      match Json.lookup "links" fields with
      | Some links => existsb (String.eqb "next") (keys links)
      | None => false
      end
  | _ => false
  end.

(** Modelled from the spec: the names listed in section 4.2. *)
Definition cursor_fields : list string :=
  ["next_cursor"; "nextToken"; "continuation"]%string.
Definition cursor_params : list string :=
  ["cursor"; "after"; "next_token"; "continuation"]%string.
Definition offset_names : list string := ["offset"; "skip"; "start"]%string.
Definition limit_names : list string := ["limit"; "take"]%string.
Definition page_params : list string :=
  ["page"; "p"; "pageNumber"; "page_number"]%string.

(** Modelled from the spec: the three tests of section 4.2, in the
    words of its items 1 to 3. *)
Definition is_cursor (rq : sample_request) (rs : Json.t) : bool :=
  has_any_ci cursor_fields (keys rs) || has_next_link rs
  || has_any cursor_params (params rq).

Definition is_offset (rq : sample_request) (rs : Json.t) : bool :=
  has_any offset_names (params rq ++ keys rs)
  && has_any limit_names (params rq ++ keys rs).

Definition is_page (rq : sample_request) (rs : Json.t) : bool :=
  has_any page_params (params rq).

(** Modelled from the spec: the termination tests of [nextRequest]
    (section 4.2), not among the sources.  Cursor pagination ends when the
    token is absent or null; offset pagination ends when the returned page
    is smaller than the limit or the response says that there is no
    more. *)
Definition cursor_done (token : option Z) : bool :=
  match token with None => true | Some _ => false end.

Definition offset_done (returned limit : Z) (no_more : bool) : bool :=
  (returned <? limit) || no_more.

(** Modelled from the spec: [detect] of the backend's pagination service
    (section 4.2), not among the sources.  The cursor test comes first.
    The specification lists offset before page and also says that page is
    checked before offset; [page_first] selects between the two readings. *)
Definition detect (page_first : bool) (rq : sample_request) (rs : Json.t)
  : pagination_type :=
  if is_cursor rq rs then cursor
  else if page_first then
    (if is_page rq rs then page
     else if is_offset rq rs then offset else none)
  else
    (if is_offset rq rs then offset
     else if is_page rq rs then page else none).

End Detector.

(** ** Plain objects used as dictionaries *)

Module JsObject.

(** Own enumerable string-keyed properties, in insertion order. *)
Definition t := list (string * string).

Definition empty : t := [].

(** Writing an own data property: an existing key keeps its place and
    takes the new value, a new key goes last. *)
Fixpoint set (k v : string) (o : t) : t :=
  match o with
  | [] => [(k, v)]
  | (k', v') :: rest =>
      if String.eqb k k' then (k, v) :: rest else (k', v') :: set k v rest
  end.

(** [o[k] = v] for a string [v] on an object created by [{}]: the key
    [__proto__] reaches the inherited setter, which ignores a string. *)
Definition assign (k v : string) (o : t) : t :=
  if String.eqb k "__proto__" then o else set k v o.

(** Reading an own property: [None] is [undefined]. *)
Fixpoint get (k : string) (o : t) : option string :=
  match o with
  | [] => None
  | (k', v) :: rest => if String.eqb k k' then Some v else get k rest
  end.

(** An array index is a canonical decimal numeral below [2^32 - 1]. *)
Definition array_index (k : string) : option Z :=
  match k with
  | EmptyString => None
  | String c t =>
      if JStr.forallb JStr.is_digit k
         && (negb (Ascii.eqb c "0"%char) || negb (JStr.truthy t))
      then match JStr.parse_digits JStr.digit_value 10 None k with
           | Some v => if v <? 4294967295 then Some v else None
           | None => None
           end
      else None
  end.

Definition is_index (kv : string * string) : bool :=
  match array_index (fst kv) with Some _ => true | None => false end.

Definition index_of (kv : string * string) : Z :=
  match array_index (fst kv) with Some v => v | None => 0 end.

Fixpoint insert_by_index (kv : string * string) (l : t) : t :=
  match l with
  | [] => [kv]
  | x :: rest =>
      if index_of kv <? index_of x then kv :: l
      else x :: insert_by_index kv rest
  end.

(** [Object.entries(o)]: array-index keys first, in ascending numeric
    order, then the other keys in insertion order. *)
Definition entries (o : t) : list (string * string) :=
  fold_right insert_by_index [] (filter is_index o)
  ++ filter (fun kv => negb (is_index kv)) o.

End JsObject.

(** [btoa]: base 64 of a string of code units below 256. *)
Module Base64.

Definition alphabet : string :=
  "ABCDEFGHIJKLMNOPQRSTUVWXYZabcdefghijklmnopqrstuvwxyz0123456789+/".

Definition digit (n : nat) : ascii :=
  match String.get n alphabet with Some c => c | None => "="%char end.

Fixpoint btoa (s : string) : string :=
  match s with
  | EmptyString => EmptyString
  | String a EmptyString =>
      let x := nat_of_ascii a in
      String (digit (x / 4))
        (String (digit (x mod 4 * 16)) "==")
  | String a (String b EmptyString) =>
      let x := nat_of_ascii a in
      let y := nat_of_ascii b in
      String (digit (x / 4))
        (String (digit (x mod 4 * 16 + y / 16))
           (String (digit (y mod 16 * 4)) "="))
  | String a (String b (String c t)) =>
      let x := nat_of_ascii a in
      let y := nat_of_ascii b in
      let z := nat_of_ascii c in
      String (digit (x / 4))
        (String (digit (x mod 4 * 16 + y / 16))
           (String (digit (y mod 16 * 4 + z / 64))
              (String (digit (z mod 64)) (btoa t))))
  end%nat.

End Base64.

(** The browser interfaces the components call and whose code is not
    part of the repository. *)
Record Browser := mkBrowser
  { (** [URL_href u ps]: [new URL(u)], then [searchParams.set(k, v)] for
        each pair of [ps] in order, then [toString()]; [None] when the
        constructor throws. *)
    URL_href : string -> list (string * string) -> option string;
    (** [new URLSearchParams(data).toString()] on the entries of [data]. *)
    URLSearchParams_toString : list (string * string) -> string;
    (** [JSON.stringify(data)] on the entries of [data]. *)
    JSON_stringify : list (string * string) -> string;
    (** [new Date(s).toISOString()]; [None] when it throws. *)
    Date_toISOString : string -> option string }.

(** A browser for closed examples: the serialisation of a URL returns its
    input, as [new URL(u).toString()] does for a URL that is already in
    serialised form when no parameter is set; the ISO date is the input;
    the two encoders are not exercised. *)
Definition echo_browser : Browser :=
  mkBrowser (fun u _ => Some u) (fun _ => EmptyString)
    (fun _ => EmptyString) (fun d => Some d).

(** ** The crawl form shared by CurlInput (TablesView.jsx) and
       RequestBuilder.jsx *)

Module CrawlForm.

Record ValidationResult := mkValidation { is_valid : bool }.

Record t := mk
  { validationResult : option ValidationResult;
    tableName : string;
    maxPages : string;
    startInterval : string;
    endInterval : string;
    randomizeInterval : bool;
    enableDateRange : bool;
    startDate : string;
    endDate : string }.

(** The form as the components create it. *)
Definition initial : t :=
  mk None EmptyString EmptyString "5" "15" true false EmptyString
    EmptyString.

(** [enableDateRange && d ? new Date(d).toISOString() : null]; the outer
    [None] is a thrown exception. *)
Definition date_field (B : Browser) (enable : bool) (d : string)
  : option (option string) :=
  if enable && JStr.truthy d then
    match Date_toISOString B d with
    | Some iso => Some (Some iso)
    | None => None
    end
  else Some None.

(** [handleStartCrawl]: the configuration posted to [/crawler/start], or
    [None] when the handler returns early or throws before the call. *)
Definition handleStartCrawl (B : Browser) (curl_command : string) (f : t)
  : option Engine.JobConfig :=
  let valid :=
    match validationResult f with
    | Some v => is_valid v
    | None => false
    end in
  if negb valid || negb (JStr.truthy (JStr.trim (tableName f))) then None
  else
    match date_field B (enableDateRange f) (startDate f),
          date_field B (enableDateRange f) (endDate f) with
    | Some sd, Some ed =>
        Some (Engine.mkConfig curl_command (JStr.trim (tableName f))
                (JStr.parseInt (startInterval f))
                (JStr.parseInt (endInterval f))
                (randomizeInterval f)
                (if JStr.truthy (maxPages f)
                 then JStr.parseInt (maxPages f) else None)
                sd ed)
    | _, _ => None
    end.

(** The click on "start crawl" followed by the backend's answer: the job
    table after it. *)
Definition submit (B : Browser) (has_url : string -> bool)
  (jobs : list Engine.Job) (curl_command : string) (f : t)
  : list Engine.Job :=
  match handleStartCrawl B curl_command f with
  | Some c => fst (Engine.start_crawl has_url jobs c)
  | None => jobs
  end.

End CrawlForm.

(** ** frontend/src/components/RequestBuilder.jsx *)

Module RequestBuilder.

Local Open Scope string_scope.

Record KV := mkKV { key : string; value : string; enabled : bool }.

Record AuthConfig := mkAuth
  { bearerToken : string;
    basicUsername : string;
    basicPassword : string;
    apiKeyName : string;
    apiKeyValue : string;
    apiKeyLocation : string }.

Record State := mkState
  { method : string;
    url : string;
    params : list KV;
    headers : list KV;
    authType : string;
    authConfig : AuthConfig;
    bodyType : string;
    jsonBody : string;
    formData : list KV;
    form : CrawlForm.t }.

Definition emptyRow : KV := mkKV EmptyString EmptyString true.

(** The state the component starts with. *)
Definition initial : State :=
  mkState "GET" EmptyString [emptyRow]
    [mkKV "Accept" "application/json" true; emptyRow]
    "none"
    (mkAuth EmptyString EmptyString EmptyString EmptyString EmptyString
       "header")
    "none"
    (String "{" (String JStr.LF ("  " ++ String JStr.LF "}")))
    [emptyRow] CrawlForm.initial.

Definition setMethod (m : string) (st : State) : State :=
  mkState m (url st) (params st) (headers st) (authType st)
    (authConfig st) (bodyType st) (jsonBody st) (formData st) (form st).

Definition setUrl (u : string) (st : State) : State :=
  mkState (method st) u (params st) (headers st) (authType st)
    (authConfig st) (bodyType st) (jsonBody st) (formData st) (form st).

Definition setHeaders (hs : list KV) (st : State) : State :=
  mkState (method st) (url st) (params st) hs (authType st)
    (authConfig st) (bodyType st) (jsonBody st) (formData st) (form st).

Definition HTTP_METHODS : list string :=
  ["GET"; "POST"; "PUT"; "PATCH"; "DELETE"]%string.

(** [list.filter(p => p.enabled && p.key)] *)
Definition active (l : list KV) : list KV :=
  filter (fun p => enabled p && JStr.truthy (key p)) l.

Definition pairs (l : list KV) : list (string * string) :=
  map (fun p => (key p, value p)) l.

Definition startsWith (pre s : string) : bool :=
  match JStr.strip_prefix pre s with Some _ => true | None => false end.

Definition buildFullUrl (B : Browser) (st : State) : string :=
  if negb (JStr.truthy (url st)) then EmptyString
  else
    match URL_href B
            (if startsWith "http" (url st) then url st
             else "https://" ++ url st)
            (pairs (active (params st))) with
    | Some href => href
    | None => url st
    end.

Definition buildHeaders (st : State) : JsObject.t :=
  let hdrs :=
    fold_left (fun o h => JsObject.assign (key h) (value h) o)
      (active (headers st)) JsObject.empty in
  let a := authConfig st in
  let hdrs :=
    if String.eqb (authType st) "bearer" && JStr.truthy (bearerToken a)
    then JsObject.assign "Authorization" ("Bearer " ++ bearerToken a) hdrs
    else if String.eqb (authType st) "basic"
            && JStr.truthy (basicUsername a)
    then JsObject.assign "Authorization"
           ("Basic "
              ++ Base64.btoa (basicUsername a ++ ":" ++ basicPassword a))
           hdrs
    else if String.eqb (authType st) "apikey"
            && String.eqb (apiKeyLocation a) "header"
    then JsObject.assign (apiKeyName a) (apiKeyValue a) hdrs
    else hdrs in
  if String.eqb (bodyType st) "json"
  then JsObject.assign "Content-Type" "application/json" hdrs
  else if String.eqb (bodyType st) "form"
  then JsObject.assign "Content-Type" "multipart/form-data" hdrs
  else if String.eqb (bodyType st) "urlencoded"
  then JsObject.assign "Content-Type" "application/x-www-form-urlencoded"
         hdrs
  else hdrs.

(** [buildBody]: [None] is [null]. *)
Definition buildBody (B : Browser) (st : State) : option string :=
  if String.eqb (bodyType st) "json" then Some (jsonBody st)
  else if String.eqb (bodyType st) "form"
          || String.eqb (bodyType st) "urlencoded"
  then
    let data :=
      fold_left (fun o f => JsObject.assign (key f) (value f) o)
        (active (formData st)) JsObject.empty in
    Some (if String.eqb (bodyType st) "urlencoded"
          then URLSearchParams_toString B (JsObject.entries data)
          else JSON_stringify B (JsObject.entries data))
  else None.

(** The line continuation the command is laid out with: a space, a
    backslash, a line feed and two spaces. *)
Definition continuation : string :=
  String " "%char (String JStr.BSL (String JStr.LF "  ")).

Definition quote (s : string) : string :=
  String JStr.DQ (s ++ String JStr.DQ EmptyString).

Definition header_flag (kv : string * string) : string :=
  continuation ++ "-H " ++ quote (fst kv ++ ": " ++ snd kv).

(** The command text for a full URL, a method, the entries of the headers
    object and a body. *)
Definition render (fullUrl meth : string)
  (hdrs : list (string * string)) (body : option string) : string :=
  let curl := "curl " ++ quote fullUrl in
  let curl :=
    if negb (String.eqb meth "GET")
    then curl ++ continuation ++ "-X " ++ meth else curl in
  let curl := fold_left (fun c kv => c ++ header_flag kv) hdrs curl in
  match body with
  | Some b =>
      if JStr.truthy b && negb (String.eqb meth "GET")
      then curl ++ continuation ++ "-d "
             ++ String JStr.SQ (b ++ String JStr.SQ EmptyString)
      else curl
  | None => curl
  end.

Definition generateCurl (B : Browser) (st : State) : string :=
  render (buildFullUrl B st) (method st)
    (JsObject.entries (buildHeaders st)) (buildBody B st).

(** [handleStartCrawl] of the request builder posts the generated
    command. *)
Definition handleStartCrawl (B : Browser) (st : State)
  : option Engine.JobConfig :=
  CrawlForm.handleStartCrawl B (generateCurl B st) (form st).

End RequestBuilder.

(** cURL Input component (TablesView.jsx) *)
Module CurlInput.

Record State := mkState { curlCommand : string; form : CrawlForm.t }.

Definition handleStartCrawl (B : Browser) (st : State)
  : option Engine.JobConfig :=
  CrawlForm.handleStartCrawl B (curlCommand st) (form st).

End CurlInput.

(** ** The jobs list component *)

Module JobsList.

Local Open Scope string_scope.

Record Job := mkJob
  { curl_command : option string; table_name : option string }.

Record SavedRequest := mkSaved
  { name : string;
    method : string;
    url : string;
    headers : list RequestBuilder.KV;
    params : list RequestBuilder.KV;
    authType : string;
    authConfig : JsObject.t;
    bodyType : string;
    jsonBody : string;
    formData : list RequestBuilder.KV }.

(** The first position of [s], from the left, at which [at_] matches. *)
Fixpoint search {A : Type} (at_ : string -> option A) (s : string)
  : option A :=
  match at_ s with
  | Some x => Some x
  | None =>
      match s with
      | EmptyString => None
      | String _ t => search at_ t
      end
  end.

(** [/-X\s+(\w+)/] anchored at the start of [s]: the captured word. *)
Definition method_at (s : string) : option string :=
  match JStr.strip_prefix "-X" s with
  | None => None
  | Some r =>
      let (ws, r1) := JStr.span JStr.is_space r in
      if negb (JStr.truthy ws) then None
      else
        let (w, _) := JStr.span JStr.is_word r1 in
        if JStr.truthy w then Some w else None
  end.

(** [q([^q]+)q] anchored at the start of [r]: the capture and what
    follows the closing quote. *)
Definition quoted_at (q : ascii) (r : string) : option (string * string) :=
  match r with
  | EmptyString => None
  | String c r1 =>
      if negb (Ascii.eqb c q) then None
      else
        let (u, r2) := JStr.span (fun d => negb (Ascii.eqb d q)) r1 in
        if negb (JStr.truthy u) then None
        else match r2 with
             | EmptyString => None
             | String _ r3 => Some (u, r3)
             end
  end.

(** The URL pattern anchored at the start of [s]: [curl\s+] followed by a
    double-quoted run, else by a single-quoted run, else by [(\S+)]; the
    alternatives are tried in order, and the value is
    [m[1] || m[2] || m[3]]. *)
Definition url_at (s : string) : option string :=
  match JStr.strip_prefix "curl" s with
  | None => None
  | Some r =>
      let (ws, r1) := JStr.span JStr.is_space r in
      if negb (JStr.truthy ws) then None
      else
        match quoted_at JStr.DQ r1 with
        | Some (u, _) => Some u
        | None =>
            match quoted_at JStr.SQ r1 with
            | Some (u, _) => Some u
            | None =>
                let (u, _) :=
                  JStr.span (fun d => negb (JStr.is_space d)) r1 in
                if JStr.truthy u then Some u else None
            end
        end
  end.

(** The header pattern, [-H\s+] followed by a double-quoted run,
    anchored at the start of [s]: the capture and the length of the
    match. *)
Definition header_at (s : string) : option (string * nat) :=
  match JStr.strip_prefix "-H" s with
  | None => None
  | Some r =>
      let (ws, r1) := JStr.span JStr.is_space r in
      if negb (JStr.truthy ws) then None
      else
        match quoted_at JStr.DQ r1 with
        | Some (u, _) =>
            Some (u, (2 + String.length ws + 1 + String.length u + 1)%nat)
        | None => None
        end
  end.

(** [matchAll] with the header pattern: the captures of the successive
    matches, each search resuming after the previous match; [skip] counts
    the characters of the current match still to pass. *)
Fixpoint header_scan (skip : nat) (s : string) : list string :=
  match s with
  | EmptyString => []
  | String _ t =>
      match skip with
      | S k => header_scan k t
      | O =>
          match header_at s with
          | Some (u, len) => u :: header_scan (len - 1) t
          | None => header_scan 0 t
          end
      end
  end.

Definition headerMatches (s : string) : list string := header_scan 0 s.

(** The body of the loop over the header matches. *)
Definition header_of_match (m1 : string) : list RequestBuilder.KV :=
  match JStr.split ":" m1 with
  | [] => []
  | key :: valueParts =>
      if JStr.truthy key then
        [RequestBuilder.mkKV (JStr.trim key)
           (JStr.trim (JStr.join ":" valueParts)) true]
      else []
  end.

Definition or_string (s : option string) (d : string) : string :=
  match s with
  | Some x => if JStr.truthy x then x else d
  | None => d
  end.

Definition extractRequestFromJob (job : option Job) : option SavedRequest :=
  match job with
  | None => None
  | Some job =>
      match curl_command job with
      | None => None
      | Some curlCommand =>
          if negb (JStr.truthy curlCommand) then None
          else
            let method :=
              match search method_at curlCommand with
              | Some m => m
              | None => "GET"
              end in
            let url :=
              match search url_at curlCommand with
              | Some u => u
              | None => EmptyString
              end in
            let headers :=
              flat_map header_of_match (headerMatches curlCommand) in
            Some (mkSaved (or_string (table_name job) "Saved Request")
                    method url headers [] "none" JsObject.empty "none"
                    EmptyString [])
      end
  end.

End JobsList.

(** ** frontend/src/components/LiveLogViewer.jsx *)

Module LiveLogViewer.

(** [eventSource.onmessage]: [parsed] is the outcome of
    [JSON.parse(event.data)], [None] when it throws.  Reading [job_id] of
    [null] throws as well and is caught; on any other value that is not
    an object with that field the property is [undefined]. *)
Definition onmessage (parsed : option Json.t) (logs : list Json.t)
  : list Json.t :=
  match parsed with
  | None => logs
  | Some log =>
      match log with
      | Json.JObject fields =>
          match Json.lookup "job_id" fields with
          | Some v =>
              if Json.truthy v
              then JS.slice_from (logs ++ [log]) (-500)
              else logs
          | None => logs
          end
      | _ => logs
      end
  end.

(** Whether a stream message is appended to the list. *)
Definition accepted (parsed : option Json.t) : bool :=
  match parsed with
  | Some (Json.JObject fields) =>
      match Json.lookup "job_id" fields with
      | Some v => Json.truthy v
      | None => false
      end
  | _ => false
  end.

(** The log list after a run of stream messages, oldest first. *)
Definition receive (logs : list Json.t) (msgs : list (option Json.t))
  : list Json.t :=
  fold_left (fun l m => onmessage m l) msgs logs.

(** The entries of a run of stream messages that are appended. *)
Definition kept (msgs : list (option Json.t)) : list Json.t :=
  flat_map (fun m => match m with
                     | Some log => if accepted m then [log] else []
                     | None => []
                     end) msgs.

(** The last [n] entries of a list, in their order. *)
Definition last_n {A : Type} (n : nat) (l : list A) : list A :=
  skipn (List.length l - n) l.

(** [handleClear] *)
Definition handleClear (logs : list Json.t) : list Json.t := [].

End LiveLogViewer.

(** ** Vocabulary of the statements about the generated command *)

Module Text.

Local Open Scope string_scope.

(** The head of a string fails [p], or the string is empty. *)
Definition stops (p : ascii -> bool) (s : string) : Prop :=
  match s with
  | EmptyString => True
  | String c _ => p c = false
  end.

(** No flag [-x] begins inside [p] when [p] is followed by [r]. *)
Fixpoint quiet (x : ascii) (p r : string) : Prop :=
  match p with
  | EmptyString => True
  | String c p' =>
      JStr.flag_here x (String c (p' ++ r)) = false /\ quiet x p' r
  end.

(** No dash occurs in [p]. *)
Definition dashless (p : string) : bool :=
  JStr.forallb (fun c => negb (Ascii.eqb c "-"%char)) p.

(** What follows [p] does not complete a flag begun at the end of [p]. *)
Definition next_ok (x : ascii) (r : string) : Prop :=
  match r with
  | EmptyString => True
  | String f _ => Ascii.eqb f x = false /\ JStr.is_space f = false
  end.

(** The three parts [render] appends to the quoted URL. *)
Definition method_part (m : string) : string :=
  if negb (String.eqb m "GET")
  then RequestBuilder.continuation ++ "-X " ++ m else EmptyString.

Definition headers_part (hs : list (string * string)) : string :=
  fold_right (fun kv acc => RequestBuilder.header_flag kv ++ acc)
    EmptyString hs.

Definition body_part (m : string) (body : option string) : string :=
  match body with
  | Some b =>
      if JStr.truthy b && negb (String.eqb m "GET")
      then RequestBuilder.continuation ++ "-d "
             ++ String JStr.SQ (b ++ String JStr.SQ EmptyString)
      else EmptyString
  | None => EmptyString
  end.

(** Neither the name nor the value of a header holds [-X] followed by
    white space. *)
Definition no_method_text (kv : string * string) : Prop :=
  JStr.has_flag "X" (fst kv) = false /\ JStr.has_flag "X" (snd kv) = false.

(** The text of a header between the quotes. *)
Definition line_of (kv : string * string) : string :=
  fst kv ++ ": " ++ snd kv.

(** What a header must satisfy to be read back as it was written: a name
    that is not empty and holds no colon, no double quote in the name or
    the value, and no white space around either. *)
Definition header_ok (kv : string * string) : Prop :=
  JStr.truthy (fst kv) = true
  /\ JStr.forallb (fun c => negb (Ascii.eqb c ":")) (fst kv) = true
  /\ JStr.forallb (fun c => negb (Ascii.eqb c JStr.DQ)) (fst kv) = true
  /\ JStr.forallb (fun c => negb (Ascii.eqb c JStr.DQ)) (snd kv) = true
  /\ JStr.trim (fst kv) = fst kv
  /\ JStr.trim (snd kv) = snd kv.

(** A row whose name is an ordinary property key: neither [__proto__]
    nor an array index. *)
Definition plain_row (h : RequestBuilder.KV) : Prop :=
  RequestBuilder.key h <> "__proto__"
  /\ JsObject.array_index (RequestBuilder.key h) = None.

(** The names of a list, each kept where it occurs first. *)
Fixpoint first_occurrences (l : list string) : list string :=
  match l with
  | [] => []
  | k :: rest =>
      k :: filter (fun k' => negb (String.eqb k' k)) (first_occurrences rest)
  end.

(** The names the rows write, in the order of the rows; a write to
    [__proto__] is not one. *)
Definition written_names (rows : list RequestBuilder.KV) : list string :=
  filter (fun k => negb (String.eqb k "__proto__"))
    (map RequestBuilder.key rows).

(** The entry [a] does not come after [b] in the numeric order of the
    array indices. *)
Definition index_le (a b : string * string) : Prop :=
  JsObject.index_of a <= JsObject.index_of b.

End Text.

(** ** mock-server/server.js, the other endpoints *)

Module MockApi.

(** [list[k]] for an integer [k]: [None] is [undefined]. *)
Definition at_index {A : Type} (l : list A) (k : Z) : option A :=
  if k <? 0 then None else nth_error l (Z.to_nat k).

(** [new Date(t).toISOString()] for an integer [t]: the time value, or
    [None] for the RangeError thrown when [t] is more than 8.64e15
    milliseconds from the epoch, where the date is invalid. *)
Definition toISOString (t : Z) : option Z :=
  if Z.abs t <=? 8640000000000000 then Some t else None.

(** The body [f] of a loop run on the elements of [l] in turn: the
    values pushed, or [None] when an iteration throws. *)
Fixpoint for_each {A B : Type} (f : A -> option B) (l : list A)
  : option (list B) :=
  match l with
  | [] => Some []
  | x :: rest =>
      match f x with
      | None => None
      | Some y =>
          match for_each f rest with
          | None => None
          | Some ys => Some (y :: ys)
          end
      end
  end.

Module Product.
(** [price] and [rating] hold the drawn values in hundredths and in
    tenths. *)
Record t := mk
  { id : Z; name : string; description : string; price : Z;
    category : option string; in_stock : bool; rating : Z }.
End Product.

Definition categories : list string :=
  ["Electronics"; "Clothing"; "Books"; "Home"; "Sports"]%string.

(** [price100 i] and [rating10 i] are the values drawn for product [i]:
    [(Math.random() * 1000).toFixed(2)] in hundredths and
    [(Math.random() * 5).toFixed(1)] in tenths. *)
Definition generateProducts (price100 rating10 : Z -> Z) (count : nat)
  : list Product.t :=
  map (fun k =>
         let i := Z.of_nat k in
         Product.mk i
           ("Product " ++ JS.str_of_Z i)
           ("Description for product " ++ JS.str_of_Z i)
           (price100 i)
           (at_index categories (JS.rem i 5))
           (negb (JS.rem i 3 =? 0))
           (rating10 i))
      (seq 1 count).

Definition PRODUCTS (price100 rating10 : Z -> Z) : list Product.t :=
  generateProducts price100 rating10 200.

(** GET /api/products *)
Module ApiProducts.
Record response := mkResponse
  { results : list Product.t; page : Z; total_pages : Z; total_count : Z;
    has_more : bool }.

Definition handler (products : list Product.t) (q_page q_limit : option Z)
  : response :=
  let page := JS.or_default q_page 1 in
  let limit := JS.or_default q_limit 20 in
  let startIndex := (page - 1) * limit in
  let endIndex := startIndex + limit in
  let paginatedProducts := JS.slice products startIndex endIndex in
  let len := Z.of_nat (List.length products) in
  let totalPages := JS.ceil_div len limit in
  mkResponse paginatedProducts page totalPages len (page <? totalPages).
End ApiProducts.

Module Order.
(** [total] holds the drawn amount in hundredths. *)
Record t := mk
  { id : string; customer_id : Z; total : Z; status : option string;
    created_at : Z }.
End Order.

(** GET /api/orders: the orders are generated on the fly. *)
Module ApiOrders.
Record response := mkResponse
  { data : list Order.t; skip : Z; take : Z; total : Z }.

Definition statuses : list string :=
  ["pending"; "processing"; "shipped"; "delivered"]%string.

Definition handler (clock : MockServer.Clock) (total100 : Z -> Z)
  (q_skip q_take : option Z) : response :=
  let skip := JS.or_default q_skip 0 in
  let take := JS.or_default q_take 15 in
  let orders :=
    map (fun i =>
           Order.mk ("ORD-" ++ JS.str_of_Z (1000 + i))
             (JS.rem i 20 + 1)
             (total100 i)
             (at_index statuses (JS.rem i 4))
             (clock i - i * 7200000))
        (JS.range skip (Z.min (skip + take) 100)) in
  mkResponse orders skip take 100.
End ApiOrders.

Module FeedItem.
Record t := mk
  { id : string; type : option string; content : string; author : string;
    timestamp : Z }.
End FeedItem.

(** GET /api/feed *)
Module ApiFeed.
Record links_t := mkLinks { self : string; next : option string }.
Record response := mkResponse
  { entries : list FeedItem.t; links : links_t }.

Definition PORT : Z := 3001.

Definition types : list string := ["post"; "photo"; "video"; "link"]%string.

(** The text of a link, up to the value of [after]. *)
Definition link_prefix : string :=
  "http://localhost:" ++ JS.str_of_Z PORT ++ "/api/feed?after=".

(** [None] is the RangeError of [toISOString], thrown inside the loop
    and answered by the server with status 500.  The arithmetic is that
    of integers, exact for [after] within 2^53 of zero. *)
Definition handler (clock : MockServer.Clock) (q_after : option Z)
  : option response :=
  let after := JS.or_default q_after 0 in
  let limit := 15 in
  match
    for_each
      (fun i =>
         match toISOString (clock i - i * 900000) with
         | Some timestamp =>
             Some (FeedItem.mk ("feed_" ++ JS.str_of_Z (i + 1))
                     (at_index types (JS.rem i 4))
                     ("Feed item " ++ JS.str_of_Z (i + 1) ++ " content")
                     ("Author " ++ JS.str_of_Z (JS.rem i 20 + 1))
                     timestamp)
         | None => None
         end)
      (JS.range after (Z.min (after + limit) 200))
  with
  | None => None
  | Some items =>
      let nextAfter :=
        if after + limit <? 200 then Some (after + limit) else None in
      Some
        (mkResponse items
           (mkLinks (link_prefix ++ JS.str_of_Z after)
              (match nextAfter with
               | Some v =>
                   (* [nextAfter ? ... : null]: the number 0 is falsy *)
                   if v =? 0 then None
                   else Some (link_prefix ++ JS.str_of_Z v)%string
               | None => None
               end)))
  end.
End ApiFeed.

Module Event.
Record properties_t := mkProperties
  { source : option string; version : string }.
Record t := mk
  { event_id : string; name : string; type : option string;
    user_id : string; timestamp : Z; properties : properties_t }.
End Event.

(** GET /api/events.  [decode] is
    [Buffer.from(token, 'base64').toString()], which does not throw; the
    token written is [Buffer.from(String(n)).toString('base64')], the
    base 64 of the decimal numeral.  The offset is a number or [NaN]
    ([None]); every comparison with [NaN] is false.  The answer [None] is
    the RangeError of [toISOString], thrown inside the loop, outside the
    [try], and answered by the server with status 500.  The arithmetic is
    that of integers, exact for an offset within 2^53 of zero. *)
Module ApiEvents.
Record response := mkResponse
  { records : list Event.t; continuation : option string;
    has_more : bool }.

Definition types : list string :=
  ["click"; "view"; "purchase"; "signup"]%string.
Definition sources : list string := ["web"; "mobile"; "api"]%string.

Definition handler (decode : string -> string) (clock : MockServer.Clock)
  (q_continuation : option string) : option response :=
  let offset : option Z :=
    match q_continuation with
    | Some token =>
        if JStr.truthy token then JStr.parseInt (decode token) else Some 0
    | None => Some 0
    end in
  let limit := 30 in
  let events :=
    match offset with
    | Some offset =>
        for_each
          (fun i =>
             match toISOString (clock i - i * 60000) with
             | Some timestamp =>
                 Some (Event.mk ("EVT_" ++ JS.str_of_Z (i + 1))
                         ("Event " ++ JS.str_of_Z (i + 1))
                         (at_index types (JS.rem i 4))
                         ("user_" ++ JS.str_of_Z (JS.rem i 100 + 1))
                         timestamp
                         (Event.mkProperties
                            (at_index sources (JS.rem i 3)) "1.0"))
             | None => None
             end)
          (JS.range offset (Z.min (offset + limit) 250))
    | None => Some []
    end in
  match events with
  | None => None
  | Some events =>
      let continuation :=
        match offset with
        | Some offset =>
            let nextOffset := offset + limit in
            if nextOffset <? 250
            then Some (Base64.btoa (JS.str_of_Z nextOffset)) else None
        | None => None
        end in
      Some
        (mkResponse events continuation
           (match continuation with Some _ => true | None => false end))
  end.
End ApiEvents.

(** POST /api/auth/data *)
Module ApiAuthData.
Record item := mkItem { id : Z; name : string; status : string }.

Inductive response :=
| Status401 (error message : string)
| Status403 (error message : string)
| Status200 (data : list item) (authenticated : bool) (user : string).

Definition status_code (r : response) : Z :=
  match r with
  | Status401 _ _ => 401
  | Status403 _ _ => 403
  | Status200 _ _ _ => 200
  end.

Definition items : list item :=
  [mkItem 1 "Secure Item 1" "active";
   mkItem 2 "Secure Item 2" "active";
   mkItem 3 "Secure Item 3" "inactive"].

(** [authorization] is [req.headers.authorization] and [body_filter] is
    [req.body?.filter], [None] standing for [undefined]. *)
Definition handler (authorization body_filter : option string) : response :=
  let unauthorized :=
    Status401 "Unauthorized" "Missing or invalid Authorization header" in
  match authorization with
  | None => unauthorized
  | Some authHeader =>
      if negb (JStr.truthy authHeader)
         || negb (RequestBuilder.startsWith "Bearer " authHeader)
      then unauthorized
      else
        let token := nth_error (JStr.split " " authHeader) 1 in
        if negb (match token with
                 | Some t => String.eqb t "test-token-123"
                 | None => false
                 end)
        then Status403 "Forbidden" "Invalid token"
        else
          let filter_ :=
            match body_filter with
            | Some f => if JStr.truthy f then f else "all"%string
            | None => "all"%string
            end in
          Status200
            (filter (fun it => String.eqb filter_ "all"
                               || String.eqb (status it) filter_) items)
            true "test-user"
  end.
End ApiAuthData.

End MockApi.

(** Base 64 decoding of well-formed text, as
    [Buffer.from(text, 'base64').toString()] gives it for the output of
    [btoa]; used where a concrete decoder is needed. *)
Module Base64Decode.

Fixpoint index_of (c : ascii) (s : string) (i : nat) : option nat :=
  match s with
  | EmptyString => None
  | String d t => if Ascii.eqb c d then Some i else index_of c t (S i)
  end.

Definition value (c : ascii) : option nat :=
  index_of c Base64.alphabet 0.

Fixpoint atob (s : string) : string :=
  match s with
  | String a (String b (String c (String d t))) =>
      match value a, value b with
      | Some x, Some y =>
          let b1 := ascii_of_nat (x * 4 + y / 16) in
          match value c with
          | None => String b1 EmptyString
          | Some z =>
              let b2 := ascii_of_nat (y mod 16 * 16 + z / 4) in
              match value d with
              | None => String b1 (String b2 EmptyString)
              | Some w =>
                  String b1
                    (String b2
                       (String (ascii_of_nat (z mod 4 * 64 + w)) (atob t)))
              end
          end
      | _, _ => EmptyString
      end
  | _ => EmptyString
  end%nat.

End Base64Decode.

(** ** RequestBuilder.jsx: editing the key-value lists *)

Module KeyValueList.

Inductive field := Key | Value.

(** [row[field] = value] *)
Definition set_field (f : field) (v : string) (r : RequestBuilder.KV)
  : RequestBuilder.KV :=
  match f with
  | Key => RequestBuilder.mkKV v (RequestBuilder.value r)
             (RequestBuilder.enabled r)
  | Value => RequestBuilder.mkKV (RequestBuilder.key r) v
               (RequestBuilder.enabled r)
  end.

Fixpoint modify {A : Type} (i : nat) (f : A -> A) (l : list A) : list A :=
  match l, i with
  | [], _ => []
  | x :: rest, O => f x :: rest
  | x :: rest, S j => x :: modify j f rest
  end.

(** [updateKeyValue]: the list given to [setList]; [None] when
    [newList[index]] is [undefined] and the assignment throws.  A blank
    row is appended when the last row has been given content. *)
Definition updateKeyValue (rows : list RequestBuilder.KV) (index : nat)
  (fld : field) (v : string) : option (list RequestBuilder.KV) :=
  match nth_error rows index with
  | None => None
  | Some row =>
      let newList := modify index (set_field fld v) rows in
      let row' := set_field fld v row in
      if (index =? List.length rows - 1)%nat
         && (JStr.truthy (RequestBuilder.key row')
             || JStr.truthy (RequestBuilder.value row'))
      then Some (newList ++ [RequestBuilder.emptyRow])
      else Some newList
  end.

(** [list.filter((_, i) => i !== index)] *)
Definition without {A : Type} (index : nat) (l : list A) : list A :=
  map snd
    (filter (fun p => negb (fst p =? index)%nat)
       (combine (seq 0 (List.length l)) l)).

(** [removeKeyValue]: the only row of a list is never removed. *)
Definition removeKeyValue (rows : list RequestBuilder.KV) (index : nat)
  : list RequestBuilder.KV :=
  if (1 <? List.length rows)%nat then without index rows else rows.

(** [toggleKeyValue]; [None] when [newList[index]] is [undefined]. *)
Definition toggleKeyValue (rows : list RequestBuilder.KV) (index : nat)
  : option (list RequestBuilder.KV) :=
  match nth_error rows index with
  | None => None
  | Some _ =>
      Some (modify index
              (fun r => RequestBuilder.mkKV (RequestBuilder.key r)
                          (RequestBuilder.value r)
                          (negb (RequestBuilder.enabled r)))
              rows)
  end.

End KeyValueList.

(** ** RequestBuilder.jsx: saving a request and loading it back *)

Module SavedRequest.

Record t := mk
  { name : string;
    method : string;
    url : string;
    params : list RequestBuilder.KV;
    headers : list RequestBuilder.KV;
    authType : string;
    authConfig : RequestBuilder.AuthConfig;
    bodyType : string;
    jsonBody : string;
    formData : list RequestBuilder.KV }.

(** [list.filter(p => p.key)] *)
Definition named (l : list RequestBuilder.KV) : list RequestBuilder.KV :=
  filter (fun p => JStr.truthy (RequestBuilder.key p)) l.

(** [handleSaveToCollection]: the request handed to [onSaveToCollection]. *)
Definition handleSaveToCollection (st : RequestBuilder.State) : t :=
  mk (if JStr.truthy (CrawlForm.tableName (RequestBuilder.form st))
      then CrawlForm.tableName (RequestBuilder.form st)
      else "Untitled Request"%string)
    (RequestBuilder.method st) (RequestBuilder.url st)
    (named (RequestBuilder.params st))
    (named (RequestBuilder.headers st))
    (RequestBuilder.authType st) (RequestBuilder.authConfig st)
    (RequestBuilder.bodyType st) (RequestBuilder.jsonBody st)
    (named (RequestBuilder.formData st)).

(** The effect that runs when [initialRequest] is set: the state after
    it, from the state before. *)
Definition loadInitialRequest (r : t) (st : RequestBuilder.State)
  : RequestBuilder.State :=
  let auth := JStr.truthy (authType r) in
  let body := JStr.truthy (bodyType r) in
  RequestBuilder.mkState
    (if JStr.truthy (method r) then method r else "GET"%string)
    (url r)
    (params r ++ [RequestBuilder.emptyRow])
    (headers r ++ [RequestBuilder.emptyRow])
    (if auth then authType r else RequestBuilder.authType st)
    (if auth then authConfig r else RequestBuilder.authConfig st)
    (if body then bodyType r else RequestBuilder.bodyType st)
    (if body && JStr.truthy (jsonBody r)
     then jsonBody r else RequestBuilder.jsonBody st)
    (if body then formData r else RequestBuilder.formData st)
    (RequestBuilder.form st).

End SavedRequest.

(** ** handleValidate of RequestBuilder.jsx and of the cURL input *)

Module Validate.

(** What [await validateCurl(...)] gives: the response with its
    [is_valid] and [parsed_curl?.url] fields, or a rejection. *)
Record response := mkResponse
  { is_valid : bool; parsed_curl_url : option string }.

Inductive outcome :=
| Resolved (r : response)
| Rejected (message : string).

Fixpoint map_chars (f : ascii -> ascii) (s : string) : string :=
  match s with
  | EmptyString => EmptyString
  | String c t => String (f c) (map_chars f t)
  end.

(** The table name suggested from the path of the parsed URL:
    [pathname.split('/').filter(Boolean)], its last part or [api_data],
    with every character outside [[a-zA-Z0-9_]] replaced by [_]. *)
Definition suggestTableName (pathname : string) : string :=
  let pathParts := filter JStr.truthy (JStr.split "/" pathname) in
  let suggestedName :=
    match rev pathParts with
    | last :: _ => last
    | [] => "api_data"%string
    end in
  map_chars (fun c => if JStr.is_word c then c else "_"%char) suggestedName.

(** The part of both handlers after the validation result is stored:
    the new table name, or [None] when [new URL] throws.  [pathname_of]
    is [new URL(u).pathname], [None] when the constructor throws. *)
Definition suggest (pathname_of : string -> option string)
  (tableName : string) (r : response) : option string :=
  match parsed_curl_url r with
  | Some u =>
      if negb (JStr.truthy tableName) && JStr.truthy u then
        match pathname_of u with
        | Some pathname => Some (suggestTableName pathname)
        | None => None
        end
      else Some tableName
  | None => Some tableName
  end.

(** The state the handlers write: the validation result and the table
    name. *)
Definition state := (option CrawlForm.ValidationResult * string)%type.

(** [handleValidate] of the request builder: a failure of [new URL] is
    caught on the spot and leaves the stored result alone. *)
Definition handleValidate_builder (pathname_of : string -> option string)
  (url : string) (st : state) (o : outcome) : state :=
  if negb (JStr.truthy (JStr.trim url)) then st
  else
    match o with
    | Resolved r =>
        (Some (CrawlForm.mkValidation (is_valid r)),
         match suggest pathname_of (snd st) r with
         | Some name => name
         | None => snd st
         end)
    | Rejected _ => (Some (CrawlForm.mkValidation false), snd st)
    end.

(** [handleValidate] of the cURL input: a failure of [new URL] reaches
    the outer [catch], which stores an invalid result. *)
Definition handleValidate_curlInput (pathname_of : string -> option string)
  (curlCommand : string) (st : state) (o : outcome) : state :=
  if negb (JStr.truthy (JStr.trim curlCommand)) then st
  else
    match o with
    | Resolved r =>
        match suggest pathname_of (snd st) r with
        | Some name => (Some (CrawlForm.mkValidation (is_valid r)), name)
        | None => (Some (CrawlForm.mkValidation false), snd st)
        end
    | Rejected _ => (Some (CrawlForm.mkValidation false), snd st)
    end.

End Validate.

(** ** The jobs list component: the time left *)

Module JobsView.

(** The three parts computed by [getTimeRemaining] from the difference
    [endDate - now] in milliseconds. *)
Definition days (diff : Z) : Z := diff / (1000 * 60 * 60 * 24).
Definition hours (diff : Z) : Z :=
  JS.rem diff (1000 * 60 * 60 * 24) / (1000 * 60 * 60).
Definition minutes (diff : Z) : Z :=
  JS.rem diff (1000 * 60 * 60) / (1000 * 60).

(** [getTimeRemaining]; [diff] is [None] when the date does not parse
    ([NaN]: every comparison is false and the minutes print as [NaN]). *)
Definition getTimeRemaining (diff : option Z) : string :=
  match diff with
  | None => "NaNm"%string
  | Some diff =>
      if diff <=? 0 then "Expired"%string
      else if 0 <? days diff then
        (JS.str_of_Z (days diff) ++ "d " ++ JS.str_of_Z (hours diff) ++ "h "
          ++ JS.str_of_Z (minutes diff) ++ "m")%string
      else if 0 <? hours diff then
        (JS.str_of_Z (hours diff) ++ "h " ++ JS.str_of_Z (minutes diff)
          ++ "m")%string
      else (JS.str_of_Z (minutes diff) ++ "m")%string
  end.

End JobsView.

(** ** frontend/src/components/Notifications.jsx *)

Module Notifications.

Record Notification := mk
  { id : Z; type : string; message : string; created_at : string }.

Record State := mkState
  { notifications : list Notification; visible : list Notification }.

(** The body of [fetchNotifications] once [getNotifications(true)] has
    answered [data].  [seen] is the value of [notifications] that the
    callback reads. *)
Definition fetched (seen : list Notification) (data : list Notification)
  (st : State) : State :=
  let existingIds := map id seen in
  let newNotifications :=
    filter (fun n => negb (existsb (Z.eqb (id n)) existingIds)) data in
  if (0 <? List.length newNotifications)%nat
  then mkState data (JS.slice (newNotifications ++ visible st) 0 5)
  else st.

(** The effect has an empty dependency list: the callback installed at
    the first render is the one every poll runs, and it reads the
    notifications of that render, the empty list. *)
Definition poll (data : list Notification) (st : State) : State :=
  fetched [] data st.

(** [handleDismiss] once [markNotificationRead] has succeeded. *)
Definition handleDismiss (n : Notification) (st : State) : State :=
  mkState (notifications st)
    (filter (fun m => negb (id m =? id n)) (visible st)).

Inductive event :=
| Polled (data : list Notification)
| Dismissed (n : Notification).

Definition step (st : State) (e : event) : State :=
  match e with
  | Polled data => poll data st
  | Dismissed n => handleDismiss n st
  end.

Definition initial : State := mkState [] [].

End Notifications.

(** ** frontend/src/components/CollectionManager.jsx *)

Module CollectionManager.

(** A request kept in a collection: the saved request with the [id] and
    [createdAt] written over it. *)
Record Stored := mkStored
  { rid : string; rcreatedAt : string; request : SavedRequest.t }.

Record Collection := mkCollection
  { id : string; name : string; requests : list Stored;
    createdAt : string }.

Definition with_requests (c : Collection) (rs : list Stored) : Collection :=
  mkCollection (id c) (name c) rs (createdAt c).

(** [Date.now().toString()] for the clock reading [now]. *)
Definition new_id (now : Z) : string := JS.str_of_Z now.

(** [addRequestToCollection]: the collections given to
    [saveCollections]; [now] and [iso] are the readings of [Date.now()]
    and of [new Date().toISOString()]. *)
Definition addRequestToCollection (collections : list Collection)
  (collectionId : string) (r : SavedRequest.t) (now : Z) (iso : string)
  : list Collection :=
  map (fun c =>
         if String.eqb (id c) collectionId
         then with_requests c (requests c ++ [mkStored (new_id now) iso r])
         else c)
      collections.

Definition handleDeleteRequest (collections : list Collection)
  (collectionId requestId : string) : list Collection :=
  map (fun c =>
         if String.eqb (id c) collectionId
         then with_requests c
                (filter (fun r => negb (String.eqb (rid r) requestId))
                   (requests c))
         else c)
      collections.

Definition rename (n : string) (r : SavedRequest.t) : SavedRequest.t :=
  SavedRequest.mk n (SavedRequest.method r) (SavedRequest.url r)
    (SavedRequest.params r) (SavedRequest.headers r)
    (SavedRequest.authType r) (SavedRequest.authConfig r)
    (SavedRequest.bodyType r) (SavedRequest.jsonBody r)
    (SavedRequest.formData r).

(** [handleUpdateRequest] with the update [{ name }], the only one the
    component makes. *)
Definition handleUpdateRequest (collections : list Collection)
  (collectionId requestId : string) (newName : string) : list Collection :=
  map (fun c =>
         if String.eqb (id c) collectionId
         then with_requests c
                (map (fun r =>
                        if String.eqb (rid r) requestId
                        then mkStored (rid r) (rcreatedAt r)
                               (rename newName (request r))
                        else r)
                   (requests c))
         else c)
      collections.

Definition handleDuplicateRequest (collections : list Collection)
  (collectionId : string) (r : Stored) (now : Z) (iso : string)
  : list Collection :=
  addRequestToCollection collections collectionId
    (rename (SavedRequest.name (request r) ++ " (Copy)") (request r))
    now iso.

(** The item of local storage under the key of the collections:
    [Missing] when there is none, [Unreadable] when its text is not the
    JSON of a list of collections (reading it throws), [Saved] with the
    list otherwise. *)
Inductive storage :=
| Missing
| Unreadable
| Saved (collections : list Collection).

(** The exported [addToCollection]: the storage after the call and the
    boolean returned. *)
Definition addToCollection (st : storage) (collectionId : string)
  (r : SavedRequest.t) (now : Z) (iso : string) : storage * bool :=
  match st with
  | Missing => (Missing, false)
  | Unreadable => (Unreadable, false)
  | Saved collections =>
      (Saved (addRequestToCollection collections collectionId r now iso),
       true)
  end.

(** [name.replace(/\s+/g, '_')]: every run of white space becomes one
    underscore. *)
Fixpoint underscore_spaces (in_run : bool) (s : string) : string :=
  match s with
  | EmptyString => EmptyString
  | String c t =>
      if JStr.is_space c
      then if in_run then underscore_spaces true t
           else String "_" (underscore_spaces true t)
      else String c (underscore_spaces false t)
  end.

(** The file name of [handleExportCollection]. *)
Definition export_file_name (c : Collection) : string :=
  (underscore_spaces false (name c) ++ ".json")%string.

End CollectionManager.

(** ** frontend/src/hooks/usePolling.js *)

Module UsePolling.

(** [error] is [None] for [null], and otherwise the value stored. *)
Record State (D : Type) := mkState
  { data : option D; loading : bool; error : option Json.t }.
Arguments mkState {D}.
Arguments data {D}.
Arguments loading {D}.
Arguments error {D}.

Definition initial {D : Type} : State D := mkState None true None.

(** What a failed fetch throws: [undefined] or [null], on which reading
    [err.message] throws in turn, or any other value, with the [message]
    read from it ([None] when it is [undefined]). *)
Inductive thrown :=
| Nullish
| Value (message : option Json.t).

(** [message || 'An error occurred'] *)
Definition message_or_default (message : option Json.t) : Json.t :=
  match message with
  | Some m => if Json.truthy m then m else Json.JString "An error occurred"
  | None => Json.JString "An error occurred"
  end.

(** How [await fetchFn()] ends: with a result, or with an exception. *)
Inductive outcome (D : Type) :=
| Fetched (result : D)
| Threw (err : thrown).
Arguments Fetched {D}.
Arguments Threw {D}.

(** [fetchData]: the state when the call has settled.  When the value
    thrown is [undefined] or [null] the [catch] block throws before
    [setError], so that only [finally] writes. *)
Definition fetchData {D : Type} (st : State D) (o : outcome D) : State D :=
  match o with
  | Fetched result => mkState (Some result) false None
  | Threw Nullish => mkState (data st) false (error st)
  | Threw (Value message) =>
      mkState (data st) false (Some (message_or_default message))
  end.

Definition run {D : Type} (st : State D) (os : list (outcome D)) : State D :=
  fold_left fetchData os st.

End UsePolling.

(** ** Vocabulary of the further properties *)

(** The identifiers [EVT_(a+1) .. EVT_b]. *)
Definition event_ids (a b : Z) : list string :=
  map (fun i => ("EVT_" ++ JS.str_of_Z (i + 1))%string) (JS.range a b).

Module Shape.

(** A row with neither a key nor a value. *)
Definition blank (r : RequestBuilder.KV) : bool :=
  negb (JStr.truthy (RequestBuilder.key r))
  && negb (JStr.truthy (RequestBuilder.value r)).

(** The list ends with a blank row. *)
Definition blank_tail (l : list RequestBuilder.KV) : bool :=
  match rev l with
  | r :: _ => blank r
  | [] => false
  end.

(** [setAuthType] and [setAuthConfig] of the request builder. *)
Definition setAuthType (t : string) (st : RequestBuilder.State)
  : RequestBuilder.State :=
  RequestBuilder.mkState (RequestBuilder.method st) (RequestBuilder.url st)
    (RequestBuilder.params st) (RequestBuilder.headers st) t
    (RequestBuilder.authConfig st) (RequestBuilder.bodyType st)
    (RequestBuilder.jsonBody st) (RequestBuilder.formData st)
    (RequestBuilder.form st).

Definition setAuthConfig (a : RequestBuilder.AuthConfig)
  (st : RequestBuilder.State) : RequestBuilder.State :=
  RequestBuilder.mkState (RequestBuilder.method st) (RequestBuilder.url st)
    (RequestBuilder.params st) (RequestBuilder.headers st)
    (RequestBuilder.authType st) a (RequestBuilder.bodyType st)
    (RequestBuilder.jsonBody st) (RequestBuilder.formData st)
    (RequestBuilder.form st).

(** [new URL(result.parsed_curl.url)] is reached and throws. *)
Definition url_throws (pathname_of : string -> option string)
  (tableName : string) (r : Validate.response) : bool :=
  match Validate.parsed_curl_url r with
  | Some u =>
      negb (JStr.truthy tableName) && JStr.truthy u
      && match pathname_of u with Some _ => false | None => true end
  | None => false
  end.

(** [c'] is [c] with other requests at most, and is [c] itself when
    the identifier of [c] is not [collectionId]. *)
Definition same_but_requests (collectionId : string)
  (c c' : CollectionManager.Collection) : Prop :=
  CollectionManager.id c' = CollectionManager.id c
  /\ CollectionManager.name c' = CollectionManager.name c
  /\ CollectionManager.createdAt c' = CollectionManager.createdAt c
  /\ (CollectionManager.id c <> collectionId -> c' = c).

(** The fetch ended with an exception. *)
Definition threw {D : Type} (o : UsePolling.outcome D) : bool :=
  match o with
  | UsePolling.Threw _ => true
  | UsePolling.Fetched _ => false
  end.

(** The fetch ended with [undefined] or [null] thrown. *)
Definition threw_nullish {D : Type} (o : UsePolling.outcome D) : bool :=
  match o with
  | UsePolling.Threw UsePolling.Nullish => true
  | _ => false
  end.

(** [Date.now()] reads a time between the epoch and the year 3000. *)
Definition present_day (clock : MockServer.Clock) : Prop :=
  forall i, 0 <= clock i <= 32503680000000.

(** The values of the entries whose name is [authorization] in any
    letter case. *)
Definition authorization_values (entries : list (string * string))
  : list string :=
  map snd
    (filter (fun kv =>
               String.eqb (JStr.toLowerCase (fst kv)) "authorization")
       entries).

(** [req.headers.authorization] on a server that is handed the entries
    as they are and reads the names without regard to letter case, for a
    request with at most one such entry. *)
Definition received_authorization (entries : list (string * string))
  : option string :=
  hd_error (authorization_values entries).

End Shape.

(* ================================================================== *)
(** * Part II: theorems *)
(* ================================================================== *)

Import Text.

(** ** Shared facts about the JavaScript operators *)

Lemma or_default_nonzero (v d : Z) :
  v <> 0 -> JS.or_default (Some v) d = v.
Proof.
  intros Hv. unfold JS.or_default.
  destruct (Z.eqb_spec v 0); [contradiction | reflexivity].
Qed.

Lemma or_default_zero_cursor (v : Z) :
  0 <= v -> JS.or_default (Some v) 0 = v.
Proof.
  intros Hv. unfold JS.or_default.
  destruct (Z.eqb_spec v 0); congruence.
Qed.

Lemma ceil_div_spec (a b : Z) :
  0 < b -> (JS.ceil_div a b - 1) * b < a <= JS.ceil_div a b * b.
Proof.
  intros Hb. unfold JS.ceil_div.
  pose proof (Z.div_mod (- a) b ltac:(lia)) as Hdm.
  pose proof (Z.mod_pos_bound (- a) b Hb) as Hm.
  nia.
Qed.

Lemma ceil_div_unique (a b t : Z) :
  0 < b -> (t - 1) * b < a <= t * b -> t = JS.ceil_div a b.
Proof.
  intros Hb Ht. pose proof (ceil_div_spec a b Hb) as Hc. nia.
Qed.

(** For non-negative bounds [slice] is a window of the list, cut at its
    end. *)
Lemma slice_window {A : Type} (l : list A) (s e : Z) :
  0 <= s -> 0 <= e ->
  JS.slice l s e = firstn (Z.to_nat (e - s)) (skipn (Z.to_nat s) l).
Proof.
  intros Hs He. unfold JS.slice, JS.rel_index.
  destruct (Z.ltb_spec s 0); [lia |].
  destruct (Z.ltb_spec e 0); [lia |].
  set (len := Z.of_nat (List.length l)).
  destruct (Z.le_gt_cases s len) as [Hsl | Hsl].
  - rewrite (Z.min_l s len) by lia.
    destruct (Z.le_gt_cases e len) as [Hel | Hel].
    + rewrite (Z.min_l e len) by lia. reflexivity.
    + rewrite (Z.min_r e len) by lia.
      rewrite !firstn_all2; [reflexivity | |];
        rewrite length_skipn; unfold len in *; lia.
  - rewrite (Z.min_r s len) by lia.
    rewrite !(skipn_all2 l) by (unfold len in *; lia).
    rewrite !firstn_nil. reflexivity.
Qed.

Lemma slice_map {A B : Type} (g : A -> B) (l : list A) (s e : Z) :
  map g (JS.slice l s e) = JS.slice (map g l) s e.
Proof.
  unfold JS.slice. rewrite length_map, skipn_map, firstn_map. reflexivity.
Qed.

Lemma range_length (a b : Z) :
  Z.of_nat (List.length (JS.range a b)) = Z.max 0 (b - a).
Proof.
  unfold JS.range. rewrite length_map, length_seq. lia.
Qed.

Lemma firstn_of_seq (n a len : nat) :
  firstn n (seq a len) = seq a (Nat.min n len).
Proof.
  revert a len. induction n as [| n IH]; intros a [| len]; simpl;
    try reflexivity.
  f_equal. apply IH.
Qed.

Lemma seq_as_offsets (a len : nat) :
  seq a len = map (fun k => (a + k)%nat) (seq 0 len).
Proof.
  revert a. induction len as [| len IH]; intros a; simpl.
  - reflexivity.
  - rewrite Nat.add_0_r. f_equal.
    rewrite (IH (S a)), (IH 1%nat), map_map.
    apply map_ext. intros k. lia.
Qed.

(** A window of the list [1, 2, ..., N]. *)
Lemma window_of_ids (N : nat) (s w : Z) :
  0 <= s -> 0 <= w ->
  firstn (Z.to_nat w) (skipn (Z.to_nat s) (map Z.of_nat (seq 1 N)))
  = JS.range (s + 1) (Z.min (s + w) (Z.of_nat N) + 1).
Proof.
  intros Hs Hw. unfold JS.range.
  rewrite skipn_map, firstn_map, skipn_seq, firstn_of_seq.
  replace (Z.to_nat (Z.min (s + w) (Z.of_nat N) + 1 - (s + 1)))
    with (Nat.min (Z.to_nat w) (N - Z.to_nat s)) by lia.
  rewrite seq_as_offsets, map_map.
  apply map_ext. intros k. lia.
Qed.

Lemma generateUsers_ids (clock : MockServer.Clock) (count : nat) :
  map MockServer.User.id (MockServer.generateUsers clock count)
  = map Z.of_nat (seq 1 count).
Proof.
  unfold MockServer.generateUsers. rewrite map_map. reflexivity.
Qed.

Lemma generatePosts_ids clock rnd1000 rnd100 (count : nat) :
  map MockServer.Post.id
    (MockServer.generatePosts clock rnd1000 rnd100 count)
  = map Z.of_nat (seq 1 count).
Proof.
  unfold MockServer.generatePosts. rewrite map_map. reflexivity.
Qed.

Example users_page1_ids :
  map MockServer.User.id
    (MockServer.ApiUsers.data
       (MockServer.ApiUsers.handler (MockServer.USERS (fun _ => 0))
          (Some 1) (Some 10)))
  = [1; 2; 3; 4; 5; 6; 7; 8; 9; 10].
Proof. vm_compute. reflexivity. Qed.

Lemma range_succ (a b : Z) :
  map (fun i => i + 1) (JS.range a b) = JS.range (a + 1) (b + 1).
Proof.
  unfold JS.range. rewrite map_map.
  replace (b + 1 - (a + 1)) with (b - a) by lia.
  apply map_ext. intros k. lia.
Qed.

(** ** GET /api/comments *)

(** C1: for a cursor [c >= 0] and a limit [n >= 1] the response of the
    comments source has [has_more = false] exactly when [next_cursor] is
    null, and [next_cursor] is null exactly when [c + n >= 300]; before the
    end it is [c + n], and the page holds the comments numbered
    [c + 1 .. min (c + n) 300].  The cursor termination test of the
    detector therefore fires exactly at the end of the data. *)
Theorem comments_null_cursor_iff_end
  (clock : MockServer.Clock) (c n : Z) :
  0 <= c -> 1 <= n ->
  let r := MockServer.ApiComments.handler clock (Some c) (Some n) in
  (MockServer.ApiComments.has_more r = false
     <-> MockServer.ApiComments.next_cursor r = None)
  /\ (MockServer.ApiComments.next_cursor r = None <-> c + n >= 300)
  /\ (c + n < 300 -> MockServer.ApiComments.next_cursor r = Some (c + n))
  /\ map MockServer.Comment.id (MockServer.ApiComments.data r)
     = JS.range (c + 1) (Z.min (c + n) 300 + 1)
  /\ (Detector.cursor_done (MockServer.ApiComments.next_cursor r) = true
      <-> c + n >= 300).
Proof.
  intros Hc Hn r. subst r. unfold MockServer.ApiComments.handler.
  rewrite or_default_zero_cursor by assumption.
  rewrite or_default_nonzero by lia.
  cbn [MockServer.ApiComments.has_more MockServer.ApiComments.next_cursor
       MockServer.ApiComments.data].
  assert (Hids : forall l,
             map MockServer.Comment.id
               (map (fun i =>
                       MockServer.Comment.mk (i + 1) (JS.rem i 50 + 1)
                         (JS.rem i 30 + 1)
                         ("This is comment " ++ JS.str_of_Z (i + 1)
                            ++ ". Great post!")
                         (clock i - i * 1800000)) l)
             = map (fun i => i + 1) l).
  { intros l. rewrite map_map. reflexivity. }
  rewrite Hids, range_succ.
  destruct (Z.ltb_spec (c + n) 300) as [Hlt | Hge];
    cbn [Detector.cursor_done];
    repeat split; intros; try congruence; try lia.
Qed.

Lemma comments_null_cursor_iff_end_witness :
  0 <= 280 /\ 1 <= 20 /\
  MockServer.ApiComments.next_cursor
    (MockServer.ApiComments.handler (fun _ => 0) (Some 280) (Some 20))
  = None.
Proof.
  split; [lia | split; [lia |]].
  apply (comments_null_cursor_iff_end (fun _ => 0) 280 20); lia.
Defined.

(** ** GET /api/users *)

(** C3 (as written) fails on a final partial page: with [per_page = 20]
    there are 8 pages and page 8 holds 10 records, not 20. *)
Lemma users_last_page_is_short :
  let r := MockServer.ApiUsers.handler (MockServer.USERS (fun _ => 0))
             (Some 8) (Some 20) in
  MockServer.ApiUsers.totalPages (MockServer.ApiUsers.pagination r) = 8
  /\ List.length (MockServer.ApiUsers.data r) = 10%nat
  /\ Z.of_nat (List.length (MockServer.ApiUsers.data r)) <> 20.
Proof. vm_compute. repeat split; congruence. Qed.

(** C3 (amended): for a page [p >= 1] and [per_page = n >= 1] over the 150
    users, [totalPages] is [ceil (150 / n)] (15 for [n = 10]) and [data] is
    the window of at most [n] records that starts at record [(p - 1) * n]:
    it holds the users numbered [(p - 1) * n + 1 .. min (p * n) 150], hence
    [n] records exactly when [p * n <= 150], fewer on a final partial page
    and none beyond it. *)
Theorem users_page_window (clock : MockServer.Clock) (p n : Z) :
  1 <= p -> 1 <= n ->
  let r := MockServer.ApiUsers.handler (MockServer.USERS clock)
             (Some p) (Some n) in
  let tp := MockServer.ApiUsers.totalPages (MockServer.ApiUsers.pagination r) in
  ((tp - 1) * n < 150 <= tp * n)
  /\ (n = 10 -> tp = 15)
  /\ MockServer.ApiUsers.data r
     = firstn (Z.to_nat n)
         (skipn (Z.to_nat ((p - 1) * n)) (MockServer.USERS clock))
  /\ map MockServer.User.id (MockServer.ApiUsers.data r)
     = JS.range ((p - 1) * n + 1) (Z.min (p * n) 150 + 1)
  /\ Z.of_nat (List.length (MockServer.ApiUsers.data r))
     = Z.max 0 (Z.min n (150 - (p - 1) * n))
  /\ (Z.of_nat (List.length (MockServer.ApiUsers.data r)) = n
      <-> p * n <= 150).
Proof.
  intros Hp Hn r tp.
  assert (Hlen : Z.of_nat (List.length (MockServer.USERS clock)) = 150).
  { unfold MockServer.USERS, MockServer.generateUsers.
    rewrite length_map, length_seq. reflexivity. }
  assert (Htp : tp = JS.ceil_div 150 n).
  { subst tp r. unfold MockServer.ApiUsers.handler.
    cbn [MockServer.ApiUsers.totalPages MockServer.ApiUsers.pagination].
    rewrite Hlen, or_default_nonzero by lia. reflexivity. }
  assert (Hdata : MockServer.ApiUsers.data r
     = firstn (Z.to_nat n)
         (skipn (Z.to_nat ((p - 1) * n)) (MockServer.USERS clock))).
  { subst r. unfold MockServer.ApiUsers.handler.
    cbn [MockServer.ApiUsers.data].
    rewrite !or_default_nonzero by lia.
    rewrite slice_window by nia.
    do 2 f_equal. lia. }
  assert (Hids : map MockServer.User.id (MockServer.ApiUsers.data r)
     = JS.range ((p - 1) * n + 1) (Z.min (p * n) 150 + 1)).
  { rewrite Hdata, <- firstn_map, <- skipn_map.
    unfold MockServer.USERS. rewrite generateUsers_ids.
    rewrite window_of_ids by nia.
    do 3 f_equal. lia. }
  assert (Hcount : Z.of_nat (List.length (MockServer.ApiUsers.data r))
     = Z.max 0 (Z.min n (150 - (p - 1) * n))).
  { rewrite <- (length_map MockServer.User.id), Hids, range_length. nia. }
  split; [rewrite Htp; apply ceil_div_spec; lia |].
  split; [intros ->; rewrite Htp; reflexivity |].
  split; [exact Hdata |].
  split; [exact Hids |].
  split; [exact Hcount |].
  rewrite Hcount. nia.
Qed.

Lemma users_page_window_witness :
  1 <= 1 /\ 1 <= 10 /\
  MockServer.ApiUsers.totalPages
    (MockServer.ApiUsers.pagination
       (MockServer.ApiUsers.handler (MockServer.USERS (fun _ => 0))
          (Some 1) (Some 10))) = 15.
Proof.
  split; [lia | split; [lia |]].
  apply (users_page_window (fun _ => 0) 1 10); [lia | lia | reflexivity].
Defined.

(** ** GET /api/posts *)

(** C4 (as written) fails when the window ends exactly at the end of the
    data: at [offset = 475], [limit = 25] the page is full (25 records) yet
    [has_more] is false. *)
Lemma posts_full_last_page :
  let r := MockServer.ApiPosts.handler
             (MockServer.POSTS (fun _ => 0) (fun _ => 0) (fun _ => 0))
             (Some 475) (Some 25) in
  MockServer.ApiPosts.has_more (MockServer.ApiPosts.meta r) = false
  /\ List.length (MockServer.ApiPosts.items r) = 25%nat
  /\ ~ (Z.of_nat (List.length (MockServer.ApiPosts.items r)) < 25).
Proof. vm_compute. repeat split; congruence. Qed.

(** C4 (amended): for an offset [o >= 0] and a limit [n >= 1] over the 500
    posts the response holds the records in positions [o, o + n) that exist
    (the posts numbered [o + 1 .. min (o + n) 500]); [meta.has_more] is
    false exactly when [o + n >= 500]; the page is shorter than [n] exactly
    when [o + n > 500]; so a short page always comes with
    [has_more = false], while [has_more = false] with a full page happens
    exactly when [o + n = 500].  On a short page the offset termination
    test of the detector fires and the job becomes completed, not
    failed. *)
Theorem posts_window_and_has_more
  (clock : MockServer.Clock) (rnd1000 rnd100 : Z -> Z) (o n : Z)
  (j : Engine.Job) :
  0 <= o -> 1 <= n ->
  let r := MockServer.ApiPosts.handler
             (MockServer.POSTS clock rnd1000 rnd100) (Some o) (Some n) in
  let count := Z.of_nat (List.length (MockServer.ApiPosts.items r)) in
  let more := MockServer.ApiPosts.has_more (MockServer.ApiPosts.meta r) in
  MockServer.ApiPosts.items r
  = firstn (Z.to_nat n)
      (skipn (Z.to_nat o) (MockServer.POSTS clock rnd1000 rnd100))
  /\ map MockServer.Post.id (MockServer.ApiPosts.items r)
     = JS.range (o + 1) (Z.min (o + n) 500 + 1)
  /\ (more = false <-> o + n >= 500)
  /\ (count < n <-> o + n > 500)
  /\ (count < n -> more = false)
  /\ (more = false /\ count = n <-> o + n = 500)
  /\ (count < n ->
      Detector.offset_done count n (negb more) = true
      /\ Engine.job_status (Engine.on_termination j) = Engine.completed
      /\ Engine.job_status (Engine.on_termination j) <> Engine.failed).
Proof.
  intros Ho Hn r count more.
  assert (Hlen : Z.of_nat
            (List.length (MockServer.POSTS clock rnd1000 rnd100)) = 500).
  { unfold MockServer.POSTS, MockServer.generatePosts.
    rewrite length_map, length_seq. reflexivity. }
  assert (Hitems : MockServer.ApiPosts.items r
     = firstn (Z.to_nat n)
         (skipn (Z.to_nat o) (MockServer.POSTS clock rnd1000 rnd100))).
  { subst r. unfold MockServer.ApiPosts.handler.
    cbn [MockServer.ApiPosts.items].
    rewrite or_default_zero_cursor, or_default_nonzero by lia.
    rewrite slice_window by lia.
    do 2 f_equal. lia. }
  assert (Hids : map MockServer.Post.id (MockServer.ApiPosts.items r)
     = JS.range (o + 1) (Z.min (o + n) 500 + 1)).
  { rewrite Hitems, <- firstn_map, <- skipn_map.
    unfold MockServer.POSTS. rewrite generatePosts_ids.
    apply window_of_ids; lia. }
  assert (Hcount : count = Z.max 0 (Z.min n (500 - o))).
  { subst count.
    rewrite <- (length_map MockServer.Post.id), Hids, range_length. lia. }
  assert (Hmore : more = (o + n <? 500)).
  { subst more r. unfold MockServer.ApiPosts.handler.
    cbn [MockServer.ApiPosts.has_more MockServer.ApiPosts.meta].
    rewrite Hlen, or_default_zero_cursor, or_default_nonzero by lia.
    reflexivity. }
  unfold Detector.offset_done. rewrite Hmore, Hcount.
  destruct (Z.ltb_spec (o + n) 500); repeat split; intros;
    try congruence; try lia; try reflexivity; try discriminate.
Qed.

Lemma posts_window_and_has_more_witness :
  0 <= 490 /\ 1 <= 25 /\
  MockServer.ApiPosts.has_more
    (MockServer.ApiPosts.meta
       (MockServer.ApiPosts.handler
          (MockServer.POSTS (fun _ => 0) (fun _ => 0) (fun _ => 0))
          (Some 490) (Some 25))) = false.
Proof.
  split; [lia | split; [lia |]].
  destruct (posts_window_and_has_more
              (fun _ => 0) (fun _ => 0) (fun _ => 0) 490 25
              (Engine.mkJob "posts" "curl x" 5 15 true None Engine.running
                 20 490 0 None))
    as (_ & _ & Hmore & _); [lia | lia |].
  apply Hmore. lia.
Defined.

(** ** The retry loop against GET /api/flaky *)

Lemma rem3_succ (k : Z) :
  0 <= k -> JS.rem k 3 = 0 ->
  JS.rem (k + 1) 3 = 1 /\ JS.rem (k + 2) 3 = 2 /\ JS.rem (k + 3) 3 = 0.
Proof.
  unfold JS.rem. intros Hk H0.
  repeat split; Z.quot_rem_to_equations; lia.
Qed.

(** A page whose fetch fails twice and then succeeds, for any source. *)
Lemma fetch_page_fail_fail_ok {S : Type} (call : S -> S * Engine.answer)
  (draw : Z) (fuel : nat) (s0 s1 s2 s3 : S) (a1 a2 a3 : Engine.answer)
  (j : Engine.Job) :
  call s0 = (s1, a1) -> call s1 = (s2, a2) -> call s2 = (s3, a3) ->
  Engine.is_2xx (Engine.status_code a1) = false ->
  Engine.is_2xx (Engine.status_code a2) = false ->
  Engine.is_2xx (Engine.status_code a3) = true ->
  Engine.retry_count j = 0 -> Engine.job_status j = Engine.running ->
  (3 <= fuel)%nat ->
  Engine.fetch_page call draw fuel s0 j
  = Some (s3,
          Engine.with_page_done
            (Engine.with_retry (Engine.with_retry j 1) 2)
            (Engine.records a3),
          [Engine.Log Engine.warning; Engine.Backoff 2;
           Engine.Log Engine.warning; Engine.Backoff 4;
           Engine.Log Engine.success;
           Engine.Wait (Engine.delay j draw)]).
Proof.
  intros C1 C2 C3 F1 F2 F3 Hrc Hst Hfuel.
  destruct fuel as [| [| [| fuel]]]; try lia.
  cbn [Engine.fetch_page].
  rewrite C1, F1. unfold Engine.on_failure at 1. rewrite Hrc.
  cbn [Z.add Z.ltb Z.compare Pos.compare Pos.compare_cont Pos.add].
  cbn [Engine.job_status Engine.with_retry]. rewrite Hst.
  rewrite C2, F2. unfold Engine.on_failure at 1.
  cbn [Engine.retry_count Engine.with_retry].
  change (1 + 1 <? 3) with true. cbn iota.
  cbn [Engine.job_status Engine.with_retry]. rewrite Hst.
  rewrite C3, F3. unfold Engine.on_success.
  reflexivity.
Qed.

(** C2: the flaky source answers 500 on every call whose running count is
    not a multiple of 3 and 200 otherwise; a page fetched from it when the
    count is a multiple of 3 therefore fails on attempts 1 and 2 and
    succeeds on attempt 3, and the engine then logs exactly 2 warnings,
    backs off 2 s and then 4 s, and leaves [retry_count] at 0 with the job
    still running, one page further. *)
Theorem flaky_fetch_two_warnings
  (clock : MockServer.Clock) (q_page : option Z) (draw : Z) (fuel : nat)
  (k : Z) (j : Engine.Job) :
  0 <= k -> JS.rem k 3 = 0 ->
  Engine.retry_count j = 0 -> Engine.job_status j = Engine.running ->
  (3 <= fuel)%nat ->
  (forall c,
      MockServer.ApiFlaky.status_code
        (snd (MockServer.ApiFlaky.handler clock c q_page))
      = if JS.rem (c + 1) 3 =? 0 then 200 else 500)
  /\ exists j' evs,
      Engine.fetch_page (Engine.flaky_source clock q_page) draw fuel k j
      = Some (k + 3, j', evs)
      /\ Engine.warnings evs = 2%nat
      /\ Engine.backoffs evs = [2; 4]
      /\ Engine.retry_count j' = 0
      /\ Engine.job_status j' = Engine.running
      /\ Engine.current_page j' = Engine.current_page j + 1.
Proof.
  intros Hk Hrem Hrc Hst Hfuel.
  assert (Hcode : forall c,
      MockServer.ApiFlaky.status_code
        (snd (MockServer.ApiFlaky.handler clock c q_page))
      = if JS.rem (c + 1) 3 =? 0 then 200 else 500).
  { intros c. unfold MockServer.ApiFlaky.handler.
    destruct (JS.rem (c + 1) 3 =? 0); reflexivity. }
  split; [exact Hcode |].
  destruct (rem3_succ k Hk Hrem) as (R1 & R2 & R3).
  assert (Hsrc : forall c,
      exists a, Engine.flaky_source clock q_page c = (c + 1, a)
                /\ Engine.status_code a
                   = if JS.rem (c + 1) 3 =? 0 then 200 else 500).
  { intros c. unfold Engine.flaky_source.
    specialize (Hcode c). revert Hcode.
    unfold MockServer.ApiFlaky.handler.
    destruct (JS.rem (c + 1) 3 =? 0); cbn; intros _;
      eexists; split; reflexivity. }
  destruct (Hsrc k) as (a1 & C1 & S1).
  destruct (Hsrc (k + 1)) as (a2 & C2 & S2).
  destruct (Hsrc (k + 2)) as (a3 & C3 & S3).
  replace (k + 1 + 1) with (k + 2) in * by lia.
  replace (k + 2 + 1) with (k + 3) in * by lia.
  rewrite R1 in S1. rewrite R2 in S2. rewrite R3 in S3.
  cbn in S1, S2, S3.
  eexists. eexists. split.
  - apply (fetch_page_fail_fail_ok _ draw fuel k (k + 1) (k + 2) (k + 3)
             a1 a2 a3 j C1 C2 C3); try assumption.
    + rewrite S1. reflexivity.
    + rewrite S2. reflexivity.
    + rewrite S3. reflexivity.
  - cbn. repeat split; try assumption; reflexivity.
Qed.

Lemma flaky_fetch_two_warnings_witness :
  exists j' evs,
    Engine.fetch_page (Engine.flaky_source (fun _ => 0) (Some 1)) 7 3
      MockServer.ApiFlaky.initial_flakyCallCount
      (Engine.mkJob "flaky" "curl x" 5 15 true None Engine.running
         1 0 0 None)
    = Some (3, j', evs)
    /\ Engine.warnings evs = 2%nat
    /\ Engine.backoffs evs = [2; 4].
Proof.
  destruct (flaky_fetch_two_warnings (fun _ => 0) (Some 1) 7 3
              MockServer.ApiFlaky.initial_flakyCallCount
              (Engine.mkJob "flaky" "curl x" 5 15 true None Engine.running
                 1 0 0 None))
    as (_ & j' & evs & Hrun & Hw & Hb & _);
    [unfold MockServer.ApiFlaky.initial_flakyCallCount; lia
    | reflexivity | reflexivity | reflexivity | lia |].
  exists j', evs. repeat split; assumption.
Defined.

(** ** Starting a crawl *)

(** The form itself posts a configuration whose intervals are inverted:
    the handlers of both components check only the validation result and
    the table name. *)
Example form_posts_inverted_intervals :
  forall B,
    option_map
      (fun c => (Engine.cfg_start_interval c, Engine.cfg_end_interval c))
      (CrawlForm.handleStartCrawl B "curl http://localhost:3001/api/users"
         (CrawlForm.mk (Some (CrawlForm.mkValidation true)) "users"
            EmptyString "15" "5" true false EmptyString EmptyString))
    = Some (Some 15, Some 5).
Proof. intros B. reflexivity. Qed.

(** C5: a job configuration with [start_interval > end_interval] is
    rejected by the start of a crawl and the job table is unchanged: no
    job comes into existence, whether the request builder or the cURL
    input posted it. *)
Theorem inverted_intervals_create_no_job
  (has_url : string -> bool) (jobs : list Engine.Job)
  (c : Engine.JobConfig) (s e : Z) :
  Engine.cfg_start_interval c = Some s ->
  Engine.cfg_end_interval c = Some e ->
  s > e ->
  Engine.start_crawl has_url jobs c = (jobs, Engine.RejectedConfig)
  /\ (forall B st,
         RequestBuilder.handleStartCrawl B st = Some c ->
         CrawlForm.submit B has_url jobs
           (RequestBuilder.generateCurl B st) (RequestBuilder.form st)
         = jobs)
  /\ (forall B st,
         CurlInput.handleStartCrawl B st = Some c ->
         CrawlForm.submit B has_url jobs
           (CurlInput.curlCommand st) (CurlInput.form st)
         = jobs).
Proof.
  intros Hs He Hgt.
  assert (Hrej : Engine.start_crawl has_url jobs c
                 = (jobs, Engine.RejectedConfig)).
  { unfold Engine.start_crawl, Engine.config_ok. rewrite Hs, He.
    destruct (Z.leb_spec s e); [lia |].
    rewrite andb_false_r. reflexivity. }
  split; [exact Hrej |].
  split; intros B st Hsent; unfold CrawlForm.submit.
  - unfold RequestBuilder.handleStartCrawl in Hsent.
    rewrite Hsent, Hrej. reflexivity.
  - unfold CurlInput.handleStartCrawl in Hsent.
    rewrite Hsent, Hrej. reflexivity.
Qed.

Lemma inverted_intervals_create_no_job_witness :
  Engine.start_crawl (fun _ => true) []
    (Engine.mkConfig "curl http://localhost:3001/api/users" "users"
       (Some 15) (Some 5) true None None None)
  = ([], Engine.RejectedConfig).
Proof.
  apply (inverted_intervals_create_no_job (fun _ => true) []
           (Engine.mkConfig "curl http://localhost:3001/api/users" "users"
              (Some 15) (Some 5) true None None None) 15 5);
    [reflexivity | reflexivity | lia].
Defined.

(** ** Pagination detection *)

(** C8: a sample whose response has a [next_cursor] field and whose
    request carries a [page] parameter is classified as cursor, not page,
    under either reading of the order of the later tests. *)
Theorem next_cursor_beats_page
  (page_first : bool) (rq : Detector.sample_request)
  (fields : list (string * Json.t)) (k : string) (v : Json.t) :
  In (k, v) fields ->
  JStr.toLowerCase k = "next_cursor"%string ->
  In "page"%string (Detector.params rq) ->
  Detector.detect page_first rq (Json.JObject fields) = Detector.cursor
  /\ Detector.detect page_first rq (Json.JObject fields) <> Detector.page.
Proof.
  intros Hin Hk Hpage.
  assert (Hc : Detector.is_cursor rq (Json.JObject fields) = true).
  { unfold Detector.is_cursor.
    assert (Hci : Detector.has_any_ci Detector.cursor_fields
                    (Detector.keys (Json.JObject fields)) = true).
    { unfold Detector.has_any_ci, Detector.cursor_fields.
      cbn [existsb]. apply orb_true_iff. left.
      apply existsb_exists. exists k. split.
      - cbn [Detector.keys]. apply in_map_iff. exists (k, v). auto.
      - rewrite Hk. reflexivity. }
    rewrite Hci. reflexivity. }
  unfold Detector.detect. rewrite Hc. split; [reflexivity | discriminate].
Qed.

Lemma next_cursor_beats_page_witness :
  Detector.detect true (Detector.mkRequest ["page"; "limit"]%string)
    (Json.JObject
       [("data"%string, Json.JArray []);
        ("next_cursor"%string, Json.JNum 20);
        ("has_more"%string, Json.JBool true)])
  = Detector.cursor.
Proof.
  apply (next_cursor_beats_page true
           (Detector.mkRequest ["page"; "limit"]%string)
           _ "next_cursor"%string (Json.JNum 20));
    [right; left; reflexivity | reflexivity | left; reflexivity].
Defined.

(** ** The live log viewer *)

Lemma slice_from_last {A : Type} (l : list A) (n : Z) :
  0 < n ->
  JS.slice_from l (- n) = LiveLogViewer.last_n (Z.to_nat n) l.
Proof.
  intros Hn. unfold JS.slice_from, JS.slice, JS.rel_index,
    LiveLogViewer.last_n.
  destruct (Z.ltb_spec (- n) 0); [| lia].
  destruct (Z.ltb_spec (Z.of_nat (List.length l)) 0); [lia |].
  rewrite Z.min_id.
  replace (Z.to_nat (Z.max (Z.of_nat (List.length l) + - n) 0))
    with (List.length l - Z.to_nat n)%nat by lia.
  apply firstn_all2. rewrite length_skipn. lia.
Qed.

Lemma last_n_length {A : Type} (n : nat) (l : list A) :
  List.length (LiveLogViewer.last_n n l) = Nat.min n (List.length l).
Proof. unfold LiveLogViewer.last_n. rewrite length_skipn. lia. Qed.

Lemma last_n_all {A : Type} (n : nat) (l : list A) :
  (List.length l <= n)%nat -> LiveLogViewer.last_n n l = l.
Proof.
  intros H. unfold LiveLogViewer.last_n.
  replace (List.length l - n)%nat with 0%nat by lia. reflexivity.
Qed.

Lemma last_n_absorb {A : Type} (n : nat) (a b : list A) :
  LiveLogViewer.last_n n (LiveLogViewer.last_n n a ++ b)
  = LiveLogViewer.last_n n (a ++ b).
Proof.
  destruct (Nat.le_gt_cases (List.length a) n) as [Hle | Hgt].
  - rewrite (last_n_all n a Hle). reflexivity.
  - unfold LiveLogViewer.last_n at 1 3.
    rewrite !length_app, last_n_length.
    unfold LiveLogViewer.last_n.
    replace (Nat.min n (List.length a) + List.length b - n)%nat
      with (List.length b) by lia.
    replace (List.length a + List.length b - n)%nat
      with (List.length b + (List.length a - n))%nat by lia.
    rewrite <- skipn_skipn. f_equal.
    rewrite skipn_app.
    replace (List.length a - n - List.length a)%nat with 0%nat by lia.
    reflexivity.
Qed.

Lemma onmessage_spec (m : option Json.t) (logs : list Json.t) :
  LiveLogViewer.onmessage m logs
  = if LiveLogViewer.accepted m
    then LiveLogViewer.last_n 500 (logs ++ LiveLogViewer.kept [m])
    else logs.
Proof.
  unfold LiveLogViewer.onmessage, LiveLogViewer.kept.
  cbn [flat_map]. unfold LiveLogViewer.accepted.
  destruct m as [[| | | | | fields] |]; try reflexivity.
  destruct (Json.lookup "job_id" fields) as [v |]; [| reflexivity].
  destruct (Json.truthy v); [| reflexivity].
  rewrite app_nil_r. apply (slice_from_last _ 500). lia.
Qed.

Lemma receive_spec (msgs : list (option Json.t)) :
  forall logs,
    (List.length logs <= 500)%nat ->
    LiveLogViewer.receive logs msgs
    = LiveLogViewer.last_n 500 (logs ++ LiveLogViewer.kept msgs).
Proof.
  induction msgs as [| m msgs IH]; intros logs Hlen.
  - cbn. rewrite app_nil_r. symmetry. apply last_n_all. exact Hlen.
  - change (LiveLogViewer.receive logs (m :: msgs))
      with (LiveLogViewer.receive (LiveLogViewer.onmessage m logs) msgs).
    assert (Hcons : LiveLogViewer.kept (m :: msgs)
                    = (LiveLogViewer.kept [m] ++ LiveLogViewer.kept msgs)%list).
    { unfold LiveLogViewer.kept. cbn [flat_map]. rewrite app_nil_r.
      reflexivity. }
    rewrite Hcons.
    rewrite onmessage_spec.
    destruct (LiveLogViewer.accepted m) eqn:Hacc.
    + rewrite IH by (rewrite last_n_length; lia).
      rewrite last_n_absorb, <- app_assoc. reflexivity.
    + assert (Hk : LiveLogViewer.kept [m] = []).
      { unfold LiveLogViewer.kept. cbn [flat_map]. rewrite Hacc.
        destruct m; reflexivity. }
      rewrite Hk. apply IH. exact Hlen.
Qed.

(** C10: starting from a list of at most 500 entries (the viewer starts
    empty), after each message of a run of stream messages the log list
    holds at most 500 entries, namely the last 500 of the earlier entries
    followed by the accepted messages received so far, in arrival order;
    and a message that is not valid JSON, or an object without a [job_id]
    field, leaves the list unchanged. *)
Theorem log_list_keeps_last_500
  (logs : list Json.t) (msgs : list (option Json.t)) (k : nat) :
  (List.length logs <= 500)%nat ->
  let so_far := firstn k msgs in
  let logs' := LiveLogViewer.receive logs so_far in
  (List.length logs' <= 500)%nat
  /\ logs' = LiveLogViewer.last_n 500 (logs ++ LiveLogViewer.kept so_far)
  /\ LiveLogViewer.onmessage None logs' = logs'
  /\ (forall fields,
         Json.lookup "job_id" fields = None ->
         LiveLogViewer.onmessage (Some (Json.JObject fields)) logs' = logs').
Proof.
  intros Hlen so_far logs'. subst logs'.
  rewrite (receive_spec so_far logs Hlen).
  split; [rewrite last_n_length; lia |].
  split; [reflexivity |].
  split; [reflexivity |].
  intros fields Hno. unfold LiveLogViewer.onmessage. rewrite Hno.
  reflexivity.
Qed.

Lemma log_list_keeps_last_500_witness :
  LiveLogViewer.receive []
    [Some (Json.JObject [("job_id"%string, Json.JString "a1");
                         ("message"%string, Json.JString "page 1")]);
     None;
     Some (Json.JObject [("type"%string, Json.JString "keepalive")])]
  = [Json.JObject [("job_id"%string, Json.JString "a1");
                   ("message"%string, Json.JString "page 1")]].
Proof.
  destruct (log_list_keeps_last_500 []
    [Some (Json.JObject [("job_id"%string, Json.JString "a1");
                         ("message"%string, Json.JString "page 1")]);
     None;
     Some (Json.JObject [("type"%string, Json.JString "keepalive")])] 3)
    as (_ & Heq & _); [simpl; lia |].
  cbn [firstn] in Heq. rewrite Heq. reflexivity.
Defined.

(** ** Strings *)

Lemma append_assoc (a b c : string) :
  ((a ++ b) ++ c = a ++ (b ++ c))%string.
Proof. induction a as [| x a IH]; cbn; [reflexivity | now rewrite IH]. Qed.

Lemma append_nil_r (a : string) : (a ++ EmptyString)%string = a.
Proof. induction a as [| x a IH]; cbn; [reflexivity | now rewrite IH]. Qed.

Lemma length_append (a b : string) :
  String.length (a ++ b) = (String.length a + String.length b)%nat.
Proof. induction a as [| x a IH]; cbn; [reflexivity | now rewrite IH]. Qed.

Lemma strip_prefix_app (p s : string) :
  JStr.strip_prefix p (p ++ s) = Some s.
Proof.
  induction p as [| c p IH]; cbn; [reflexivity |].
  rewrite Ascii.eqb_refl. exact IH.
Qed.

Lemma span_app (p : ascii -> bool) (a b : string) :
  JStr.forallb p a = true -> stops p b -> JStr.span p (a ++ b) = (a, b).
Proof.
  intros Ha Hb. induction a as [| c a IH]; cbn in *.
  - destruct b as [| d b]; [reflexivity |]. cbn. now rewrite Hb.
  - apply andb_true_iff in Ha as [Hc Ha]. rewrite Hc, (IH Ha). reflexivity.
Qed.

(** ** Searching for a flag *)

Lemma quiet_dashless (x : ascii) (p r : string) :
  dashless p = true -> quiet x p r.
Proof.
  unfold dashless. induction p as [| c p IH]; cbn; [trivial |].
  intros H. apply andb_true_iff in H as [Hc Hp].
  apply negb_true_iff in Hc. rewrite Hc. split; [reflexivity | auto].
Qed.

Lemma quiet_no_flag (x : ascii) (p r : string) :
  JStr.has_flag x p = false -> next_ok x r -> quiet x p r.
Proof.
  intros Hp Hr. induction p as [| c p IH]; [exact I |].
  cbn [JStr.has_flag] in Hp. apply orb_false_iff in Hp as [Hhere Hp].
  split; [| exact (IH Hp)].
  revert Hhere. cbn [JStr.flag_here].
  destruct (Ascii.eqb c "-"); [| reflexivity].
  destruct p as [| d [| e p]]; cbn [String.append].
  - intros _. destruct r as [| f [| g r]]; try reflexivity;
      cbn in Hr; destruct Hr as [Hf _]; now rewrite Hf.
  - intros _. destruct r as [| f r]; [reflexivity |].
    cbn in Hr. destruct Hr as [_ Hf]. rewrite Hf. apply andb_false_r.
  - trivial.
Qed.

Lemma no_space_no_flag (x : ascii) (s : string) :
  JStr.forallb (fun c => negb (JStr.is_space c)) s = true ->
  JStr.has_flag x s = false.
Proof.
  induction s as [| c s IH]; [reflexivity |].
  intros H. cbn [JStr.forallb] in H. apply andb_true_iff in H as [_ Hs].
  cbn [JStr.has_flag]. rewrite (IH Hs), orb_false_r.
  cbn [JStr.flag_here]. destruct (Ascii.eqb c "-"); [| reflexivity].
  destruct s as [| d [| e s]]; try reflexivity.
  cbn [JStr.forallb] in Hs.
  apply andb_true_iff in Hs as [_ Hs]. apply andb_true_iff in Hs as [He _].
  apply negb_true_iff in He. rewrite He. apply andb_false_r.
Qed.

Lemma strip_prefix_some (p s r : string) :
  JStr.strip_prefix p s = Some r -> s = (p ++ r)%string.
Proof.
  revert s. induction p as [| c p IH]; intros s; cbn [JStr.strip_prefix].
  - intros [= ->]. reflexivity.
  - destruct s as [| d s]; [discriminate |].
    destruct (Ascii.eqb_spec c d) as [-> |]; [| discriminate].
    intros H. cbn [String.append]. f_equal. exact (IH s H).
Qed.

(** The first character after a flag letter, when the flag is not
    followed by white space. *)
Lemma flag_here_false (x : ascii) (r : string) :
  JStr.flag_here x (String "-" (String x r)) = false ->
  fst (JStr.span JStr.is_space r) = EmptyString.
Proof.
  cbn [JStr.flag_here]. rewrite !Ascii.eqb_refl.
  destruct r as [| e r]; [reflexivity |].
  cbn [andb JStr.span]. intros ->. reflexivity.
Qed.

Lemma method_at_anchored (s : string) :
  JStr.flag_here "X" s = false -> JobsList.method_at s = None.
Proof.
  intros H. unfold JobsList.method_at.
  destruct (JStr.strip_prefix "-X" s) as [r |] eqn:Hs; [| reflexivity].
  apply strip_prefix_some in Hs. subst s.
  apply flag_here_false in H.
  destruct (JStr.span JStr.is_space r) as [ws r1]. cbn [fst] in H.
  subst ws. reflexivity.
Qed.

Lemma header_at_anchored (s : string) :
  JStr.flag_here "H" s = false -> JobsList.header_at s = None.
Proof.
  intros H. unfold JobsList.header_at.
  destruct (JStr.strip_prefix "-H" s) as [r |] eqn:Hs; [| reflexivity].
  apply strip_prefix_some in Hs. subst s.
  apply flag_here_false in H.
  destruct (JStr.span JStr.is_space r) as [ws r1]. cbn [fst] in H.
  subst ws. reflexivity.
Qed.

Lemma search_quiet (p r : string) :
  quiet "X" p r ->
  JobsList.search JobsList.method_at (p ++ r)
  = JobsList.search JobsList.method_at r.
Proof.
  induction p as [| c p IH]; [reflexivity |].
  intros [Hc Hp]. cbn [String.append JobsList.search].
  rewrite (method_at_anchored _ Hc). exact (IH Hp).
Qed.

Lemma no_flag_no_method (s : string) :
  JStr.has_flag "X" s = false ->
  JobsList.search JobsList.method_at s = None.
Proof.
  intros H. rewrite <- (append_nil_r s).
  rewrite search_quiet; [reflexivity |].
  apply quiet_no_flag; [exact H | exact I].
Qed.

(** ** The method recovered by the jobs list *)

(** C6 (as written) fails: a command with a body flag and no method flag
    is read back with the method GET. *)
Lemma body_flag_without_method_is_GET :
  let cmd :=
    ("curl http://localhost:3001/api/auth/data"
       ++ " -H 'Content-Type: application/json' -d '{}'")%string in
  exists r,
    JobsList.extractRequestFromJob
      (Some (JobsList.mkJob (Some cmd) (Some "auth_data"%string)))
    = Some r
    /\ JobsList.method r = "GET"%string
    /\ JobsList.method r <> "POST"%string.
Proof.
  eexists. split; [vm_compute; reflexivity |].
  split; [reflexivity | discriminate].
Qed.

(** C6 (amended): for every raw request description in which no method
    flag occurs ([-X] followed by white space), the jobs list reads the
    method GET, whether or not a body flag is present; the body is never
    read back (the body type is always [none] and the body text empty). *)
Theorem no_method_flag_reads_GET (job : JobsList.Job) (cmd : string) :
  JobsList.curl_command job = Some cmd ->
  JStr.truthy cmd = true ->
  JStr.has_flag "X" cmd = false ->
  exists r,
    JobsList.extractRequestFromJob (Some job) = Some r
    /\ JobsList.method r = "GET"%string
    /\ JobsList.bodyType r = "none"%string
    /\ JobsList.jsonBody r = EmptyString.
Proof.
  intros Hcmd Hne Hflag. unfold JobsList.extractRequestFromJob.
  rewrite Hcmd, Hne. cbn [negb].
  rewrite (no_flag_no_method cmd Hflag).
  eexists. split; [reflexivity |]. repeat split.
Qed.

Lemma no_method_flag_reads_GET_witness :
  exists r,
    JobsList.extractRequestFromJob
      (Some (JobsList.mkJob
               (Some "curl http://localhost:3001/api/auth/data -d '{}'"%string)
               None))
    = Some r
    /\ JobsList.method r = "GET"%string
    /\ JobsList.bodyType r = "none"%string
    /\ JobsList.jsonBody r = EmptyString.
Proof.
  apply (no_method_flag_reads_GET
           (JobsList.mkJob
              (Some "curl http://localhost:3001/api/auth/data -d '{}'"%string)
              None)
           "curl http://localhost:3001/api/auth/data -d '{}'");
    reflexivity.
Defined.

(** ** The headers object of the request builder *)

Lemma set_keys_in (k v k' : string) (o : JsObject.t) :
  In k' (map fst (JsObject.set k v o)) <-> k' = k \/ In k' (map fst o).
Proof.
  induction o as [| [k0 v0] o IH]; cbn [JsObject.set map fst In].
  - intuition congruence.
  - destruct (String.eqb_spec k k0) as [-> | Hne]; cbn [map fst In].
    + intuition congruence.
    + rewrite IH. intuition congruence.
Qed.

Lemma set_keys_nodup (k v : string) (o : JsObject.t) :
  NoDup (map fst o) -> NoDup (map fst (JsObject.set k v o)).
Proof.
  induction o as [| [k0 v0] o IH]; cbn [JsObject.set map fst]; intros H.
  - constructor; [intros [] | constructor].
  - inversion H as [| ? ? Hnotin Hnd]; subst.
    destruct (String.eqb_spec k k0) as [-> | Hne]; cbn [map fst].
    + constructor; assumption.
    + constructor; [| exact (IH Hnd)].
      rewrite set_keys_in. intros [-> | Hin]; [congruence | contradiction].
Qed.

Lemma assign_keys_nodup (k v : string) (o : JsObject.t) :
  NoDup (map fst o) -> NoDup (map fst (JsObject.assign k v o)).
Proof.
  intros H. unfold JsObject.assign.
  destruct (String.eqb k "__proto__"); [exact H | now apply set_keys_nodup].
Qed.

Lemma fold_assign_nodup (rows : list RequestBuilder.KV) :
  forall o,
    NoDup (map fst o) ->
    NoDup (map fst
             (fold_left
                (fun o h => JsObject.assign (RequestBuilder.key h)
                              (RequestBuilder.value h) o) rows o)).
Proof.
  induction rows as [| h rows IH]; intros o H; cbn [fold_left].
  - exact H.
  - apply IH. now apply assign_keys_nodup.
Qed.

Lemma get_set (k v k' : string) (o : JsObject.t) :
  JsObject.get k' (JsObject.set k v o)
  = if String.eqb k' k then Some v else JsObject.get k' o.
Proof.
  induction o as [| [k0 v0] o IH]; cbn [JsObject.set JsObject.get].
  - reflexivity.
  - destruct (String.eqb_spec k k0) as [-> | Hne]; cbn [JsObject.get].
    + destruct (String.eqb k' k0); reflexivity.
    + rewrite IH.
      destruct (String.eqb_spec k' k0) as [-> | Hne'];
        [| reflexivity].
      destruct (String.eqb_spec k0 k); congruence.
Qed.

Lemma get_assign (k v k' : string) (o : JsObject.t) :
  k' <> "__proto__"%string ->
  JsObject.get k' (JsObject.assign k v o)
  = if String.eqb k' k then Some v else JsObject.get k' o.
Proof.
  intros Hk'. unfold JsObject.assign.
  destruct (String.eqb_spec k "__proto__") as [-> | Hk].
  - destruct (String.eqb_spec k' "__proto__"); [contradiction | reflexivity].
  - apply get_set.
Qed.

Lemma find_snoc {A : Type} (p : A -> bool) (l : list A) (x : A) :
  find p (l ++ [x])
  = match find p l with
    | Some y => Some y
    | None => if p x then Some x else None
    end.
Proof.
  induction l as [| y l IH]; cbn; [reflexivity |].
  destruct (p y); [reflexivity | exact IH].
Qed.

(** Last write wins. *)
Lemma get_fold_assign (k : string) (rows : list RequestBuilder.KV) :
  k <> "__proto__"%string ->
  forall o,
    JsObject.get k
      (fold_left
         (fun o h => JsObject.assign (RequestBuilder.key h)
                       (RequestBuilder.value h) o) rows o)
    = match find (fun h => String.eqb (RequestBuilder.key h) k) (rev rows)
      with
      | Some h => Some (RequestBuilder.value h)
      | None => JsObject.get k o
      end.
Proof.
  intros Hk. induction rows as [| h rows IH]; intros o.
  - reflexivity.
  - cbn [fold_left rev]. rewrite IH, find_snoc.
    destruct (find _ (rev rows)); [reflexivity |].
    rewrite (get_assign _ _ _ _ Hk), String.eqb_sym. 
    destruct (String.eqb (RequestBuilder.key h) k); reflexivity.
Qed.

Lemma buildHeaders_plain (st : RequestBuilder.State) :
  RequestBuilder.authType st = "none"%string ->
  RequestBuilder.bodyType st = "none"%string ->
  RequestBuilder.buildHeaders st
  = fold_left
      (fun o h => JsObject.assign (RequestBuilder.key h)
                    (RequestBuilder.value h) o)
      (RequestBuilder.active (RequestBuilder.headers st)) JsObject.empty.
Proof.
  intros Ha Hb. unfold RequestBuilder.buildHeaders. rewrite Ha, Hb.
  reflexivity.
Qed.

(** *** The order of the headers object *)

Lemma set_keys (k v : string) (o : JsObject.t) :
  map fst (JsObject.set k v o)
  = if existsb (String.eqb k) (map fst o) then map fst o
    else (map fst o ++ [k])%list.
Proof.
  induction o as [| [k0 v0] o IH];
    cbn [JsObject.set map fst existsb List.app]; [reflexivity |].
  destruct (String.eqb_spec k k0) as [-> | Hne]; cbn [map fst orb].
  - reflexivity.
  - rewrite IH. destruct (existsb (String.eqb k) (map fst o)); reflexivity.
Qed.

Lemma filter_twice {A : Type} (p q : A -> bool) (l : list A) :
  filter p (filter q l) = filter (fun x => q x && p x) l.
Proof.
  induction l as [| x l IH]; cbn [filter]; [reflexivity |].
  destruct (q x); cbn [filter andb]; rewrite IH; reflexivity.
Qed.

Lemma filter_all {A : Type} (l : list A) : filter (fun _ => true) l = l.
Proof. induction l as [| x l IH]; cbn; [reflexivity | now rewrite IH]. Qed.

(** The keys of the object after the rows are written: those it had,
    then the new names where the rows first give them. *)
Lemma keys_fold_assign (rows : list RequestBuilder.KV) :
  forall o,
    map fst
      (fold_left
         (fun o h => JsObject.assign (RequestBuilder.key h)
                       (RequestBuilder.value h) o) rows o)
    = (map fst o
       ++ filter (fun k => negb (existsb (String.eqb k) (map fst o)))
            (first_occurrences (written_names rows)))%list.
Proof.
  induction rows as [| h rows IH]; intros o.
  - cbn. now rewrite app_nil_r.
  - cbn [fold_left]. rewrite IH. unfold written_names at 2.
    cbn [map filter]. fold (written_names rows).
    unfold JsObject.assign.
    destruct (String.eqb_spec (RequestBuilder.key h) "__proto__")
      as [E | E]; cbn [negb]; [reflexivity |].
    set (k := RequestBuilder.key h) in *.
    cbn [first_occurrences filter]. rewrite set_keys.
    destruct (existsb (String.eqb k) (map fst o)) eqn:Hin; cbn [negb].
    + f_equal. rewrite filter_twice. apply filter_ext.
      intros x. destruct (String.eqb_spec x k) as [-> | Hx];
        cbn [negb andb]; [| reflexivity].
      rewrite Hin. reflexivity.
    + rewrite <- app_assoc. cbn [List.app]. do 2 f_equal.
      rewrite filter_twice. apply filter_ext.
      intros x. rewrite existsb_app. cbn [existsb].
      rewrite orb_false_r, negb_orb. apply andb_comm.
Qed.

Lemma assign_no_proto (k v : string) (o : JsObject.t) :
  ~ In "__proto__"%string (map fst o) ->
  ~ In "__proto__"%string (map fst (JsObject.assign k v o)).
Proof.
  intros H. unfold JsObject.assign.
  destruct (String.eqb_spec k "__proto__") as [E | E]; [exact H |].
  rewrite set_keys_in. intros [C | C]; [congruence | contradiction].
Qed.

Lemma fold_assign_no_proto (rows : list RequestBuilder.KV) :
  forall o,
    ~ In "__proto__"%string (map fst o) ->
    ~ In "__proto__"%string
        (map fst
           (fold_left
              (fun o h => JsObject.assign (RequestBuilder.key h)
                            (RequestBuilder.value h) o) rows o)).
Proof.
  induction rows as [| h rows IH]; intros o H; cbn [fold_left].
  - exact H.
  - apply IH. now apply assign_no_proto.
Qed.

Lemma insert_by_index_perm (kv : string * string) (l : JsObject.t) :
  Permutation (JsObject.insert_by_index kv l) (kv :: l).
Proof.
  induction l as [| x l IH]; cbn [JsObject.insert_by_index].
  - apply Permutation_refl.
  - destruct (JsObject.index_of kv <? JsObject.index_of x);
      [apply Permutation_refl |].
    eapply Permutation_trans; [apply perm_skip, IH | apply perm_swap].
Qed.

Lemma sorted_indices_perm (l : JsObject.t) :
  Permutation (fold_right JsObject.insert_by_index [] l) l.
Proof.
  induction l as [| x l IH]; cbn [fold_right]; [constructor |].
  eapply Permutation_trans; [apply insert_by_index_perm |].
  apply perm_skip, IH.
Qed.

Lemma insert_by_index_sorted (kv : string * string) (l : JsObject.t) :
  StronglySorted index_le l ->
  StronglySorted index_le (JsObject.insert_by_index kv l).
Proof.
  induction 1 as [| x l Hs IH Hx]; cbn [JsObject.insert_by_index].
  - constructor; constructor.
  - unfold index_le in *.
    destruct (Z.ltb_spec (JsObject.index_of kv) (JsObject.index_of x)).
    + constructor; [constructor; assumption |].
      constructor; [lia |].
      eapply Forall_impl; [| exact Hx]. cbn. intros y Hy. lia.
    + constructor; [exact IH |].
      eapply Permutation_Forall;
        [apply Permutation_sym, insert_by_index_perm |].
      constructor; [lia | exact Hx].
Qed.

Lemma sorted_indices_sorted (l : JsObject.t) :
  StronglySorted index_le (fold_right JsObject.insert_by_index [] l).
Proof.
  induction l as [| x l IH]; cbn [fold_right]; [constructor |].
  apply insert_by_index_sorted, IH.
Qed.

(** Names that are array indices are enumerated first and in numeric
    order, whatever the order of the rows. *)
Example index_names_enumerate_first :
  JsObject.entries
    (RequestBuilder.buildHeaders
       (RequestBuilder.setHeaders
          [RequestBuilder.mkKV "b" "1" true;
           RequestBuilder.mkKV "10" "2" true;
           RequestBuilder.mkKV "9" "3" true]
          RequestBuilder.initial))
  = [("9", "3"); ("10", "2"); ("b", "1")]%string.
Proof. reflexivity. Qed.

(** C7 (as written) fails: two enabled rows with the same name and
    different values give one entry, holding the later value; and two
    names that differ only in case give two entries. *)
Lemma repeated_header_name_overwrites :
  let st rows := RequestBuilder.setHeaders rows RequestBuilder.initial in
  let twice := [RequestBuilder.mkKV "X-Tag" "a" true;
                RequestBuilder.mkKV "X-Tag" "b" true] in
  let cases := [RequestBuilder.mkKV "accept" "a" true;
                RequestBuilder.mkKV "Accept" "b" true] in
  RequestBuilder.buildHeaders (st twice) = [("X-Tag", "b")]%string
  /\ ~ In ("X-Tag", "a")%string (RequestBuilder.buildHeaders (st twice))
  /\ RequestBuilder.buildHeaders (st cases)
     = [("accept", "a"); ("Accept", "b")]%string.
Proof.
  cbv zeta. split; [reflexivity |]. split; [| reflexivity].
  vm_compute. intros [H | []]. discriminate H.
Qed.

(** C7 (amended): the headers of the built request form a mapping whose
    keys are unique and compare exactly, case included, and are never
    the name [__proto__].  It is enumerated with the names that are
    array indices first, in ascending numeric order, and then the other
    names in insertion order; with no authentication and no body the
    insertion order is that in which the enabled rows first give each
    name.  A repeated header name appends nothing and replaces the value
    of the existing entry, so that, with no authentication and no body,
    the value read under a name other than [__proto__] is that of the
    last enabled row with that name; in particular two enabled rows with
    the same name, other than [__proto__], leave one entry, holding the
    value of the second. *)
Theorem headers_object_last_write_wins (st : RequestBuilder.State) :
  NoDup (map fst (RequestBuilder.buildHeaders st))
  /\ ~ In "__proto__"%string (map fst (RequestBuilder.buildHeaders st))
  /\ (exists indices,
        JsObject.entries (RequestBuilder.buildHeaders st)
        = (indices
           ++ filter (fun kv => negb (JsObject.is_index kv))
                (RequestBuilder.buildHeaders st))%list
        /\ Permutation indices
             (filter JsObject.is_index (RequestBuilder.buildHeaders st))
        /\ StronglySorted index_le indices)
  /\ (RequestBuilder.authType st = "none"%string ->
      RequestBuilder.bodyType st = "none"%string ->
      map fst (RequestBuilder.buildHeaders st)
      = first_occurrences
          (written_names
             (RequestBuilder.active (RequestBuilder.headers st)))
      /\ (forall k,
             k <> "__proto__"%string ->
             JsObject.get k (RequestBuilder.buildHeaders st)
             = option_map RequestBuilder.value
                 (find (fun h => String.eqb (RequestBuilder.key h) k)
                    (rev (RequestBuilder.active
                            (RequestBuilder.headers st)))))
      /\ (forall k v1 v2,
             k <> "__proto__"%string ->
             RequestBuilder.active (RequestBuilder.headers st)
             = [RequestBuilder.mkKV k v1 true;
                RequestBuilder.mkKV k v2 true] ->
             RequestBuilder.buildHeaders st = [(k, v2)])).
Proof.
  split; [| split; [| split]].
  - unfold RequestBuilder.buildHeaders.
    set (rows := fold_left _ _ JsObject.empty).
    assert (Hrows : NoDup (map fst rows)).
    { apply fold_assign_nodup. constructor. }
    repeat match goal with
           | |- context [if ?b then _ else _] => destruct b
           end;
      repeat apply assign_keys_nodup; exact Hrows.
  - unfold RequestBuilder.buildHeaders.
    set (rows := fold_left _ _ JsObject.empty).
    assert (Hrows : ~ In "__proto__"%string (map fst rows)).
    { apply fold_assign_no_proto. intros []. }
    repeat match goal with
           | |- context [if ?b then _ else _] => destruct b
           end;
      repeat apply assign_no_proto; exact Hrows.
  - exists (fold_right JsObject.insert_by_index []
              (filter JsObject.is_index (RequestBuilder.buildHeaders st))).
    split; [reflexivity |].
    split; [apply sorted_indices_perm | apply sorted_indices_sorted].
  - intros Ha Hb. rewrite (buildHeaders_plain st Ha Hb). split; [| split].
    + rewrite keys_fold_assign. cbn [JsObject.empty map existsb negb].
      cbn [List.app]. apply filter_all.
    + intros k Hk. rewrite (get_fold_assign k _ Hk).
      destruct (find _ _); reflexivity.
    + intros k v1 v2 Hk Hrows. rewrite Hrows.
      cbn [fold_left RequestBuilder.key RequestBuilder.value].
      unfold JsObject.assign, JsObject.empty.
      destruct (String.eqb_spec k "__proto__"); [contradiction |].
      cbn [JsObject.set]. rewrite String.eqb_refl. reflexivity.
Qed.

Lemma headers_object_last_write_wins_witness :
  RequestBuilder.buildHeaders
    (RequestBuilder.setHeaders
       [RequestBuilder.mkKV "X-Tag" "a" true;
        RequestBuilder.mkKV "X-Tag" "b" true]
       RequestBuilder.initial)
  = [("X-Tag", "b")]%string.
Proof.
  destruct (headers_object_last_write_wins
    (RequestBuilder.setHeaders
       [RequestBuilder.mkKV "X-Tag" "a" true;
        RequestBuilder.mkKV "X-Tag" "b" true]
       RequestBuilder.initial))
    as (_ & _ & _ & H).
  destruct (H eq_refl eq_refl) as (_ & _ & Htwo).
  apply (Htwo "X-Tag"%string "a"%string "b"%string);
    [discriminate | reflexivity].
Defined.

(** ** The layout of the generated command *)

Local Open Scope string_scope.

Lemma fold_header_flags (hs : list (string * string)) :
  forall c,
    fold_left (fun c kv => c ++ RequestBuilder.header_flag kv) hs c
    = c ++ headers_part hs.
Proof.
  induction hs as [| kv hs IH]; intros c; cbn [fold_left headers_part
                                                 fold_right].
  - now rewrite append_nil_r.
  - rewrite IH, append_assoc. reflexivity.
Qed.

Lemma render_layout (u m : string) (hs : list (string * string))
  (body : option string) :
  RequestBuilder.render u m hs body
  = "curl " ++ RequestBuilder.quote u
      ++ method_part m ++ headers_part hs ++ body_part m body.
Proof.
  unfold RequestBuilder.render, method_part, body_part.
  rewrite fold_header_flags.
  destruct (negb (String.eqb m "GET")); destruct body as [b |];
    try destruct (JStr.truthy b); cbn [andb];
    rewrite ?append_assoc, ?append_nil_r; cbn [String.append];
    rewrite ?append_assoc, ?append_nil_r; reflexivity.
Qed.

(** A literal piece of the command holds no flag [-x]. *)
Ltac fixed_piece :=
  first [ apply quiet_dashless; reflexivity
        | cbn; repeat split; reflexivity ].

Lemma quiet_app (x : ascii) (a b r : string) :
  quiet x a (b ++ r) -> quiet x b r -> quiet x (a ++ b) r.
Proof.
  intros Ha Hb. induction a as [| c a IH]; [exact Hb |].
  destruct Ha as [Hc Ha]. cbn [String.append quiet].
  rewrite append_assoc. split; [exact Hc | exact (IH Ha)].
Qed.

Lemma forallb_app (p : ascii -> bool) (a b : string) :
  JStr.forallb p (a ++ b) = JStr.forallb p a && JStr.forallb p b.
Proof.
  induction a as [| c a IH]; cbn; [reflexivity |].
  now rewrite IH, andb_assoc.
Qed.

Lemma word_dashless (m : string) :
  JStr.forallb JStr.is_word m = true -> dashless m = true.
Proof.
  unfold dashless. induction m as [| c m IH]; cbn; [reflexivity |].
  intros H. apply andb_true_iff in H as [Hc Hm]. rewrite (IH Hm).
  destruct (Ascii.eqb_spec c "-") as [-> |]; [discriminate | reflexivity].
Qed.

(** The URL read back. *)
Lemma url_read_back (u rest : string) :
  JStr.truthy u = true ->
  JStr.forallb (fun c => negb (Ascii.eqb c JStr.DQ)) u = true ->
  JobsList.search JobsList.url_at ("curl " ++ RequestBuilder.quote u ++ rest)
  = Some u.
Proof.
  intros Hne Hdq.
  assert (Hat : JobsList.url_at
                  ("curl " ++ RequestBuilder.quote u ++ rest) = Some u).
  { unfold JobsList.url_at, RequestBuilder.quote.
    change ("curl " ++ String JStr.DQ (u ++ String JStr.DQ "") ++ rest)
      with ("curl" ++ " " ++ String JStr.DQ
              ((u ++ String JStr.DQ "") ++ rest)).
    rewrite strip_prefix_app.
    rewrite (span_app JStr.is_space " " _ eq_refl) by reflexivity.
    cbn [JStr.truthy negb]. unfold JobsList.quoted_at.
    rewrite Ascii.eqb_refl. cbn [negb].
    rewrite append_assoc.
    rewrite (span_app _ u _ Hdq) by reflexivity.
    rewrite Hne. reflexivity. }
  destruct ("curl " ++ RequestBuilder.quote u ++ rest) eqn:E;
    cbn [JobsList.search]; rewrite Hat; reflexivity.
Qed.

Lemma search_here {A : Type} (at_ : string -> option A) (s : string)
  (x : A) :
  at_ s = Some x -> JobsList.search at_ s = Some x.
Proof. intros H. destruct s; cbn [JobsList.search]; now rewrite H. Qed.

Lemma word_not_space (c : ascii) :
  JStr.is_word c = true -> JStr.is_space c = false.
Proof.
  destruct c as [[|] [|] [|] [|] [|] [|] [|] [|]];
    vm_compute; intros H; first [reflexivity | discriminate H].
Qed.

Lemma word_stops_space (m rest : string) :
  JStr.truthy m = true -> JStr.forallb JStr.is_word m = true ->
  stops JStr.is_space (m ++ rest).
Proof.
  destruct m as [| c m]; [discriminate |]. intros _ H.
  cbn [JStr.forallb] in H. apply andb_true_iff in H as [Hc _].
  cbn [String.append stops]. now apply word_not_space.
Qed.

Lemma quiet_quote (x : ascii) (u r : string) :
  quiet x u (String JStr.DQ r) -> quiet x (RequestBuilder.quote u) r.
Proof.
  intros Hu. unfold RequestBuilder.quote.
  change (String JStr.DQ (u ++ String JStr.DQ ""))
    with (String JStr.DQ "" ++ (u ++ String JStr.DQ "")).
  apply quiet_app; [fixed_piece |].
  apply quiet_app; [exact Hu | apply quiet_dashless; reflexivity].
Qed.

Lemma quiet_quote_no_space (x : ascii) (u r : string) :
  Ascii.eqb JStr.DQ x = false ->
  JStr.forallb (fun c => negb (JStr.is_space c)) u = true ->
  quiet x (RequestBuilder.quote u) r.
Proof.
  intros Hx Hu. apply quiet_quote. apply quiet_no_flag.
  - now apply no_space_no_flag.
  - cbn [next_ok]. split; [exact Hx | reflexivity].
Qed.

(** The method read back when a method flag was written. *)
Lemma method_read_back (u m tail : string) :
  JStr.forallb (fun c => negb (JStr.is_space c)) u = true ->
  JStr.truthy m = true ->
  JStr.forallb JStr.is_word m = true ->
  String.eqb m "GET" = false ->
  stops JStr.is_word tail ->
  JobsList.search JobsList.method_at
    ("curl " ++ RequestBuilder.quote u ++ method_part m ++ tail)
  = Some m.
Proof.
  intros Hu Hne Hw Hget Htail. unfold method_part. rewrite Hget.
  cbn [negb]. rewrite !append_assoc.
  rewrite search_quiet by fixed_piece.
  rewrite search_quiet by (apply quiet_quote_no_space; [reflexivity | exact Hu]).
  rewrite search_quiet by fixed_piece.
  apply search_here. unfold JobsList.method_at.
  change ("-X " ++ m ++ tail) with ("-X" ++ " " ++ m ++ tail).
  rewrite strip_prefix_app.
  rewrite (span_app JStr.is_space " " _ eq_refl)
    by (now apply word_stops_space).
  cbn [JStr.truthy negb].
  rewrite (span_app JStr.is_word m tail Hw Htail), Hne. reflexivity.
Qed.

Lemma quiet_header_flag (k v r : string) :
  JStr.has_flag "X" k = false -> JStr.has_flag "X" v = false ->
  quiet "X" (RequestBuilder.header_flag (k, v)) r.
Proof.
  intros Hk Hv. unfold RequestBuilder.header_flag. cbn [fst snd].
  apply quiet_app; [fixed_piece |].
  apply quiet_app; [fixed_piece |].
  apply quiet_quote.
  apply quiet_app; [apply quiet_no_flag; [exact Hk | cbn; auto] |].
  apply quiet_app; [fixed_piece |].
  apply quiet_no_flag; [exact Hv | cbn; auto].
Qed.

Lemma quiet_headers_part (hs : list (string * string)) :
  Forall no_method_text hs -> quiet "X" (headers_part hs) EmptyString.
Proof.
  induction 1 as [| [k v] hs [Hk Hv] _ IH]; cbn [headers_part fold_right].
  - exact I.
  - apply quiet_app; [| exact IH].
    now apply quiet_header_flag.
Qed.

(** No method is read back when none was written and no header text
    looks like a method flag. *)
Lemma method_absent (u : string) (hs : list (string * string)) :
  JStr.forallb (fun c => negb (JStr.is_space c)) u = true ->
  Forall no_method_text hs ->
  JobsList.search JobsList.method_at
    ("curl " ++ RequestBuilder.quote u ++ headers_part hs)
  = None.
Proof.
  intros Hu Hhs.
  rewrite search_quiet by fixed_piece.
  rewrite search_quiet by (apply quiet_quote_no_space; [reflexivity | exact Hu]).
  rewrite <- (append_nil_r (headers_part hs)).
  rewrite search_quiet by (now apply quiet_headers_part).
  reflexivity.
Qed.

(** ** The headers read back *)

Lemma scan_quiet (p r : string) :
  quiet "H" p r ->
  JobsList.header_scan 0 (p ++ r) = JobsList.header_scan 0 r.
Proof.
  induction p as [| c p IH]; [reflexivity |].
  intros [Hc Hp]. cbn [String.append JobsList.header_scan].
  rewrite (header_at_anchored _ Hc). exact (IH Hp).
Qed.

Lemma scan_skip (a r : string) :
  JobsList.header_scan (String.length a) (a ++ r)
  = JobsList.header_scan 0 r.
Proof.
  induction a as [| c a IH]; [reflexivity |].
  cbn [String.length String.append JobsList.header_scan]. exact IH.
Qed.

Lemma header_at_flag (line r : string) :
  JStr.truthy line = true ->
  JStr.forallb (fun c => negb (Ascii.eqb c JStr.DQ)) line = true ->
  JobsList.header_at ("-H " ++ RequestBuilder.quote line ++ r)
  = Some (line, (2 + 1 + 1 + String.length line + 1)%nat).
Proof.
  intros Hne Hdq. unfold JobsList.header_at, RequestBuilder.quote.
  change ("-H " ++ String JStr.DQ (line ++ String JStr.DQ "") ++ r)
    with ("-H" ++ " " ++ String JStr.DQ ((line ++ String JStr.DQ "") ++ r)).
  rewrite strip_prefix_app.
  rewrite (span_app JStr.is_space " " _ eq_refl) by reflexivity.
  cbn [JStr.truthy negb]. unfold JobsList.quoted_at.
  rewrite Ascii.eqb_refl. cbn [negb].
  rewrite append_assoc.
  rewrite (span_app _ line _ Hdq) by reflexivity.
  rewrite Hne. reflexivity.
Qed.

Lemma scan_header (line r : string) :
  JStr.truthy line = true ->
  JStr.forallb (fun c => negb (Ascii.eqb c JStr.DQ)) line = true ->
  JobsList.header_scan 0 ("-H " ++ RequestBuilder.quote line ++ r)
  = line :: JobsList.header_scan 0 r.
Proof.
  intros Hne Hdq.
  pose proof (header_at_flag line r Hne Hdq) as Hat.
  change ("-H " ++ RequestBuilder.quote line ++ r)
    with (String "-" ("H " ++ RequestBuilder.quote line ++ r)) in *.
  cbn [JobsList.header_scan]. rewrite Hat. f_equal.
  rewrite <- append_assoc.
  replace (2 + 1 + 1 + String.length line + 1 - 1)%nat
    with (String.length ("H " ++ RequestBuilder.quote line)).
  - apply scan_skip.
  - unfold RequestBuilder.quote.
    cbn [String.append String.length]. rewrite length_append.
    cbn [String.length]. lia.
Qed.

Lemma line_no_quote (kv : string * string) :
  header_ok kv ->
  JStr.truthy (line_of kv) = true
  /\ JStr.forallb (fun c => negb (Ascii.eqb c JStr.DQ)) (line_of kv) = true.
Proof.
  intros (Hne & _ & Hk & Hv & _). unfold line_of. split.
  - destruct (fst kv); [discriminate | reflexivity].
  - rewrite !forallb_app, Hk, Hv. reflexivity.
Qed.

Lemma scan_headers_part (hs : list (string * string)) (r : string) :
  Forall header_ok hs ->
  JobsList.header_scan 0 (headers_part hs ++ r)
  = (map line_of hs ++ JobsList.header_scan 0 r)%list.
Proof.
  induction 1 as [| kv hs Hok _ IH]; cbn [headers_part fold_right map].
  - reflexivity.
  - destruct (line_no_quote kv Hok) as [Hne Hdq].
    unfold RequestBuilder.header_flag. fold (line_of kv).
    rewrite !append_assoc.
    rewrite scan_quiet by fixed_piece.
    rewrite (scan_header _ _ Hne Hdq).
    cbn [List.app]. f_equal. exact IH.
Qed.

Lemma scan_method_part (m r : string) :
  JStr.forallb JStr.is_word m = true ->
  JobsList.header_scan 0 (method_part m ++ r) = JobsList.header_scan 0 r.
Proof.
  intros Hw. unfold method_part.
  destruct (negb (String.eqb m "GET")); [| reflexivity].
  rewrite !append_assoc.
  rewrite scan_quiet by fixed_piece.
  rewrite scan_quiet by fixed_piece.
  apply scan_quiet. apply quiet_dashless. now apply word_dashless.
Qed.

Lemma scan_body_part (m : string) (body : option string) :
  (forall b, body = Some b -> String.eqb m "GET" = false ->
             JStr.has_flag "H" b = false) ->
  JobsList.header_scan 0 (body_part m body) = [].
Proof.
  intros Hb. unfold body_part. destruct body as [b |]; [| reflexivity].
  destruct (String.eqb m "GET") eqn:Hget;
    [rewrite andb_false_r; reflexivity |].
  destruct (JStr.truthy b); [| reflexivity]. cbn [andb negb].
  rewrite scan_quiet by fixed_piece.
  rewrite scan_quiet by fixed_piece.
  change (String JStr.SQ (b ++ String JStr.SQ ""))
    with (String JStr.SQ "" ++ b ++ String JStr.SQ "").
  rewrite scan_quiet by fixed_piece.
  rewrite scan_quiet
    by (apply quiet_no_flag; [now apply Hb | cbn; auto]).
  reflexivity.
Qed.

Lemma headers_read_back (u m : string) (hs : list (string * string))
  (body : option string) :
  JStr.forallb (fun c => negb (JStr.is_space c)) u = true ->
  JStr.forallb JStr.is_word m = true ->
  Forall header_ok hs ->
  (forall b, body = Some b -> String.eqb m "GET" = false ->
             JStr.has_flag "H" b = false) ->
  JobsList.headerMatches (RequestBuilder.render u m hs body)
  = map line_of hs.
Proof.
  intros Hu Hm Hhs Hb. unfold JobsList.headerMatches.
  rewrite render_layout.
  rewrite scan_quiet by fixed_piece.
  rewrite scan_quiet
    by (apply quiet_quote_no_space; [reflexivity | exact Hu]).
  rewrite (scan_method_part m _ Hm).
  rewrite (scan_headers_part hs _ Hhs).
  rewrite (scan_body_part m body Hb). apply app_nil_r.
Qed.

Lemma split_nonempty (sep : ascii) (s : string) : JStr.split sep s <> [].
Proof.
  destruct s as [| c s]; cbn [JStr.split]; [discriminate |].
  destruct (Ascii.eqb c sep); [discriminate |].
  destruct (JStr.split sep s); discriminate.
Qed.

Lemma split_before_sep (sep : ascii) (k rest : string) :
  JStr.forallb (fun c => negb (Ascii.eqb c sep)) k = true ->
  JStr.split sep (k ++ String sep rest) = k :: JStr.split sep rest.
Proof.
  induction k as [| c k IH]; cbn [String.append JStr.split JStr.forallb].
  - intros _. now rewrite Ascii.eqb_refl.
  - intros H. apply andb_true_iff in H as [Hc Hk].
    apply negb_true_iff in Hc. rewrite Hc, (IH Hk). reflexivity.
Qed.

Lemma join_split (sep : ascii) (s : string) :
  JStr.join (String sep "") (JStr.split sep s) = s.
Proof.
  induction s as [| c s IH]; cbn [JStr.split]; [reflexivity |].
  pose proof (split_nonempty sep s) as Hne.
  destruct (Ascii.eqb_spec c sep) as [-> | Hc].
  - destruct (JStr.split sep s) as [| w ws]; [contradiction |].
    change (JStr.join (String sep "") ("" :: w :: ws))
      with ("" ++ String sep "" ++ JStr.join (String sep "") (w :: ws)).
    rewrite IH. reflexivity.
  - destruct (JStr.split sep s) as [| w ws]; [contradiction |].
    destruct ws as [| w' ws].
    + cbn in *. now rewrite IH.
    + change (JStr.join (String sep "") (String c w :: w' :: ws))
        with (String c (w ++ String sep ""
                          ++ JStr.join (String sep "") (w' :: ws))).
      f_equal. exact IH.
Qed.

Lemma header_of_line (kv : string * string) :
  header_ok kv ->
  JobsList.header_of_match (line_of kv)
  = [RequestBuilder.mkKV (fst kv) (snd kv) true].
Proof.
  intros (Hne & Hcolon & _ & _ & Hk & Hv).
  unfold JobsList.header_of_match, line_of.
  change (fst kv ++ ": " ++ snd kv)
    with (fst kv ++ String ":" (" " ++ snd kv)).
  rewrite (split_before_sep ":" _ _ Hcolon), Hne, Hk, join_split.
  change (JStr.trim (" " ++ snd kv)) with (JStr.trim (snd kv)).
  rewrite Hv. reflexivity.
Qed.

Lemma headers_of_lines (hs : list (string * string)) :
  Forall header_ok hs ->
  flat_map JobsList.header_of_match (map line_of hs)
  = map (fun kv => RequestBuilder.mkKV (fst kv) (snd kv) true) hs.
Proof.
  induction 1 as [| kv hs Hok _ IH]; cbn [map flat_map]; [reflexivity |].
  rewrite (header_of_line kv Hok), IH. reflexivity.
Qed.

(** ** When the headers object is the list of enabled rows *)

Lemma set_fresh (k v : string) (o : JsObject.t) :
  ~ In k (map fst o) -> JsObject.set k v o = (o ++ [(k, v)])%list.
Proof.
  induction o as [| [k0 v0] o IH]; cbn [JsObject.set map fst In List.app];
    intros H; [reflexivity |].
  destruct (String.eqb_spec k k0) as [-> | Hne]; [tauto |].
  rewrite IH by tauto. reflexivity.
Qed.

Lemma fold_assign_fresh (rows : list RequestBuilder.KV) :
  NoDup (map RequestBuilder.key rows) ->
  Forall (fun h => RequestBuilder.key h <> "__proto__") rows ->
  forall o,
    (forall h, In h rows -> ~ In (RequestBuilder.key h) (map fst o)) ->
    fold_left
      (fun o h => JsObject.assign (RequestBuilder.key h)
                    (RequestBuilder.value h) o) rows o
    = (o ++ RequestBuilder.pairs rows)%list.
Proof.
  induction rows as [| h rows IH]; intros Hnd Hp o Hfresh;
    cbn [fold_left RequestBuilder.pairs map].
  - now rewrite app_nil_r.
  - inversion Hnd as [| ? ? Hnotin Hnd']; subst.
    inversion Hp as [| ? ? Hh Hp']; subst.
    unfold JsObject.assign at 2.
    destruct (String.eqb_spec (RequestBuilder.key h) "__proto__");
      [contradiction |].
    rewrite set_fresh by (apply Hfresh; now left).
    rewrite (IH Hnd' Hp').
    + rewrite <- app_assoc. reflexivity.
    + intros h' Hin. rewrite map_app, in_app_iff. cbn [map fst In].
      intros [Hold | [Heq | []]].
      * apply (Hfresh h'); [now right | exact Hold].
      * apply Hnotin. rewrite Heq. now apply in_map.
Qed.

Lemma entries_plain (o : JsObject.t) :
  Forall (fun kv => JsObject.array_index (fst kv) = None) o ->
  JsObject.entries o = o.
Proof.
  intros H. unfold JsObject.entries.
  assert (Hi : filter JsObject.is_index o = []).
  { induction H as [| kv o Hkv _ IH]; cbn [filter]; [reflexivity |].
    unfold JsObject.is_index at 1. now rewrite Hkv. }
  assert (Hn : filter (fun kv => negb (JsObject.is_index kv)) o = o).
  { induction H as [| kv o Hkv Ho IH]; cbn [filter]; [reflexivity |].
    unfold JsObject.is_index at 1. rewrite Hkv. cbn [negb].
    f_equal. apply IH.
    cbn [filter] in Hi. unfold JsObject.is_index at 1 in Hi.
    now rewrite Hkv in Hi. }
  rewrite Hi, Hn. reflexivity.
Qed.

Lemma entries_are_rows (st : RequestBuilder.State) :
  RequestBuilder.authType st = "none" ->
  RequestBuilder.bodyType st = "none" ->
  NoDup (map RequestBuilder.key
           (RequestBuilder.active (RequestBuilder.headers st))) ->
  Forall plain_row (RequestBuilder.active (RequestBuilder.headers st)) ->
  JsObject.entries (RequestBuilder.buildHeaders st)
  = RequestBuilder.pairs
      (RequestBuilder.active (RequestBuilder.headers st)).
Proof.
  intros Ha Hb Hnd Hplain.
  rewrite (buildHeaders_plain st Ha Hb).
  rewrite fold_assign_fresh; [| exact Hnd | | intros h _ []].
  - cbn [JsObject.empty List.app]. apply entries_plain.
    unfold RequestBuilder.pairs. rewrite Forall_map.
    eapply Forall_impl; [| exact Hplain].
    intros h [_ Hidx]. exact Hidx.
  - eapply Forall_impl; [| exact Hplain]. intros h [Hp _]. exact Hp.
Qed.

(** ** Round trip: generateCurl, then extractRequestFromJob *)

Lemma tail_stops_word (m : string) (hs : list (string * string))
  (body : option string) :
  stops JStr.is_word (headers_part hs ++ body_part m body).
Proof.
  destruct hs as [| kv hs]; cbn [headers_part fold_right String.append].
  - unfold body_part. destruct body as [b |]; [| exact I].
    destruct (JStr.truthy b && negb (String.eqb m "GET")); [| exact I].
    reflexivity.
  - reflexivity.
Qed.

Lemma active_rows_enabled (rows : list RequestBuilder.KV) :
  map (fun kv => RequestBuilder.mkKV (fst kv) (snd kv) true)
    (RequestBuilder.pairs (RequestBuilder.active rows))
  = RequestBuilder.active rows.
Proof.
  unfold RequestBuilder.pairs, RequestBuilder.active.
  rewrite map_map. cbn [fst snd].
  induction rows as [| [k v e] rows IH]; cbn [filter]; [reflexivity |].
  cbn [RequestBuilder.enabled RequestBuilder.key].
  destruct e; cbn [andb]; [| exact IH].
  destruct (JStr.truthy k); [| exact IH].
  cbn [map RequestBuilder.key RequestBuilder.value]. now rewrite IH.
Qed.

(** C9 (as written) fails: with the method GET no method flag is written,
    and a header whose value contains the text of a method flag makes the
    jobs list read that text as the method. *)
Lemma round_trip_loses_method :
  let st :=
    RequestBuilder.setHeaders
      [RequestBuilder.mkKV "X-Note" "retry with -X POST" true]
      (RequestBuilder.setUrl "http://localhost:3001/api/users"
         RequestBuilder.initial) in
  RequestBuilder.method st = "GET"
  /\ RequestBuilder.buildFullUrl echo_browser st
     = "http://localhost:3001/api/users"
  /\ Forall
       (fun h =>
          JStr.forallb
            (fun c => negb (Ascii.eqb c JStr.DQ) && negb (Ascii.eqb c JStr.LF))
            (RequestBuilder.key h ++ RequestBuilder.value h) = true)
       (RequestBuilder.active (RequestBuilder.headers st))
  /\ exists r,
      JobsList.extractRequestFromJob
        (Some (JobsList.mkJob
                 (Some (RequestBuilder.generateCurl echo_browser st)) None))
      = Some r
      /\ JobsList.method r = "POST"
      /\ JobsList.method r <> RequestBuilder.method st.
Proof.
  cbv zeta. split; [reflexivity |]. split; [reflexivity |].
  split; [repeat constructor |].
  eexists. split; [vm_compute; reflexivity |].
  split; [reflexivity | discriminate].
Qed.

(** Two further ways in which the headers are not read back: rows with
    the same name are merged, and white space around a value is lost. *)
Example round_trip_merges_and_trims :
  let st rows :=
    RequestBuilder.setHeaders rows
      (RequestBuilder.setUrl "http://localhost:3001/api/users"
         RequestBuilder.initial) in
  let read rows :=
    option_map JobsList.headers
      (JobsList.extractRequestFromJob
         (Some (JobsList.mkJob
                  (Some (RequestBuilder.generateCurl echo_browser (st rows)))
                  None))) in
  read [RequestBuilder.mkKV "X-Tag" "a" true;
        RequestBuilder.mkKV "X-Tag" "b" true]
  = Some [RequestBuilder.mkKV "X-Tag" "b" true]
  /\ read [RequestBuilder.mkKV "X-Pad" " v" true]
     = Some [RequestBuilder.mkKV "X-Pad" "v" true].
Proof. cbv zeta. split; vm_compute; reflexivity. Qed.

(** C9 (amended): let a request be built whose full URL is not empty and
    holds no double quote and no white space, whose method is a non-empty
    word, whose headers (the entries of the built headers object) have
    non-empty names without colon, no double quote in names or values and
    no white space around names or values, whose header names and values
    hold no [-X] followed by white space when the method is GET, and whose
    body, when one is written, holds no [-H] followed by white space.
    Then parsing the generated command as the jobs list does recovers the
    same method, the same full URL and the same headers in order; and
    when there is no authentication and no body type and the enabled rows
    have distinct names that are ordinary property keys, these headers are
    exactly the enabled rows, in order. *)
Theorem curl_round_trip
  (B : Browser) (st : RequestBuilder.State) (table : option string) :
  let u := RequestBuilder.buildFullUrl B st in
  let m := RequestBuilder.method st in
  let hs := JsObject.entries (RequestBuilder.buildHeaders st) in
  JStr.truthy u = true ->
  JStr.forallb (fun c => negb (Ascii.eqb c JStr.DQ)) u = true ->
  JStr.forallb (fun c => negb (JStr.is_space c)) u = true ->
  JStr.truthy m = true ->
  JStr.forallb JStr.is_word m = true ->
  Forall header_ok hs ->
  (m = "GET" -> Forall no_method_text hs) ->
  (forall b, RequestBuilder.buildBody B st = Some b -> m <> "GET" ->
             JStr.has_flag "H" b = false) ->
  exists r,
    JobsList.extractRequestFromJob
      (Some (JobsList.mkJob (Some (RequestBuilder.generateCurl B st)) table))
    = Some r
    /\ JobsList.method r = m
    /\ JobsList.url r = u
    /\ JobsList.headers r
       = map (fun kv => RequestBuilder.mkKV (fst kv) (snd kv) true) hs
    /\ (RequestBuilder.authType st = "none" ->
        RequestBuilder.bodyType st = "none" ->
        NoDup (map RequestBuilder.key
                 (RequestBuilder.active (RequestBuilder.headers st))) ->
        Forall plain_row
          (RequestBuilder.active (RequestBuilder.headers st)) ->
        JobsList.headers r
        = RequestBuilder.active (RequestBuilder.headers st)).
Proof.
  intros u m hs Hne Hdq Hsp Hm Hw Hok Hget Hbody.
  unfold JobsList.extractRequestFromJob. cbn [JobsList.curl_command].
  unfold RequestBuilder.generateCurl. fold u m hs.
  set (body := RequestBuilder.buildBody B st) in *.
  assert (Htruthy : JStr.truthy (RequestBuilder.render u m hs body) = true).
  { rewrite render_layout. reflexivity. }
  rewrite Htruthy. cbn [negb].
  assert (Hmeth :
    match JobsList.search JobsList.method_at
            (RequestBuilder.render u m hs body) with
    | Some x => x
    | None => "GET"
    end = m).
  { rewrite render_layout.
    destruct (String.eqb_spec m "GET") as [Heq | Hneq].
    - unfold method_part, body_part. rewrite Heq.
      cbn [String.eqb Ascii.eqb Bool.eqb negb].
      assert (Hb : match body with
                   | Some b => if JStr.truthy b && false then
                       RequestBuilder.continuation ++ "-d "
                         ++ String JStr.SQ (b ++ String JStr.SQ "")
                     else ""
                   | None => ""
                   end = "").
      { destruct body as [b |]; [| reflexivity].
        now rewrite andb_false_r. }
      rewrite Hb, append_nil_r. cbn [String.append].
      change (String "c" (String "u" (String "r" (String "l"
                (String " " (RequestBuilder.quote u ++ headers_part hs))))))
        with ("curl " ++ RequestBuilder.quote u ++ headers_part hs).
      rewrite (method_absent u hs Hsp (Hget Heq)). reflexivity.
    - rewrite (method_read_back u m _ Hsp Hm Hw).
      + reflexivity.
      + now apply String.eqb_neq.
      + apply tail_stops_word. }
  assert (Hurl :
    match JobsList.search JobsList.url_at
            (RequestBuilder.render u m hs body) with
    | Some x => x
    | None => ""
    end = u).
  { rewrite render_layout, (url_read_back u _ Hne Hdq). reflexivity. }
  assert (Hhdr :
    flat_map JobsList.header_of_match
      (JobsList.headerMatches (RequestBuilder.render u m hs body))
    = map (fun kv => RequestBuilder.mkKV (fst kv) (snd kv) true) hs).
  { rewrite (headers_read_back u m hs body Hsp Hw Hok).
    - now apply headers_of_lines.
    - intros b Hb Hneq. apply (Hbody b Hb). now apply String.eqb_neq. }
  eexists. split; [reflexivity |].
  cbn [JobsList.method JobsList.url JobsList.headers].
  split; [exact Hmeth |]. split; [exact Hurl |]. split; [exact Hhdr |].
  intros Ha Hb Hnd Hplain. rewrite Hhdr. unfold hs.
  rewrite (entries_are_rows st Ha Hb Hnd Hplain).
  apply active_rows_enabled.
Qed.

Lemma curl_round_trip_witness :
  let st :=
    RequestBuilder.setMethod "POST"
      (RequestBuilder.setHeaders
         [RequestBuilder.mkKV "Accept" "application/json" true;
          RequestBuilder.mkKV "Authorization" "Bearer test-token-123" true;
          RequestBuilder.emptyRow]
         (RequestBuilder.setUrl "http://localhost:3001/api/auth/data"
            RequestBuilder.initial)) in
  exists r,
    JobsList.extractRequestFromJob
      (Some (JobsList.mkJob
               (Some (RequestBuilder.generateCurl echo_browser st))
               (Some "auth_data")))
    = Some r
    /\ JobsList.method r = "POST"
    /\ JobsList.url r = "http://localhost:3001/api/auth/data"
    /\ JobsList.headers r
       = [RequestBuilder.mkKV "Accept" "application/json" true;
          RequestBuilder.mkKV "Authorization" "Bearer test-token-123" true].
Proof.
  intros st.
  destruct (curl_round_trip echo_browser st (Some "auth_data"))
    as (r & Hr & Hm & Hu & _ & Hrows).
  - reflexivity.
  - reflexivity.
  - reflexivity.
  - reflexivity.
  - reflexivity.
  - repeat constructor.
  - discriminate.
  - discriminate.
  - exists r. split; [exact Hr |]. split; [exact Hm |].
    split; [exact Hu |]. apply Hrows.
    + reflexivity.
    + reflexivity.
    + repeat constructor; cbn; intuition discriminate.
    + repeat constructor; discriminate.
Defined.

(** The handlers on query strings as they arrive: [page=1&per_page=10]
    and [cursor=280&limit=20]. *)
Example requests_from_query_strings :
  MockServer.ApiUsers.totalPages
    (MockServer.ApiUsers.pagination
       (MockServer.ApiUsers.handler (MockServer.USERS (fun _ => 0%Z))
          (JStr.parseInt "1") (JStr.parseInt "10"))) = 15%Z
  /\ MockServer.ApiComments.next_cursor
       (MockServer.ApiComments.handler (fun _ => 0%Z)
          (JStr.parseInt "280") (JStr.parseInt "20")) = None.
Proof. split; reflexivity. Qed.

(* ================================================================== *)
(** * Part III: further properties of the sources *)
(* ================================================================== *)

(** ** Reading back a printed integer *)

Lemma parse_digits_acc (d : Decimal.uint) :
  forall acc : positive,
    JStr.parse_digits JStr.digit_value 10 (Some (Z.pos acc))
      (NilEmpty.string_of_uint d)
    = Some (Z.pos (Pos.of_uint_acc d acc)).
Proof.
  induction d; intros acc; cbn [NilEmpty.string_of_uint JStr.parse_digits
                                  Pos.of_uint_acc];
    [reflexivity | ..];
    match goal with
    | |- context [JStr.digit_value ?c] =>
        let v := eval vm_compute in (JStr.digit_value c) in
        change (JStr.digit_value c) with v
    end;
    cbv iota;
    match goal with
    | |- JStr.parse_digits _ _ (Some ?x) _ = Some (Z.pos (Pos.of_uint_acc _ ?q)) =>
        replace x with (Z.pos q) by lia
    end;
    apply IHd.
Qed.

Lemma parse_digits_zero (d : Decimal.uint) :
  JStr.parse_digits JStr.digit_value 10 (Some 0%Z)
    (NilEmpty.string_of_uint d)
  = Some (Z.of_N (Pos.of_uint d)).
Proof.
  induction d; cbn [NilEmpty.string_of_uint JStr.parse_digits Pos.of_uint];
    [reflexivity | ..];
    match goal with
    | |- context [JStr.digit_value ?c] =>
        let v := eval vm_compute in (JStr.digit_value c) in
        change (JStr.digit_value c) with v
    end;
    cbv iota; cbn [Z.mul Z.add];
    first [ exact IHd | apply parse_digits_acc ].
Qed.

Lemma parse_digits_numeral (d : Decimal.uint) :
  d <> Decimal.Nil ->
  JStr.parse_digits JStr.digit_value 10 None (NilEmpty.string_of_uint d)
  = Some (Z.of_N (Pos.of_uint d)).
Proof.
  intros Hd.
  destruct d; [contradiction | ..];
    cbn [NilEmpty.string_of_uint JStr.parse_digits Pos.of_uint];
    match goal with
    | |- context [JStr.digit_value ?c] =>
        let v := eval vm_compute in (JStr.digit_value c) in
        change (JStr.digit_value c) with v
    end;
    cbv iota;
    first [ apply parse_digits_zero | apply parse_digits_acc ].
Qed.

(** On a numeral [parseInt] finds no base 16 prefix. *)
Lemma no_hex_prefix (d : Decimal.uint) :
  match NilEmpty.string_of_uint d with
  | String "0" (String "x" t) =>
      JStr.parse_digits JStr.hex_value 16 None t
  | String "0" (String "X" t) =>
      JStr.parse_digits JStr.hex_value 16 None t
  | _ =>
      JStr.parse_digits JStr.digit_value 10 None
        (NilEmpty.string_of_uint d)
  end
  = JStr.parse_digits JStr.digit_value 10 None (NilEmpty.string_of_uint d).
Proof.
  destruct d as [| d | d | d | d | d | d | d | d | d | d];
    try reflexivity.
  destruct d; reflexivity.
Qed.

Lemma parseInt_numeral (d : Decimal.uint) :
  d <> Decimal.Nil ->
  JStr.parseInt (NilEmpty.string_of_uint d) = Some (Z.of_N (Pos.of_uint d))
  /\ JStr.parseInt (String "-" (NilEmpty.string_of_uint d))
     = Some (- Z.of_N (Pos.of_uint d))%Z.
Proof.
  intros Hd. pose proof (parse_digits_numeral d Hd) as Hp.
  pose proof (no_hex_prefix d) as Hx.
  split.
  - transitivity
      (option_map (Z.mul 1)
         (JStr.parse_digits JStr.digit_value 10 None
            (NilEmpty.string_of_uint d))).
    + rewrite <- Hx.
      destruct d as [| d | d | d | d | d | d | d | d | d | d];
        [contradiction | | reflexivity ..].
      destruct d; reflexivity.
    + rewrite Hp. cbn [option_map]. apply f_equal. lia.
  - transitivity
      (option_map (Z.mul (-1))
         (JStr.parse_digits JStr.digit_value 10 None
            (NilEmpty.string_of_uint d))).
    + rewrite <- Hx. reflexivity.
    + rewrite Hp. cbn [option_map]. apply f_equal. lia.
Qed.

(** [parseInt(String(z)) = z] for every integer. *)
Lemma parseInt_str_of_Z (z : Z) : JStr.parseInt (JS.str_of_Z z) = Some z.
Proof.
  unfold JS.str_of_Z. destruct z as [| p | p]; [reflexivity | |];
    cbn [Z.to_int NilEmpty.string_of_int];
    destruct (parseInt_numeral (Pos.to_uint p)
                (DecimalPos.Unsigned.to_uint_nonnil p)) as [Hp Hn];
    rewrite DecimalPos.Unsigned.of_to in Hp, Hn.
  - exact Hp.
  - exact Hn.
Qed.

(** ** Crawling the paginated sources to the end *)

Lemma or_default_any_cursor (v : Z) : JS.or_default (Some v) 0 = v.
Proof.
  unfold JS.or_default. destruct (Z.eqb_spec v 0); congruence.
Qed.

Lemma firstn_plus {A : Type} (a b : nat) (l : list A) :
  firstn (a + b) l = (firstn a l ++ firstn b (skipn a l))%list.
Proof.
  revert l. induction a as [| a IH]; intros l; [reflexivity |].
  destruct l as [| x l]; cbn [Nat.add firstn skipn List.app].
  - now rewrite firstn_nil.
  - now rewrite IH.
Qed.

(** Consecutive windows of width [n] add up to a prefix of the list. *)
Lemma windows_concat {A : Type} (n m : nat) (l : list A) :
  List.concat (map (fun k => firstn n (skipn (k * n) l)) (seq 0 m))
  = firstn (m * n) l.
Proof.
  induction m as [| m IH]; [reflexivity |].
  rewrite seq_S, map_app, concat_app, IH. cbn [map List.concat Nat.add].
  rewrite app_nil_r, <- firstn_plus. f_equal. lia.
Qed.

Lemma range_as_seq (a b : Z) :
  JS.range a b = map (fun k => (a + Z.of_nat k)%Z) (seq 0 (Z.to_nat (b - a))).
Proof. reflexivity. Qed.

Lemma range_app (a b c : Z) :
  (a <= b <= c)%Z -> (JS.range a b ++ JS.range b c)%list = JS.range a c.
Proof.
  intros H. unfold JS.range.
  replace (Z.to_nat (c - a))
    with (Z.to_nat (b - a) + Z.to_nat (c - b))%nat by lia.
  rewrite seq_app, map_app. f_equal.
  rewrite (seq_as_offsets (0 + Z.to_nat (b - a))), map_map.
  apply map_ext. intros k. lia.
Qed.

Lemma range_empty (a b : Z) : (b <= a)%Z -> JS.range a b = [].
Proof.
  intros H. unfold JS.range.
  replace (Z.to_nat (b - a)) with 0%nat by lia. reflexivity.
Qed.

(** Consecutive ranges of width [n], cut at [N], add up to one range. *)
Lemma ranges_concat (a n N : Z) (m : nat) :
  (0 <= n)%Z -> (a <= N)%Z ->
  List.concat
    (map (fun k =>
            JS.range (a + Z.of_nat k * n)
              (Z.min (a + (Z.of_nat k + 1) * n) N))
       (seq 0 m))
  = JS.range a (Z.min (a + Z.of_nat m * n) N).
Proof.
  intros Hn HN. induction m as [| m IH].
  - cbn [seq map List.concat]. symmetry. apply range_empty. lia.
  - rewrite seq_S, map_app, concat_app, IH. cbn [map List.concat Nat.add].
    rewrite app_nil_r.
    destruct (Z.le_gt_cases (a + Z.of_nat m * n) N) as [Hle | Hgt].
    + rewrite (Z.min_l (a + Z.of_nat m * n) N) by lia.
      replace (Z.of_nat (S m)) with (Z.of_nat m + 1)%Z by lia.
      apply range_app. nia.
    + rewrite (range_empty (a + Z.of_nat m * n)) by lia.
      rewrite app_nil_r. f_equal. nia.
Qed.

Lemma users_data_window (users : list MockServer.User.t) (p n : Z) :
  (1 <= p)%Z -> (1 <= n)%Z ->
  MockServer.ApiUsers.data
    (MockServer.ApiUsers.handler users (Some p) (Some n))
  = firstn (Z.to_nat n) (skipn (Z.to_nat ((p - 1) * n)) users).
Proof.
  intros Hp Hn. unfold MockServer.ApiUsers.handler.
  cbn [MockServer.ApiUsers.data].
  rewrite !or_default_nonzero by lia.
  rewrite slice_window by nia. do 2 f_equal. lia.
Qed.

(** X1: whatever the list of users and the page size [n >= 1], the pages
    1 to [totalPages] of GET /api/users, one after the other, are the
    whole list, each record once and in order; every later page is
    empty. *)
Theorem users_pages_cover (users : list MockServer.User.t) (n : Z) :
  (1 <= n)%Z ->
  let page p :=
    MockServer.ApiUsers.data
      (MockServer.ApiUsers.handler users (Some p) (Some n)) in
  let tp :=
    MockServer.ApiUsers.totalPages
      (MockServer.ApiUsers.pagination
         (MockServer.ApiUsers.handler users (Some 1%Z) (Some n))) in
  List.concat (map page (JS.range 1 (tp + 1))) = users
  /\ (forall p, (tp < p)%Z -> page p = []).
Proof.
  intros Hn page tp.
  assert (Htp : tp = JS.ceil_div (Z.of_nat (List.length users)) n).
  { subst tp. unfold MockServer.ApiUsers.handler.
    cbn [MockServer.ApiUsers.totalPages MockServer.ApiUsers.pagination].
    rewrite or_default_nonzero by lia. reflexivity. }
  pose proof (ceil_div_spec (Z.of_nat (List.length users)) n ltac:(lia))
    as Hc. rewrite <- Htp in Hc.
  assert (Htp0 : (0 <= tp)%Z) by nia.
  split.
  - rewrite range_as_seq, map_map.
    replace (Z.to_nat (tp + 1 - 1)) with (Z.to_nat tp) by lia.
    rewrite (map_ext _
               (fun k => firstn (Z.to_nat n)
                           (skipn (k * Z.to_nat n) users))).
    + rewrite windows_concat. apply firstn_all2. nia.
    + intros k. subst page. cbv beta.
      rewrite users_data_window by lia. do 2 f_equal. nia.
  - intros p Hp. subst page. cbv beta.
    rewrite users_data_window by lia.
    rewrite skipn_all2 by nia. apply firstn_nil.
Qed.

Lemma users_pages_cover_witness :
  map MockServer.User.id
    (List.concat
       (map (fun p =>
               MockServer.ApiUsers.data
                 (MockServer.ApiUsers.handler
                    (MockServer.generateUsers (fun _ => 0%Z) 7)
                    (Some p) (Some 3%Z)))
          (JS.range 1 (3 + 1))))
  = [1; 2; 3; 4; 5; 6; 7]%Z.
Proof.
  destruct (users_pages_cover
              (MockServer.generateUsers (fun _ => 0%Z) 7) 3 ltac:(lia))
    as [Hcover _].
  cbv zeta in Hcover.
  change (MockServer.ApiUsers.totalPages _) with 3%Z in Hcover.
  rewrite Hcover. reflexivity.
Defined.

Lemma posts_items_window (posts : list MockServer.Post.t) (o n : Z) :
  (0 <= o)%Z -> (1 <= n)%Z ->
  MockServer.ApiPosts.items
    (MockServer.ApiPosts.handler posts (Some o) (Some n))
  = firstn (Z.to_nat n) (skipn (Z.to_nat o) posts).
Proof.
  intros Ho Hn. unfold MockServer.ApiPosts.handler.
  cbn [MockServer.ApiPosts.items].
  rewrite or_default_any_cursor, or_default_nonzero by lia.
  rewrite slice_window by lia. do 2 f_equal. lia.
Qed.

(** X2: whatever the list of posts and the limit [n >= 1], a crawl of
    GET /api/posts that starts at offset 0 and adds [n] to the offset
    makes [m = ceil (length / n)] requests before [has_more] is false:
    [has_more] is true on the requests before the last and false on the
    last, and the pages, one after the other, are the whole list. *)
Theorem posts_crawl_covers (posts : list MockServer.Post.t) (n : Z) :
  (1 <= n)%Z ->
  let fetch k :=
    MockServer.ApiPosts.handler posts (Some (k * n)%Z) (Some n) in
  let m := JS.ceil_div (Z.of_nat (List.length posts)) n in
  (forall k, (0 <= k < m)%Z ->
     MockServer.ApiPosts.has_more (MockServer.ApiPosts.meta (fetch k))
     = (k <? m - 1)%Z)
  /\ List.concat
       (map (fun k => MockServer.ApiPosts.items (fetch k)) (JS.range 0 m))
     = posts.
Proof.
  intros Hn fetch m.
  pose proof (ceil_div_spec (Z.of_nat (List.length posts)) n ltac:(lia))
    as Hc. fold m in Hc.
  assert (Hm0 : (0 <= m)%Z) by nia.
  split.
  - intros k Hk. subst fetch. unfold MockServer.ApiPosts.handler.
    cbn [MockServer.ApiPosts.has_more MockServer.ApiPosts.meta].
    rewrite or_default_any_cursor, or_default_nonzero by lia.
    destruct (Z.ltb_spec k (m - 1)); destruct (Z.ltb_spec (k * n + n)
      (Z.of_nat (List.length posts))); try reflexivity; nia.
  - rewrite range_as_seq, map_map.
    replace (Z.to_nat (m - 0)) with (Z.to_nat m) by lia.
    rewrite (map_ext _
               (fun k => firstn (Z.to_nat n)
                           (skipn (k * Z.to_nat n) posts))).
    + rewrite windows_concat. apply firstn_all2. nia.
    + intros k. subst fetch. cbv beta.
      rewrite posts_items_window by nia. do 2 f_equal. nia.
Qed.

Lemma posts_crawl_covers_witness :
  map MockServer.Post.id
    (List.concat
       (map (fun k =>
               MockServer.ApiPosts.items
                 (MockServer.ApiPosts.handler
                    (MockServer.generatePosts (fun _ => 0%Z) (fun _ => 0%Z)
                       (fun _ => 0%Z) 5)
                    (Some (k * 2)%Z) (Some 2%Z)))
          (JS.range 0 3)))
  = [1; 2; 3; 4; 5]%Z.
Proof.
  destruct (posts_crawl_covers
              (MockServer.generatePosts (fun _ => 0%Z) (fun _ => 0%Z)
                 (fun _ => 0%Z) 5) 2 ltac:(lia))
    as [_ Hcover].
  cbv zeta in Hcover.
  change (JS.ceil_div _ 2) with 3%Z in Hcover.
  rewrite Hcover. reflexivity.
Defined.

Lemma comments_ids (clock : MockServer.Clock) (c n : Z) :
  (1 <= n)%Z ->
  map MockServer.Comment.id
    (MockServer.ApiComments.data
       (MockServer.ApiComments.handler clock (Some c) (Some n)))
  = JS.range (c + 1) (Z.min (c + n) 300 + 1).
Proof.
  intros Hn. unfold MockServer.ApiComments.handler.
  cbn [MockServer.ApiComments.data].
  rewrite or_default_any_cursor, or_default_nonzero by lia.
  rewrite map_map. cbn [MockServer.Comment.id]. apply range_succ.
Qed.

(** X3: for every limit [n >= 1], a crawl of GET /api/comments that
    starts at cursor 0 and follows [next_cursor] makes
    [m = ceil (300 / n)] requests: the cursor returned by request [k] is
    [(k + 1) * n] before the last request and null on the last, and the
    pages, one after the other, hold the comments 1 to 300, each once and
    in order. *)
Theorem comments_crawl_covers (clock : MockServer.Clock) (n : Z) :
  (1 <= n)%Z ->
  let fetch k :=
    MockServer.ApiComments.handler clock (Some (k * n)%Z) (Some n) in
  let m := JS.ceil_div 300 n in
  (forall k, (0 <= k < m)%Z ->
     MockServer.ApiComments.next_cursor (fetch k)
     = if (k <? m - 1)%Z then Some ((k + 1) * n)%Z else None)
  /\ List.concat
       (map (fun k =>
               map MockServer.Comment.id
                 (MockServer.ApiComments.data (fetch k)))
          (JS.range 0 m))
     = JS.range 1 301.
Proof.
  intros Hn fetch m.
  pose proof (ceil_div_spec 300 n ltac:(lia)) as Hc. fold m in Hc.
  assert (Hm0 : (0 <= m)%Z) by nia.
  split.
  - intros k Hk. subst fetch. unfold MockServer.ApiComments.handler.
    cbn [MockServer.ApiComments.next_cursor].
    rewrite or_default_any_cursor, or_default_nonzero by lia.
    destruct (Z.ltb_spec k (m - 1));
      destruct (Z.ltb_spec (k * n + n) 300);
      try reflexivity; try nia.
    f_equal. lia.
  - rewrite range_as_seq, map_map.
    replace (Z.to_nat (m - 0)) with (Z.to_nat m) by lia.
    rewrite (map_ext _
               (fun k => JS.range (1 + Z.of_nat k * n)
                           (Z.min (1 + (Z.of_nat k + 1) * n) 301))).
    + rewrite ranges_concat by lia. f_equal. nia.
    + intros k. subst fetch. cbv beta. rewrite comments_ids by lia.
      f_equal; lia.
Qed.

Lemma comments_crawl_covers_witness :
  MockServer.ApiComments.next_cursor
    (MockServer.ApiComments.handler (fun _ => 0%Z) (Some (2 * 100)%Z)
       (Some 100%Z))
  = None.
Proof.
  destruct (comments_crawl_covers (fun _ => 0%Z) 100 ltac:(lia))
    as [Hnext _].
  cbv zeta in Hnext. change (JS.ceil_div 300 100) with 3%Z in Hnext.
  rewrite (Hnext 2%Z) by lia. reflexivity.
Defined.

(** ** GET /api/products *)

Lemma products_results_window (products : list MockApi.Product.t)
  (p n : Z) :
  (1 <= p)%Z -> (1 <= n)%Z ->
  MockApi.ApiProducts.results
    (MockApi.ApiProducts.handler products (Some p) (Some n))
  = firstn (Z.to_nat n) (skipn (Z.to_nat ((p - 1) * n)) products).
Proof.
  intros Hp Hn. unfold MockApi.ApiProducts.handler.
  cbn [MockApi.ApiProducts.results].
  rewrite !or_default_nonzero by lia.
  rewrite slice_window by nia. do 2 f_equal. lia.
Qed.

(** X4: whatever the list of products, for a page [p >= 1] and a limit
    [n >= 1] the response of GET /api/products has [has_more] true
    exactly when records remain after the page ([p * n] is below the
    number of products), that is, exactly when the next page is not
    empty. *)
Theorem products_has_more_iff_next_page
  (products : list MockApi.Product.t) (p n : Z) :
  (1 <= p)%Z -> (1 <= n)%Z ->
  let r := MockApi.ApiProducts.handler products (Some p) (Some n) in
  let next := MockApi.ApiProducts.handler products (Some (p + 1)%Z) (Some n) in
  (MockApi.ApiProducts.has_more r = true
   <-> (p * n < Z.of_nat (List.length products))%Z)
  /\ (MockApi.ApiProducts.has_more r = true
      <-> MockApi.ApiProducts.results next <> []).
Proof.
  intros Hp Hn r next.
  pose proof (ceil_div_spec (Z.of_nat (List.length products)) n ltac:(lia))
    as Hc.
  assert (Hmore : MockApi.ApiProducts.has_more r = true
                  <-> (p * n < Z.of_nat (List.length products))%Z).
  { subst r. unfold MockApi.ApiProducts.handler.
    cbn [MockApi.ApiProducts.has_more].
    rewrite !or_default_nonzero by lia.
    rewrite Z.ltb_lt. nia. }
  split; [exact Hmore |].
  rewrite Hmore. subst next.
  rewrite products_results_window by lia.
  replace (p + 1 - 1)%Z with p by lia.
  split.
  - intros Hlt Hnil. apply (f_equal (@List.length _)) in Hnil.
    rewrite length_firstn, length_skipn in Hnil. cbn in Hnil. nia.
  - intros Hne. destruct (Z.lt_ge_cases (p * n)
                            (Z.of_nat (List.length products)))
      as [Hlt | Hge]; [exact Hlt |].
    exfalso. apply Hne. rewrite skipn_all2 by nia. apply firstn_nil.
Qed.

Lemma products_has_more_iff_next_page_witness :
  MockApi.ApiProducts.has_more
    (MockApi.ApiProducts.handler
       (MockApi.PRODUCTS (fun _ => 0%Z) (fun _ => 0%Z))
       (Some 9%Z) (Some 20%Z))
  = true.
Proof.
  destruct (products_has_more_iff_next_page
              (MockApi.PRODUCTS (fun _ => 0%Z) (fun _ => 0%Z)) 9 20
              ltac:(lia) ltac:(lia)) as [Hmore _].
  apply Hmore. vm_compute. reflexivity.
Defined.

(** ** GET /api/orders *)

Lemma orders_count (clock : MockServer.Clock) (total100 : Z -> Z)
  (s t : Z) :
  (1 <= t)%Z ->
  Z.of_nat
    (List.length
       (MockApi.ApiOrders.data
          (MockApi.ApiOrders.handler clock total100 (Some s) (Some t))))
  = Z.max 0 (Z.min t (100 - s)).
Proof.
  intros Ht. unfold MockApi.ApiOrders.handler.
  cbn [MockApi.ApiOrders.data].
  rewrite or_default_any_cursor, or_default_nonzero by lia.
  rewrite length_map, range_length. lia.
Qed.

(** X5: GET /api/orders has no "more" flag, so a crawl that adds [take]
    to [skip] ends on the first page shorter than [take].  For every
    [take >= 1] the pages at [skip = k * take] are full for [k] below
    [100 / take], and page [100 / take] holds [100 mod take] orders: it
    is empty exactly when [take] divides 100, in which case the crawl
    needs one request more than there are pages of data. *)
Theorem orders_first_short_page
  (clock : MockServer.Clock) (total100 : Z -> Z) (take : Z) :
  (1 <= take)%Z ->
  let count k :=
    Z.of_nat
      (List.length
         (MockApi.ApiOrders.data
            (MockApi.ApiOrders.handler clock total100
               (Some (k * take)%Z) (Some take)))) in
  (forall k, (0 <= k < 100 / take)%Z -> count k = take)
  /\ count (100 / take)%Z = (100 mod take)%Z
  /\ (count (100 / take)%Z < take)%Z
  /\ (count (100 / take)%Z = 0%Z <-> (take | 100)%Z).
Proof.
  intros Ht count.
  pose proof (Z.div_mod 100 take ltac:(lia)) as Hdm.
  pose proof (Z.mod_pos_bound 100 take ltac:(lia)) as Hmod.
  assert (Hq : (0 <= 100 / take)%Z) by (apply Z.div_pos; lia).
  assert (Hlast : count (100 / take)%Z = (100 mod take)%Z).
  { subst count. cbv beta. rewrite orders_count by lia. nia. }
  split; [| split; [exact Hlast | split]].
  - intros k Hk. subst count. cbv beta. rewrite orders_count by lia. nia.
  - rewrite Hlast. lia.
  - rewrite Hlast. rewrite Z.mod_divide by lia. reflexivity.
Qed.

Lemma orders_first_short_page_witness :
  Z.of_nat
    (List.length
       (MockApi.ApiOrders.data
          (MockApi.ApiOrders.handler (fun _ => 0%Z) (fun _ => 0%Z)
             (Some (100 / 15 * 15)%Z) (Some 15%Z))))
  = 10%Z.
Proof.
  destruct (orders_first_short_page (fun _ => 0%Z) (fun _ => 0%Z) 15
              ltac:(lia)) as (_ & Hlast & _).
  cbv zeta beta in Hlast. rewrite Hlast. reflexivity.
Defined.

(** ** GET /api/feed *)

Lemma in_range (a b i : Z) : In i (JS.range a b) -> (a <= i < b)%Z.
Proof.
  unfold JS.range. rewrite in_map_iff. intros (k & <- & Hk).
  apply in_seq in Hk. lia.
Qed.

Lemma range_head (a b : Z) :
  (a < b)%Z -> exists rest, JS.range a b = a :: rest.
Proof.
  intros H. unfold JS.range.
  destruct (Z.to_nat (b - a)) as [| n] eqn:E; [lia |].
  cbn [seq map]. rewrite Z.add_0_r. eexists. reflexivity.
Qed.

Lemma for_each_map {A B : Type} (f : A -> option B) (g : A -> B)
  (l : list A) :
  (forall x, In x l -> f x = Some (g x)) ->
  MockApi.for_each f l = Some (map g l).
Proof.
  induction l as [| x l IH]; intros H; cbn [MockApi.for_each map];
    [reflexivity |].
  rewrite (H x) by (left; reflexivity).
  rewrite IH; [reflexivity |]. intros y Hy. apply H. right. exact Hy.
Qed.

Lemma toISOString_in_range (t : Z) :
  (Z.abs t <= 8640000000000000)%Z -> MockApi.toISOString t = Some t.
Proof.
  intros H. unfold MockApi.toISOString.
  destruct (Z.leb_spec (Z.abs t) 8640000000000000); [reflexivity | lia].
Qed.

Lemma toISOString_out_of_range (t : Z) :
  (8640000000000000 < Z.abs t)%Z -> MockApi.toISOString t = None.
Proof.
  intros H. unfold MockApi.toISOString.
  destruct (Z.leb_spec (Z.abs t) 8640000000000000); [lia | reflexivity].
Qed.

Lemma feed_at (clock : MockServer.Clock) (a : Z) :
  Shape.present_day clock ->
  (-9000000000 <= a)%Z ->
  exists r,
    MockApi.ApiFeed.handler clock (Some a) = Some r
    /\ map MockApi.FeedItem.id (MockApi.ApiFeed.entries r)
       = map (fun i => "feed_" ++ JS.str_of_Z (i + 1))
           (JS.range a (Z.min (a + 15) 200))
    /\ MockApi.ApiFeed.next (MockApi.ApiFeed.links r)
       = if (a + 15 <? 200)%Z
         then if (a + 15 =? 0)%Z then None
              else Some (MockApi.ApiFeed.link_prefix
                         ++ JS.str_of_Z (a + 15))
         else None.
Proof.
  intros Hclock Ha. unfold MockApi.ApiFeed.handler.
  rewrite or_default_any_cursor.
  rewrite (for_each_map _
             (fun i =>
                MockApi.FeedItem.mk ("feed_" ++ JS.str_of_Z (i + 1))
                  (MockApi.at_index MockApi.ApiFeed.types (JS.rem i 4))
                  ("Feed item " ++ JS.str_of_Z (i + 1) ++ " content")
                  ("Author " ++ JS.str_of_Z (JS.rem i 20 + 1))
                  (clock i - i * 900000)%Z)).
  2:{ intros i Hi. apply in_range in Hi.
      rewrite toISOString_in_range; [reflexivity |].
      specialize (Hclock i). lia. }
  eexists. split; [reflexivity |].
  cbn [MockApi.ApiFeed.entries MockApi.ApiFeed.links MockApi.ApiFeed.next].
  split.
  - rewrite map_map. reflexivity.
  - destruct (a + 15 <? 200)%Z; reflexivity.
Qed.

(** X6: with the clock in the present and [after] an integer that a
    number holds exactly, GET /api/feed fails with the RangeError of
    [toISOString] when [after] is at most -9700000000, and from
    -9000000000 on it answers with the entries
    [after + 1 .. min (after + 15) 200]; the next link is then null
    exactly when [after + 15 >= 200] or [after = -15] (the next offset 0
    is falsy), and otherwise it is the link prefix followed by a numeral
    that [parseInt] reads back as [after + 15], so that the request made
    from the link answers with the entries from [after + 16] on. *)
Theorem feed_next_link (clock : MockServer.Clock) (after : Z) :
  Shape.present_day clock ->
  (-9007199254740992 <= after <= 9007199254740992)%Z ->
  let answer := MockApi.ApiFeed.handler clock (Some after) in
  ((after <= -9700000000)%Z -> answer = None)
  /\ ((-9000000000 <= after)%Z ->
      exists r,
        answer = Some r
        /\ Z.of_nat (List.length (MockApi.ApiFeed.entries r))
           = Z.max 0 (Z.min 15 (200 - after))
        /\ (MockApi.ApiFeed.next (MockApi.ApiFeed.links r) = None
            <-> (after + 15 >= 200)%Z \/ after = (-15)%Z)
        /\ ((after + 15 < 200)%Z -> after <> (-15)%Z ->
            exists q r',
              MockApi.ApiFeed.next (MockApi.ApiFeed.links r)
              = Some (MockApi.ApiFeed.link_prefix ++ q)
              /\ JStr.parseInt q = Some (after + 15)%Z
              /\ MockApi.ApiFeed.handler clock (JStr.parseInt q) = Some r'
              /\ map MockApi.FeedItem.id (MockApi.ApiFeed.entries r')
                 = map (fun i => "feed_" ++ JS.str_of_Z (i + 1))
                     (JS.range (after + 15) (Z.min (after + 30) 200)))).
Proof.
  intros Hclock Hsafe answer. subst answer. split.
  - intros Hlow. unfold MockApi.ApiFeed.handler.
    rewrite or_default_any_cursor.
    destruct (range_head after (Z.min (after + 15) 200)) as [rest ->];
      [lia |].
    cbn [MockApi.for_each].
    rewrite toISOString_out_of_range; [reflexivity |].
    specialize (Hclock after). lia.
  - intros Hlow.
    destruct (feed_at clock after Hclock Hlow) as (r & Hr & Hids & Hnext).
    exists r. split; [exact Hr |]. split; [| split].
    + rewrite <- (length_map MockApi.FeedItem.id), Hids, length_map,
        range_length. lia.
    + rewrite Hnext.
      destruct (Z.ltb_spec (after + 15) 200);
        [destruct (Z.eqb_spec (after + 15) 0) |].
      * split; [intros _; right; lia | reflexivity].
      * split; [discriminate | intros [? | ?]; lia].
      * split; [intros _; left; lia | reflexivity].
    + intros Hlt Hne.
      destruct (feed_at clock (after + 15) Hclock) as (r' & Hr' & Hids' & _);
        [lia |].
      exists (JS.str_of_Z (after + 15)), r'.
      rewrite Hnext, parseInt_str_of_Z.
      destruct (Z.ltb_spec (after + 15) 200); [| lia].
      destruct (Z.eqb_spec (after + 15) 0); [lia |].
      split; [reflexivity |]. split; [reflexivity |].
      split; [exact Hr' |].
      rewrite Hids'. do 2 f_equal. lia.
Qed.

Lemma feed_next_link_witness :
  MockApi.ApiFeed.handler (fun _ => 1700000000000%Z)
    (Some (-10000000000)%Z) = None
  /\ exists r,
       MockApi.ApiFeed.handler (fun _ => 1700000000000%Z) (Some 170%Z)
       = Some r
       /\ Z.of_nat (List.length (MockApi.ApiFeed.entries r)) = 15%Z.
Proof.
  assert (Hclock : Shape.present_day (fun _ => 1700000000000%Z))
    by (intros i; lia).
  split.
  - destruct (feed_next_link (fun _ => 1700000000000%Z) (-10000000000)%Z
                Hclock) as (H & _); [lia |].
    apply H. lia.
  - destruct (feed_next_link (fun _ => 1700000000000%Z) 170%Z Hclock)
      as (_ & H); [lia |].
    destruct H as (r & Hr & Hn & _); [lia |].
    exists r. split; [exact Hr | exact Hn].
Defined.

(** ** GET /api/events *)

Lemma btoa_truthy (s : string) :
  JStr.truthy s = true -> JStr.truthy (Base64.btoa s) = true.
Proof. destruct s as [| a [| b [| c t]]]; [discriminate | reflexivity ..]. Qed.

Lemma str_of_Z_truthy (z : Z) : JStr.truthy (JS.str_of_Z z) = true.
Proof.
  pose proof (parseInt_str_of_Z z) as H.
  destruct (JS.str_of_Z z); [discriminate H | reflexivity].
Qed.

Lemma events_at (decode : string -> string) (clock : MockServer.Clock)
  (tok : string) (o : Z) :
  Shape.present_day clock ->
  JStr.truthy tok = true ->
  JStr.parseInt (decode tok) = Some o ->
  (-100000000000 <= o)%Z ->
  exists r,
    MockApi.ApiEvents.handler decode clock (Some tok) = Some r
    /\ map MockApi.Event.event_id (MockApi.ApiEvents.records r)
       = event_ids o (Z.min (o + 30) 250)
    /\ MockApi.ApiEvents.continuation r
       = (if (o + 30 <? 250)%Z
          then Some (Base64.btoa (JS.str_of_Z (o + 30))) else None)
    /\ MockApi.ApiEvents.has_more r = (o + 30 <? 250)%Z.
Proof.
  intros Hclock Htok Hdec Ho. unfold MockApi.ApiEvents.handler.
  rewrite Htok, Hdec.
  rewrite (for_each_map _
             (fun i =>
                MockApi.Event.mk ("EVT_" ++ JS.str_of_Z (i + 1))
                  ("Event " ++ JS.str_of_Z (i + 1))
                  (MockApi.at_index MockApi.ApiEvents.types (JS.rem i 4))
                  ("user_" ++ JS.str_of_Z (JS.rem i 100 + 1))
                  (clock i - i * 60000)%Z
                  (MockApi.Event.mkProperties
                     (MockApi.at_index MockApi.ApiEvents.sources
                        (JS.rem i 3)) "1.0"))).
  2:{ intros i Hi. apply in_range in Hi.
      rewrite toISOString_in_range; [reflexivity |].
      specialize (Hclock i). lia. }
  eexists. split; [reflexivity |].
  cbn [MockApi.ApiEvents.records MockApi.ApiEvents.continuation
       MockApi.ApiEvents.has_more].
  split; [| split].
  - rewrite map_map. reflexivity.
  - reflexivity.
  - destruct (o + 30 <? 250)%Z; reflexivity.
Qed.

(** X7: a continuation token that does not decode to a number (so that
    [parseInt] gives [NaN]) is answered by GET /api/events with an empty
    page, a null continuation and [has_more] false: the crawl ends
    silently, it neither fails nor restarts from the beginning. *)
Theorem events_bad_token_ends_crawl
  (decode : string -> string) (clock : MockServer.Clock) (tok : string) :
  JStr.truthy tok = true ->
  JStr.parseInt (decode tok) = None ->
  MockApi.ApiEvents.handler decode clock (Some tok)
  = Some (MockApi.ApiEvents.mkResponse [] None false).
Proof.
  intros Htok Hdec. unfold MockApi.ApiEvents.handler.
  rewrite Htok, Hdec. reflexivity.
Qed.

Lemma events_bad_token_ends_crawl_witness :
  MockApi.ApiEvents.handler Base64Decode.atob (fun _ => 0%Z)
    (Some "aGVsbG8=")
  = Some (MockApi.ApiEvents.mkResponse [] None false).
Proof.
  apply (events_bad_token_ends_crawl Base64Decode.atob (fun _ => 0%Z)
           "aGVsbG8="); reflexivity.
Defined.

(** X8: with the clock in the present, let the token of a request to
    GET /api/events decode to an offset [o], an integer that a number
    holds exactly, with [o + 30 < 250].  When [o] is at most
    -150000000000 the request fails with the RangeError of
    [toISOString].  From -100000000000 on it answers with the events
    [o + 1 .. o + 30] and a continuation token which, sent back, is
    answered with the events [o + 31 .. min (o + 60) 250], provided the
    decoder gives back the numeral under the token that the handler
    writes: the crawl resumes exactly after the page it has received. *)
Theorem events_token_resumes
  (decode : string -> string) (clock : MockServer.Clock) (tok : string)
  (o : Z) :
  Shape.present_day clock ->
  JStr.truthy tok = true ->
  JStr.parseInt (decode tok) = Some o ->
  (-9007199254740992 <= o)%Z ->
  (o + 30 < 250)%Z ->
  decode (Base64.btoa (JS.str_of_Z (o + 30))) = JS.str_of_Z (o + 30) ->
  let answer := MockApi.ApiEvents.handler decode clock (Some tok) in
  ((o <= -150000000000)%Z -> answer = None)
  /\ ((-100000000000 <= o)%Z ->
      exists r tok' r',
        answer = Some r
        /\ MockApi.ApiEvents.continuation r = Some tok'
        /\ MockApi.ApiEvents.has_more r = true
        /\ map MockApi.Event.event_id (MockApi.ApiEvents.records r)
           = event_ids o (o + 30)
        /\ MockApi.ApiEvents.handler decode clock (Some tok') = Some r'
        /\ map MockApi.Event.event_id (MockApi.ApiEvents.records r')
           = event_ids (o + 30) (Z.min (o + 60) 250)).
Proof.
  intros Hclock Htok Hdec Hsafe Hlt Hrt answer. subst answer. split.
  - intros Hlow. unfold MockApi.ApiEvents.handler.
    rewrite Htok, Hdec.
    destruct (range_head o (Z.min (o + 30) 250)) as [rest ->]; [lia |].
    cbn [MockApi.for_each].
    rewrite toISOString_out_of_range; [reflexivity |].
    specialize (Hclock o). lia.
  - intros Hlow.
    destruct (events_at decode clock tok o Hclock Htok Hdec Hlow)
      as (r & Hr & Hids & Hcont & Hmore).
    destruct (events_at decode clock
                (Base64.btoa (JS.str_of_Z (o + 30))) (o + 30) Hclock)
      as (r' & Hr' & Hids' & _).
    { apply btoa_truthy, str_of_Z_truthy. }
    { rewrite Hrt. apply parseInt_str_of_Z. }
    { lia. }
    destruct (Z.ltb_spec (o + 30) 250); [| lia].
    exists r, (Base64.btoa (JS.str_of_Z (o + 30))), r'.
    split; [exact Hr |]. split; [exact Hcont |]. split; [exact Hmore |].
    split; [| split; [exact Hr' |]].
    + rewrite Hids. f_equal. lia.
    + rewrite Hids'. f_equal. lia.
Qed.

Lemma events_token_resumes_witness :
  exists r tok' r',
    MockApi.ApiEvents.handler Base64Decode.atob (fun _ => 0%Z)
      (Some "MjEw")
    = Some r
    /\ MockApi.ApiEvents.continuation r = Some tok'
    /\ MockApi.ApiEvents.handler Base64Decode.atob (fun _ => 0%Z)
         (Some tok')
       = Some r'
    /\ map MockApi.Event.event_id (MockApi.ApiEvents.records r')
       = event_ids 240 250.
Proof.
  destruct (events_token_resumes Base64Decode.atob (fun _ => 0%Z)
              "MjEw" 210)
    as (_ & H);
    [intros i; lia | reflexivity | reflexivity | lia | lia | reflexivity |].
  destruct H as (r & tok' & r' & Hr & Hc & _ & _ & Hr' & Hnext); [lia |].
  exists r, tok', r'. repeat split; assumption.
Defined.

(** ** POST /api/auth/data *)

Lemma split_no_sep (sep : ascii) (w : string) :
  JStr.forallb (fun c => negb (Ascii.eqb c sep)) w = true ->
  JStr.split sep w = [w].
Proof.
  induction w as [| c w IH]; cbn [JStr.split JStr.forallb];
    [reflexivity |].
  intros H. apply andb_true_iff in H as [Hc Hw].
  apply negb_true_iff in Hc. rewrite Hc, (IH Hw). reflexivity.
Qed.

(** The first part of a split is [w] exactly when the text is [w] or
    begins with [w] and the separator. *)
Lemma split_head (sep : ascii) (w t : string) :
  JStr.forallb (fun c => negb (Ascii.eqb c sep)) w = true ->
  nth_error (JStr.split sep t) 0 = Some w
  <-> t = w \/ exists t', t = w ++ String sep t'.
Proof.
  intros Hw. split.
  - intros Hhd. pose proof (join_split sep t) as Hj.
    destruct (JStr.split sep t) as [| w0 ws]; [discriminate Hhd |].
    cbn in Hhd. injection Hhd as ->.
    destruct ws as [| w1 ws].
    + left. now rewrite <- Hj.
    + right. exists (JStr.join (String sep "") (w1 :: ws)).
      rewrite <- Hj. reflexivity.
  - intros [-> | [t' ->]].
    + now rewrite split_no_sep.
    + now rewrite split_before_sep.
Qed.

Lemma startsWith_iff (pre s : string) :
  RequestBuilder.startsWith pre s = true <-> exists t, s = pre ++ t.
Proof.
  unfold RequestBuilder.startsWith. split.
  - destruct (JStr.strip_prefix pre s) as [t |] eqn:E; [| discriminate].
    intros _. exists t. now apply strip_prefix_some.
  - intros [t ->]. now rewrite strip_prefix_app.
Qed.

Lemma bearer_inj (a b : string) :
  Some ("Bearer " ++ a) = Some ("Bearer " ++ b) -> a = b.
Proof. intros [= H]. exact H. Qed.

Lemma auth_bearer_code (t : string) (body_filter : option string) :
  let code :=
    MockApi.ApiAuthData.status_code
      (MockApi.ApiAuthData.handler (Some ("Bearer " ++ t)) body_filter) in
  (code = 200%Z
   <-> t = "test-token-123" \/ exists t', t = "test-token-123 " ++ t')
  /\ (code = 200%Z \/ code = 403%Z).
Proof.
  cbv zeta. unfold MockApi.ApiAuthData.handler.
  rewrite (proj2 (startsWith_iff "Bearer " ("Bearer " ++ t))
             (ex_intro _ t eq_refl)).
  cbn [JStr.truthy String.append negb orb].
  change (String "B" (String "e" (String "a" (String "r" (String "e"
            (String "r" (String " " t)))))))
    with ("Bearer" ++ String " " t).
  rewrite (split_before_sep " " "Bearer" t eq_refl).
  cbn [nth_error].
  pose proof (split_head " " "test-token-123" t eq_refl) as Hhead.
  destruct (JStr.split " " t) as [| w ws] eqn:Hsplit;
    [now apply split_nonempty in Hsplit |].
  cbn [nth_error] in *.
  destruct (String.eqb_spec w "test-token-123") as [-> | Hne];
    cbn [negb MockApi.ApiAuthData.status_code].
  - split; [| left; reflexivity].
    split; [intros _ | reflexivity].
    destruct (proj1 Hhead eq_refl) as [-> | [t' ->]];
      [left | right; exists t']; reflexivity.
  - split; [| right; reflexivity].
    split; [discriminate |].
    intros H. exfalso. apply Hne.
    assert (Hw : Some w = Some "test-token-123") by (apply Hhead; exact H).
    now injection Hw.
Qed.

(** X9: POST /api/auth/data answers 200 exactly when the Authorization
    header is [Bearer test-token-123], alone or followed by a space and
    any text (the token is the second part of the header split at
    spaces); it answers 401 exactly when the header is missing or does
    not begin with [Bearer] and a space, and 403 otherwise. *)
Theorem auth_data_status (authorization body_filter : option string) :
  let code :=
    MockApi.ApiAuthData.status_code
      (MockApi.ApiAuthData.handler authorization body_filter) in
  (code = 200%Z
   <-> authorization = Some "Bearer test-token-123"
       \/ exists t,
            authorization = Some ("Bearer test-token-123 " ++ t))
  /\ (code = 401%Z <-> forall t, authorization <> Some ("Bearer " ++ t))
  /\ (code = 200%Z \/ code = 401%Z \/ code = 403%Z).
Proof.
  cbv zeta.
  destruct authorization as [h |].
  2:{ cbn. repeat split; intros; try discriminate; try lia; auto.
      destruct H as [H | [t H]]; discriminate H. }
  destruct (RequestBuilder.startsWith "Bearer " h) eqn:Hsw.
  - apply startsWith_iff in Hsw as [t ->].
    destruct (auth_bearer_code t body_filter) as [Hiff Hcodes].
    cbv zeta in Hiff, Hcodes.
    split; [| split].
    + rewrite Hiff. split.
      * intros [-> | [t' ->]]; [left | right; exists t']; reflexivity.
      * intros [H | [t' H]]; [left | right; exists t'].
        -- exact (bearer_inj t "test-token-123" H).
        -- exact (bearer_inj t ("test-token-123 " ++ t') H).
    + split.
      * intros H. destruct Hcodes as [Hc | Hc]; rewrite Hc in H;
          discriminate H.
      * intros H. exfalso. apply (H t). reflexivity.
    + destruct Hcodes as [Hc | Hc]; auto.
  - unfold MockApi.ApiAuthData.handler. rewrite Hsw.
    rewrite orb_true_r. cbn [MockApi.ApiAuthData.status_code].
    assert (Hno : forall t, Some h <> Some ("Bearer " ++ t)).
    { intros t Heq.
      assert (Hh : h = "Bearer " ++ t) by (now injection Heq).
      pose proof (proj2 (startsWith_iff "Bearer " h) (ex_intro _ t Hh)).
      congruence. }
    repeat split; intros; try discriminate; auto.
    exfalso. destruct H as [H | [t H]].
    + apply (Hno "test-token-123"). exact H.
    + apply (Hno ("test-token-123 " ++ t)). exact H.
Qed.

Lemma in_insert_by_index (kv x : string * string) (l : JsObject.t) :
  In x (JsObject.insert_by_index kv l) -> x = kv \/ In x l.
Proof.
  induction l as [| y l IH]; cbn [JsObject.insert_by_index].
  - intros [<- | []]. left. reflexivity.
  - destruct (JsObject.index_of kv <? JsObject.index_of y)%Z.
    + intros [<- | H]; [left; reflexivity | right; exact H].
    + intros [<- | H]; [right; left; reflexivity |].
      destruct (IH H) as [-> | H']; [left; reflexivity | right; right].
      exact H'.
Qed.

Lemma in_sorted_indices (x : string * string) (l : JsObject.t) :
  In x (fold_right JsObject.insert_by_index [] l) -> In x l.
Proof.
  induction l as [| y l IH]; cbn [fold_right]; [intros [] |].
  intros H. apply in_insert_by_index in H.
  destruct H as [-> | H]; [left; reflexivity | right; exact (IH H)].
Qed.

Lemma filter_none {A : Type} (p : A -> bool) (l : list A) :
  (forall x, In x l -> p x = false) -> filter p l = [].
Proof.
  induction l as [| x l IH]; intros H; cbn [filter]; [reflexivity |].
  rewrite (H x) by (left; reflexivity).
  apply IH. intros y Hy. apply H. right. exact Hy.
Qed.

Lemma filter_narrowed {A : Type} (p q : A -> bool) (l : list A) :
  (forall x, p x = true -> q x = true) ->
  filter p (filter q l) = filter p l.
Proof.
  intros H. induction l as [| x l IH]; cbn [filter]; [reflexivity |].
  destruct (q x) eqn:Eq; cbn [filter]; rewrite IH; [reflexivity |].
  destruct (p x) eqn:Ep; [| reflexivity].
  rewrite (H x Ep) in Eq. discriminate Eq.
Qed.

(** Entries that are not array indices are enumerated in the order in
    which the object holds them. *)
Lemma filter_entries (p : string * string -> bool) (o : JsObject.t) :
  (forall kv, p kv = true -> JsObject.is_index kv = false) ->
  filter p (JsObject.entries o) = filter p o.
Proof.
  intros H. unfold JsObject.entries. rewrite filter_app.
  rewrite (filter_none p (fold_right _ _ _)).
  - cbn [List.app]. apply filter_narrowed.
    intros kv Hp. rewrite (H kv Hp). reflexivity.
  - intros x Hx. apply in_sorted_indices in Hx.
    apply filter_In in Hx. destruct Hx as [_ Hx].
    destruct (p x) eqn:Ep; [| reflexivity].
    rewrite (H x Ep) in Hx. discriminate Hx.
Qed.

Lemma authorization_is_no_index (k : string) :
  JStr.toLowerCase k = "authorization" -> JsObject.array_index k = None.
Proof.
  destruct k as [| c t]; [reflexivity |].
  cbn [JStr.toLowerCase]. intros [= Hc _].
  unfold JsObject.array_index. cbn [JStr.forallb].
  replace (JStr.is_digit c) with false; [reflexivity |].
  destruct c as [[] [] [] [] [] [] [] []];
    try reflexivity; vm_compute in Hc; discriminate Hc.
Qed.

Lemma filter_set_other (q : string -> bool) (k v : string)
  (o : JsObject.t) :
  q k = false ->
  filter (fun kv => q (fst kv)) (JsObject.set k v o)
  = filter (fun kv => q (fst kv)) o.
Proof.
  intros Hk. induction o as [| [k0 v0] o IH];
    cbn [JsObject.set filter fst].
  - rewrite Hk. reflexivity.
  - destruct (String.eqb_spec k k0) as [<- | Hne]; cbn [filter fst].
    + rewrite Hk. reflexivity.
    + rewrite IH. reflexivity.
Qed.

Lemma filter_assign_other (q : string -> bool) (k v : string)
  (o : JsObject.t) :
  q k = false ->
  filter (fun kv => q (fst kv)) (JsObject.assign k v o)
  = filter (fun kv => q (fst kv)) o.
Proof.
  intros Hk. unfold JsObject.assign.
  destruct (String.eqb k "__proto__");
    [reflexivity | exact (filter_set_other q k v o Hk)].
Qed.

Lemma filter_set_only (q : string -> bool) (k v : string)
  (o : JsObject.t) :
  q k = true ->
  NoDup (map fst o) ->
  (forall k', In k' (map fst o) -> q k' = true -> k' = k) ->
  filter (fun kv => q (fst kv)) (JsObject.set k v o) = [(k, v)].
Proof.
  intros Hk. induction o as [| [k0 v0] o IH]; intros Hnd Honly;
    cbn [JsObject.set filter fst].
  - rewrite Hk. reflexivity.
  - inversion Hnd as [| ? ? Hnotin Hnd']; subst.
    destruct (String.eqb_spec k k0) as [<- | Hne]; cbn [filter fst].
    + rewrite Hk. f_equal. apply filter_none.
      intros [k1 v1] Hin. cbn [fst].
      destruct (q k1) eqn:E; [| reflexivity].
      exfalso. apply Hnotin.
      rewrite <- (Honly k1); [| right | exact E];
        apply (in_map fst _ _ Hin).
    + destruct (q k0) eqn:E.
      * exfalso. apply Hne. symmetry. apply Honly; [left |]; auto.
      * apply IH; [exact Hnd' |].
        intros k' Hin. apply Honly. right. exact Hin.
Qed.

Lemma fold_assign_keys (rows : list RequestBuilder.KV) (k : string) :
  forall o,
    In k (map fst
            (fold_left
               (fun o h => JsObject.assign (RequestBuilder.key h)
                             (RequestBuilder.value h) o) rows o)) ->
    In k (map fst o) \/ In k (map RequestBuilder.key rows).
Proof.
  induction rows as [| h rows IH]; intros o H; cbn [fold_left] in H.
  - left. exact H.
  - destruct (IH _ H) as [Hin | Hin]; [| right; right; exact Hin].
    unfold JsObject.assign in Hin.
    destruct (String.eqb (RequestBuilder.key h) "__proto__");
      [left; exact Hin |].
    apply set_keys_in in Hin.
    destruct Hin as [-> | Hin]; [right; left; reflexivity | left; exact Hin].
Qed.

(** X10: with bearer authentication and a token that is not empty, if
    no enabled header row is named [authorization] in another letter
    case than [Authorization], the built request carries exactly one
    header of that name in any letter case, with the value [Bearer ]
    followed by the token: a row named [Authorization] is overwritten.
    A server that is handed these headers and reads the name without
    regard to case, as POST /api/auth/data does, then answers 200
    exactly when the token is [test-token-123], alone or followed by a
    space and any text. *)
Theorem bearer_auth_overrides_rows
  (st : RequestBuilder.State) (body_filter : option string) :
  RequestBuilder.authType st = "bearer" ->
  JStr.truthy (RequestBuilder.bearerToken (RequestBuilder.authConfig st))
  = true ->
  (forall h,
     In h (RequestBuilder.active (RequestBuilder.headers st)) ->
     JStr.toLowerCase (RequestBuilder.key h) = "authorization" ->
     RequestBuilder.key h = "Authorization") ->
  let token := RequestBuilder.bearerToken (RequestBuilder.authConfig st) in
  let sent := JsObject.entries (RequestBuilder.buildHeaders st) in
  Shape.authorization_values sent = ["Bearer " ++ token]
  /\ Shape.received_authorization sent = Some ("Bearer " ++ token)
  /\ (MockApi.ApiAuthData.status_code
        (MockApi.ApiAuthData.handler (Shape.received_authorization sent)
           body_filter) = 200%Z
      <-> token = "test-token-123"
          \/ exists t, token = "test-token-123 " ++ t).
Proof.
  intros Hauth Htok Hrows token sent. fold token in Htok.
  set (q := fun k => String.eqb (JStr.toLowerCase k) "authorization").
  assert (Hvalues : Shape.authorization_values sent = ["Bearer " ++ token]).
  { subst sent. unfold Shape.authorization_values.
    change (fun kv : string * string =>
              String.eqb (JStr.toLowerCase (fst kv)) "authorization")
      with (fun kv : string * string => q (fst kv)).
    rewrite filter_entries.
    2:{ intros kv Hq. unfold JsObject.is_index.
        rewrite authorization_is_no_index; [reflexivity |].
        apply String.eqb_eq. exact Hq. }
    unfold RequestBuilder.buildHeaders. fold token.
    rewrite Hauth, Htok. cbn [String.eqb Ascii.eqb Bool.eqb andb].
    set (rows := fold_left _ _ JsObject.empty).
    assert (Hone : filter (fun kv => q (fst kv))
                     (JsObject.assign "Authorization"
                        ("Bearer " ++ token) rows)
                   = [("Authorization", "Bearer " ++ token)]).
    { change (JsObject.assign "Authorization" ("Bearer " ++ token) rows)
        with (JsObject.set "Authorization" ("Bearer " ++ token) rows).
      apply filter_set_only; [reflexivity | |].
      - apply fold_assign_nodup. constructor.
      - intros k' Hin Hq. apply fold_assign_keys in Hin.
        destruct Hin as [[] | Hin].
        apply in_map_iff in Hin. destruct Hin as (h & <- & Hh).
        apply (Hrows h Hh). apply String.eqb_eq. exact Hq. }
    repeat match goal with
           | |- context [if ?b then _ else _] => destruct b
           end;
      rewrite ?filter_assign_other by reflexivity;
      rewrite Hone; reflexivity. }
  assert (Hreceived : Shape.received_authorization sent
                      = Some ("Bearer " ++ token)).
  { unfold Shape.received_authorization. rewrite Hvalues. reflexivity. }
  split; [exact Hvalues |]. split; [exact Hreceived |].
  rewrite Hreceived.
  destruct (auth_bearer_code token body_filter) as (H200 & _).
  cbv zeta in H200. exact H200.
Qed.

Lemma bearer_auth_overrides_rows_witness :
  let st :=
    RequestBuilder.mkState "POST" "http://localhost:3001/api/auth/data" []
      [RequestBuilder.mkKV "Authorization" "Bearer stale" true]
      "bearer"
      (RequestBuilder.mkAuth "test-token-123" EmptyString EmptyString
         EmptyString EmptyString "header")
      "json" "{}" [] CrawlForm.initial in
  MockApi.ApiAuthData.status_code
    (MockApi.ApiAuthData.handler
       (Shape.received_authorization
          (JsObject.entries (RequestBuilder.buildHeaders st)))
       (Some "active"))
  = 200%Z.
Proof.
  intros st.
  destruct (bearer_auth_overrides_rows st (Some "active"))
    as (_ & _ & Hok); [reflexivity | reflexivity | |].
  - intros h [<- | []] _. reflexivity.
  - apply Hok. left. reflexivity.
Defined.

(** ** RequestBuilder.jsx: the key-value lists *)

Lemma modify_length {A : Type} (f : A -> A) (l : list A) (i : nat) :
  List.length (KeyValueList.modify i f l) = List.length l.
Proof.
  revert i. induction l as [| x l IH]; intros [| i]; cbn; auto.
Qed.

Lemma nth_error_modify_same {A : Type} (f : A -> A) (l : list A) (i : nat) :
  nth_error (KeyValueList.modify i f l) i = option_map f (nth_error l i).
Proof.
  revert i. induction l as [| x l IH]; intros [| i]; cbn; auto.
Qed.

Lemma nth_error_modify_other {A : Type} (f : A -> A) (l : list A)
  (i j : nat) :
  j <> i -> nth_error (KeyValueList.modify i f l) j = nth_error l j.
Proof.
  revert i j. induction l as [| x l IH]; intros [| i] [| j] H; cbn;
    try reflexivity; try contradiction.
  apply IH. intros ->. apply H. reflexivity.
Qed.

Lemma modify_last {A : Type} (f : A -> A) (l : list A) (x : A) :
  KeyValueList.modify (List.length l) f (l ++ [x])%list = (l ++ [f x])%list.
Proof.
  induction l as [| y l IH]; cbn; [reflexivity | now rewrite IH].
Qed.

Lemma modify_front {A : Type} (f : A -> A) (l : list A) (x : A) (i : nat) :
  (i < List.length l)%nat ->
  KeyValueList.modify i f (l ++ [x])%list
  = (KeyValueList.modify i f l ++ [x])%list.
Proof.
  revert i. induction l as [| y l IH]; intros [| i] H; cbn in *;
    try lia; [reflexivity |].
  rewrite IH by lia. reflexivity.
Qed.

Lemma blank_tail_snoc (l : list RequestBuilder.KV) (r : RequestBuilder.KV) :
  Shape.blank_tail (l ++ [r])%list = Shape.blank r.
Proof.
  unfold Shape.blank_tail. rewrite rev_app_distr. reflexivity.
Qed.

Lemma snoc_cases {A : Type} (l : list A) :
  l = [] \/ exists l0 x, l = (l0 ++ [x])%list.
Proof.
  destruct (rev l) as [| x r] eqn:E.
  - left. apply (f_equal (@rev A)) in E. rewrite rev_involutive in E.
    exact E.
  - right. exists (rev r), x.
    apply (f_equal (@rev A)) in E. rewrite rev_involutive in E.
    exact E.
Qed.

(** X11: editing a row of a key-value list leaves every other row as
    it was and, when the row edited is the last one or the list ended
    with a blank row before, the list ends with a blank row after: the
    editor always offers an empty row to type in. *)
Theorem updateKeyValue_keeps_blank_row
  (rows : list RequestBuilder.KV) (index : nat)
  (fld : KeyValueList.field) (v : string) :
  (index < List.length rows)%nat ->
  index = (List.length rows - 1)%nat \/ Shape.blank_tail rows = true ->
  exists rows',
    KeyValueList.updateKeyValue rows index fld v = Some rows'
    /\ Shape.blank_tail rows' = true
    /\ nth_error rows' index
       = option_map (KeyValueList.set_field fld v) (nth_error rows index)
    /\ (forall j, (j < List.length rows)%nat -> j <> index ->
          nth_error rows' j = nth_error rows j).
Proof.
  intros Hlt Hcase.
  destruct (snoc_cases rows) as [-> | (l0 & x & ->)]; [cbn in Hlt; lia |].
  unfold KeyValueList.updateKeyValue.
  rewrite length_app in *. cbn [List.length] in *.
  destruct (Nat.eq_dec index (List.length l0)) as [-> | Hne].
  - rewrite nth_error_app2 by lia. rewrite Nat.sub_diag. cbn [nth_error].
    replace (List.length l0 + 1 - 1)%nat with (List.length l0) by lia.
    rewrite Nat.eqb_refl, modify_last. cbn [andb].
    set (x' := KeyValueList.set_field fld v x).
    destruct (JStr.truthy (RequestBuilder.key x')
              || JStr.truthy (RequestBuilder.value x')) eqn:Hc.
    + exists ((l0 ++ [x']) ++ [RequestBuilder.emptyRow])%list.
      split; [reflexivity |]. split; [apply blank_tail_snoc |]. split.
      * rewrite <- app_assoc. rewrite nth_error_app2 by lia.
        rewrite Nat.sub_diag. reflexivity.
      * intros j Hj Hji. rewrite <- app_assoc.
        rewrite !nth_error_app1 by lia. reflexivity.
    + exists (l0 ++ [x'])%list.
      split; [reflexivity |]. split.
      * rewrite blank_tail_snoc. unfold Shape.blank.
        apply orb_false_iff in Hc. destruct Hc as [-> ->]. reflexivity.
      * split.
        -- rewrite nth_error_app2 by lia. rewrite Nat.sub_diag.
           reflexivity.
        -- intros j Hj Hji. rewrite !nth_error_app1 by lia. reflexivity.
  - destruct Hcase as [Hlast | Hblank]; [lia |].
    rewrite blank_tail_snoc in Hblank.
    assert (Hin : (index < List.length l0)%nat) by lia.
    destruct (nth_error (l0 ++ [x]) index) as [row |] eqn:Hrow.
    2:{ apply nth_error_None in Hrow. rewrite length_app in Hrow.
        cbn in Hrow. lia. }
    replace (index =? List.length l0 + 1 - 1)%nat with false
      by (symmetry; apply Nat.eqb_neq; lia).
    cbn [andb].
    exists (KeyValueList.modify index (KeyValueList.set_field fld v)
              (l0 ++ [x])).
    split; [reflexivity |]. split.
    + rewrite modify_front by exact Hin. rewrite blank_tail_snoc.
      exact Hblank.
    + split.
      * rewrite nth_error_modify_same, Hrow. reflexivity.
      * intros j Hj Hji. apply nth_error_modify_other. exact Hji.
Qed.

Lemma updateKeyValue_keeps_blank_row_witness :
  exists rows',
    KeyValueList.updateKeyValue
      [RequestBuilder.mkKV "Accept" "application/json" true;
       RequestBuilder.emptyRow] 1 KeyValueList.Key "X-Trace"
    = Some rows'
    /\ Shape.blank_tail rows' = true.
Proof.
  destruct (updateKeyValue_keeps_blank_row
              [RequestBuilder.mkKV "Accept" "application/json" true;
               RequestBuilder.emptyRow] 1 KeyValueList.Key "X-Trace")
    as (rows' & H1 & H2 & _).
  - cbn. lia.
  - left. reflexivity.
  - exists rows'. split; assumption.
Defined.

Lemma without_later {A : Type} (l : list A) (s k : nat) :
  (k < s)%nat ->
  map snd
    (filter (fun p => negb (fst p =? k)%nat)
       (combine (seq s (List.length l)) l)) = l.
Proof.
  revert s. induction l as [| x l IH]; intros s H; cbn; [reflexivity |].
  replace (s =? k)%nat with false by (symmetry; apply Nat.eqb_neq; lia).
  cbn. rewrite IH by lia. reflexivity.
Qed.

Lemma without_from {A : Type} (l : list A) (s i : nat) :
  map snd
    (filter (fun p => negb (fst p =? s + i)%nat)
       (combine (seq s (List.length l)) l))
  = (firstn i l ++ skipn (S i) l)%list.
Proof.
  revert s i. induction l as [| x l IH]; intros s i.
  - cbn. destruct i; reflexivity.
  - destruct i as [| i]; cbn [List.length seq combine filter fst].
    + rewrite Nat.add_0_r, Nat.eqb_refl. cbn [negb firstn skipn app].
      apply without_later. lia.
    + replace (s =? s + S i)%nat with false
        by (symmetry; apply Nat.eqb_neq; lia).
      cbn [negb map snd firstn skipn app]. f_equal.
      replace (s + S i)%nat with (S s + i)%nat by lia.
      rewrite IH. reflexivity.
Qed.

Lemma without_spec {A : Type} (l : list A) (i : nat) :
  KeyValueList.without i l = (firstn i l ++ skipn (S i) l)%list.
Proof. exact (without_from l 0 i). Qed.

(** X12: removing a row deletes exactly the row at that index and
    keeps the others in order; the only row of a list is never removed,
    so a list that is not empty stays so, and an index outside the list
    removes nothing. *)
Theorem removeKeyValue_never_empties
  (rows : list RequestBuilder.KV) (index : nat) :
  rows <> [] ->
  KeyValueList.removeKeyValue rows index <> []
  /\ KeyValueList.removeKeyValue rows index
     = (if (1 <? List.length rows)%nat
        then firstn index rows ++ skipn (S index) rows
        else rows)%list
  /\ List.length (KeyValueList.removeKeyValue rows index)
     = (if (1 <? List.length rows)%nat && (index <? List.length rows)%nat
        then List.length rows - 1 else List.length rows)%nat.
Proof.
  intros Hne.
  assert (Heq : KeyValueList.removeKeyValue rows index
                = (if (1 <? List.length rows)%nat
                   then firstn index rows ++ skipn (S index) rows
                   else rows)%list).
  { unfold KeyValueList.removeKeyValue. rewrite without_spec.
    reflexivity. }
  assert (Hlen : List.length (KeyValueList.removeKeyValue rows index)
     = (if (1 <? List.length rows)%nat && (index <? List.length rows)%nat
        then List.length rows - 1 else List.length rows)%nat).
  { rewrite Heq.
    destruct (Nat.ltb_spec 1 (List.length rows)); cbn [andb];
      [| reflexivity].
    rewrite length_app, length_firstn, length_skipn.
    destruct (Nat.ltb_spec index (List.length rows)); lia. }
  split; [| split; assumption].
  intros Hnil. rewrite Hnil in Hlen. cbn [List.length] in Hlen.
  destruct rows as [| r rows]; [contradiction |]. cbn [List.length] in Hlen.
  destruct (Nat.ltb_spec 1 (S (List.length rows)));
    destruct (Nat.ltb_spec index (S (List.length rows)));
    cbn [andb] in Hlen; lia.
Qed.

Lemma removeKeyValue_never_empties_witness :
  KeyValueList.removeKeyValue [RequestBuilder.emptyRow] 0 <> [].
Proof.
  destruct (removeKeyValue_never_empties [RequestBuilder.emptyRow] 0)
    as (H & _); [discriminate | exact H].
Defined.

Lemma active_app (l1 l2 : list RequestBuilder.KV) :
  RequestBuilder.active (l1 ++ l2)
  = (RequestBuilder.active l1 ++ RequestBuilder.active l2)%list.
Proof. apply filter_app. Qed.

Lemma split_at {A : Type} (l : list A) (i : nat) (x : A) :
  nth_error l i = Some x ->
  l = (firstn i l ++ x :: skipn (S i) l)%list.
Proof.
  revert i. induction l as [| y l IH]; intros [| i] H; cbn in *;
    try discriminate.
  - injection H as ->. reflexivity.
  - f_equal. apply IH. exact H.
Qed.

Lemma modify_at {A : Type} (f : A -> A) (l : list A) (i : nat) (x : A) :
  nth_error l i = Some x ->
  KeyValueList.modify i f l = (firstn i l ++ f x :: skipn (S i) l)%list.
Proof.
  revert i. induction l as [| y l IH]; intros [| i] H; cbn in *;
    try discriminate.
  - injection H as ->. reflexivity.
  - f_equal. apply IH. exact H.
Qed.

Lemma modify_twice {A : Type} (f : A -> A) (l : list A) (i : nat) :
  (forall x, f (f x) = x) ->
  KeyValueList.modify i f (KeyValueList.modify i f l) = l.
Proof.
  intros Hf. revert i. induction l as [| y l IH]; intros [| i]; cbn;
    rewrite ?Hf, ?IH; reflexivity.
Qed.

(** X13: switching an enabled row off has the effect of deleting it:
    the rows that are sent are those of the list without that row, and
    the generated command is the same for the headers; switching the
    row a second time restores the list. *)
Theorem toggle_off_is_remove
  (B : Browser) (st : RequestBuilder.State)
  (rows : list RequestBuilder.KV) (index : nat) (r : RequestBuilder.KV) :
  nth_error rows index = Some r ->
  RequestBuilder.enabled r = true ->
  exists rows',
    KeyValueList.toggleKeyValue rows index = Some rows'
    /\ RequestBuilder.active rows'
       = RequestBuilder.active (KeyValueList.without index rows)
    /\ RequestBuilder.generateCurl B (RequestBuilder.setHeaders rows' st)
       = RequestBuilder.generateCurl B
           (RequestBuilder.setHeaders (KeyValueList.without index rows) st)
    /\ KeyValueList.toggleKeyValue rows' index = Some rows.
Proof.
  intros Hr Hen.
  set (f := fun r0 => RequestBuilder.mkKV (RequestBuilder.key r0)
                        (RequestBuilder.value r0)
                        (negb (RequestBuilder.enabled r0))).
  exists (KeyValueList.modify index f rows).
  assert (Hact : RequestBuilder.active (KeyValueList.modify index f rows)
                 = RequestBuilder.active (KeyValueList.without index rows)).
  { rewrite without_spec, (modify_at f rows index r Hr), !active_app.
    f_equal. unfold RequestBuilder.active at 1. cbn [filter].
    subst f. cbn [RequestBuilder.enabled]. rewrite Hen. reflexivity. }
  split.
  { unfold KeyValueList.toggleKeyValue. rewrite Hr. reflexivity. }
  split; [exact Hact |]. split.
  - unfold RequestBuilder.generateCurl, RequestBuilder.buildHeaders,
      RequestBuilder.buildFullUrl, RequestBuilder.buildBody,
      RequestBuilder.setHeaders.
    cbn [RequestBuilder.headers RequestBuilder.url RequestBuilder.params
         RequestBuilder.method RequestBuilder.authType
         RequestBuilder.authConfig RequestBuilder.bodyType
         RequestBuilder.jsonBody RequestBuilder.formData].
    rewrite Hact. reflexivity.
  - unfold KeyValueList.toggleKeyValue.
    rewrite nth_error_modify_same, Hr. cbn [option_map].
    f_equal. apply modify_twice. intros [k v e]. subst f. cbn.
    rewrite negb_involutive. reflexivity.
Qed.

Lemma toggle_off_is_remove_witness :
  exists rows',
    KeyValueList.toggleKeyValue
      [RequestBuilder.mkKV "Accept" "application/json" true;
       RequestBuilder.emptyRow] 0
    = Some rows'
    /\ RequestBuilder.active rows' = [].
Proof.
  destruct (toggle_off_is_remove echo_browser RequestBuilder.initial
              [RequestBuilder.mkKV "Accept" "application/json" true;
               RequestBuilder.emptyRow] 0
              (RequestBuilder.mkKV "Accept" "application/json" true))
    as (rows' & H1 & H2 & _); [reflexivity | reflexivity |].
  exists rows'. split; [exact H1 | exact H2].
Defined.

(** ** RequestBuilder.jsx: authentication by API key *)

(** X14: an API key whose location is not [header] is never sent: the
    generated command is the one of a request without authentication,
    whatever the name and the value of the key (the query string is
    built from the parameter rows alone). *)
Theorem api_key_in_query_is_never_sent
  (B : Browser) (st : RequestBuilder.State)
  (a' : RequestBuilder.AuthConfig) :
  RequestBuilder.authType st = "apikey" ->
  RequestBuilder.apiKeyLocation (RequestBuilder.authConfig st) <> "header" ->
  RequestBuilder.generateCurl B st
  = RequestBuilder.generateCurl B
      (Shape.setAuthConfig a' (Shape.setAuthType "none" st)).
Proof.
  intros Hauth Hloc. apply String.eqb_neq in Hloc.
  unfold RequestBuilder.generateCurl, RequestBuilder.buildFullUrl,
    RequestBuilder.buildBody, RequestBuilder.buildHeaders,
    Shape.setAuthConfig, Shape.setAuthType.
  cbn [RequestBuilder.headers RequestBuilder.url RequestBuilder.params
       RequestBuilder.method RequestBuilder.authType
       RequestBuilder.authConfig RequestBuilder.bodyType
       RequestBuilder.jsonBody RequestBuilder.formData].
  rewrite Hauth, Hloc. reflexivity.
Qed.

Lemma api_key_in_query_is_never_sent_witness :
  let st :=
    RequestBuilder.mkState "GET" "http://localhost:3001/api/users" []
      [] "apikey"
      (RequestBuilder.mkAuth EmptyString EmptyString EmptyString
         "api_key" "secret" "query")
      "none" EmptyString [] CrawlForm.initial in
  RequestBuilder.generateCurl echo_browser st
  = RequestBuilder.generateCurl echo_browser
      (Shape.setAuthConfig (RequestBuilder.authConfig RequestBuilder.initial)
         (Shape.setAuthType "none" st)).
Proof.
  intros st.
  apply (api_key_in_query_is_never_sent echo_browser st
           (RequestBuilder.authConfig RequestBuilder.initial));
    [reflexivity | discriminate].
Defined.

(** ** RequestBuilder.jsx: a request saved and loaded back *)

Lemma active_named (l : list RequestBuilder.KV) :
  RequestBuilder.active (SavedRequest.named l) = RequestBuilder.active l.
Proof.
  unfold RequestBuilder.active, SavedRequest.named.
  induction l as [| r l IH]; cbn [filter]; [reflexivity |].
  destruct (JStr.truthy (RequestBuilder.key r)) eqn:Hk; cbn [filter];
    rewrite ?Hk, ?andb_false_r, IH; reflexivity.
Qed.

Lemma active_blank_row (l : list RequestBuilder.KV) :
  RequestBuilder.active (l ++ [RequestBuilder.emptyRow])
  = RequestBuilder.active l.
Proof. rewrite active_app. cbn. apply app_nil_r. Qed.

(** X15: a request saved to a collection and loaded back into the
    builder, whatever the builder held before, generates the command it
    generated when it was saved, provided its method, authentication
    type and body type are not empty and, for a JSON body, the body
    text is not empty; the header and parameter lists loaded end with a
    blank row. *)
Theorem saved_request_loads_back
  (B : Browser) (st st0 : RequestBuilder.State) :
  JStr.truthy (RequestBuilder.method st) = true ->
  JStr.truthy (RequestBuilder.authType st) = true ->
  JStr.truthy (RequestBuilder.bodyType st) = true ->
  (RequestBuilder.bodyType st = "json" ->
   JStr.truthy (RequestBuilder.jsonBody st) = true) ->
  let loaded :=
    SavedRequest.loadInitialRequest
      (SavedRequest.handleSaveToCollection st) st0 in
  RequestBuilder.generateCurl B loaded = RequestBuilder.generateCurl B st
  /\ Shape.blank_tail (RequestBuilder.headers loaded) = true
  /\ Shape.blank_tail (RequestBuilder.params loaded) = true.
Proof.
  intros Hm Ha Hb Hjson loaded. subst loaded.
  unfold SavedRequest.loadInitialRequest,
    SavedRequest.handleSaveToCollection.
  cbn [SavedRequest.method SavedRequest.url SavedRequest.params
       SavedRequest.headers SavedRequest.authType SavedRequest.authConfig
       SavedRequest.bodyType SavedRequest.jsonBody SavedRequest.formData].
  rewrite Hm, Ha, Hb. cbn [andb].
  split; [| split; cbn [RequestBuilder.headers RequestBuilder.params];
            apply blank_tail_snoc].
  unfold RequestBuilder.generateCurl, RequestBuilder.buildFullUrl,
    RequestBuilder.buildBody, RequestBuilder.buildHeaders.
  cbn [RequestBuilder.headers RequestBuilder.url RequestBuilder.params
       RequestBuilder.method RequestBuilder.authType
       RequestBuilder.authConfig RequestBuilder.bodyType
       RequestBuilder.jsonBody RequestBuilder.formData].
  rewrite !active_blank_row, !active_named.
  destruct (String.eqb_spec (RequestBuilder.bodyType st) "json") as [E | E].
  - rewrite (Hjson E). reflexivity.
  - reflexivity.
Qed.

Lemma saved_request_loads_back_witness :
  let st :=
    RequestBuilder.mkState "POST" "http://localhost:3001/api/auth/data"
      [RequestBuilder.emptyRow]
      [RequestBuilder.mkKV "Accept" "application/json" true;
       RequestBuilder.mkKV "X-Off" "1" false; RequestBuilder.emptyRow]
      "bearer"
      (RequestBuilder.mkAuth "test-token-123" EmptyString EmptyString
         EmptyString EmptyString "header")
      "json" "{}" [RequestBuilder.emptyRow] CrawlForm.initial in
  RequestBuilder.generateCurl echo_browser
    (SavedRequest.loadInitialRequest
       (SavedRequest.handleSaveToCollection st) RequestBuilder.initial)
  = RequestBuilder.generateCurl echo_browser st.
Proof.
  intros st.
  destruct (saved_request_loads_back echo_browser st RequestBuilder.initial)
    as (H & _);
    [reflexivity | reflexivity | reflexivity | intros _; reflexivity |].
  exact H.
Defined.

(** ** The table name suggested after a validation *)

Lemma map_chars_word (s : string) :
  JStr.forallb JStr.is_word
    (Validate.map_chars
       (fun c => if JStr.is_word c then c else "_"%char) s) = true.
Proof.
  induction s as [| c s IH]; cbn [Validate.map_chars JStr.forallb];
    [reflexivity |].
  rewrite IH, andb_true_r.
  destruct (JStr.is_word c) eqn:E; [exact E | reflexivity].
Qed.

Lemma map_chars_truthy (f : ascii -> ascii) (s : string) :
  JStr.truthy (Validate.map_chars f s) = JStr.truthy s.
Proof. destruct s; reflexivity. Qed.

(** X16: the table name suggested from the path of the validated URL
    is never empty and holds only letters, digits and underscores,
    whatever the path. *)
Theorem suggested_table_name_is_a_word (pathname : string) :
  JStr.truthy (Validate.suggestTableName pathname) = true
  /\ JStr.forallb JStr.is_word (Validate.suggestTableName pathname) = true.
Proof.
  unfold Validate.suggestTableName. split; [| apply map_chars_word].
  rewrite map_chars_truthy.
  destruct (rev (filter JStr.truthy (JStr.split "/" pathname)))
    as [| last rest] eqn:E; [reflexivity |].
  assert (Hin : In last (rev (filter JStr.truthy
                                (JStr.split "/" pathname))))
    by (rewrite E; left; reflexivity).
  apply in_rev in Hin. apply filter_In in Hin. apply Hin.
Qed.

(** X17: when the backend has answered, the request builder stores the
    verdict as it is, while the cURL input stores an invalid result
    whenever the table name is empty and the URL parsed by the backend
    is one the URL constructor rejects; both set the same table name. *)
Theorem validate_handlers_differ_on_bad_url
  (pathname_of : string -> option string) (url curlCommand : string)
  (st : Validate.state) (r : Validate.response) :
  JStr.truthy (JStr.trim url) = true ->
  JStr.truthy (JStr.trim curlCommand) = true ->
  let builder :=
    Validate.handleValidate_builder pathname_of url st
      (Validate.Resolved r) in
  let input :=
    Validate.handleValidate_curlInput pathname_of curlCommand st
      (Validate.Resolved r) in
  fst builder = Some (CrawlForm.mkValidation (Validate.is_valid r))
  /\ fst input
     = Some (CrawlForm.mkValidation
               (Validate.is_valid r
                && negb (Shape.url_throws pathname_of (snd st) r)))
  /\ snd input = snd builder.
Proof.
  intros Hu Hc builder input. subst builder input.
  unfold Validate.handleValidate_builder, Validate.handleValidate_curlInput.
  rewrite Hu, Hc. cbn [negb fst snd].
  unfold Validate.suggest, Shape.url_throws.
  destruct (Validate.parsed_curl_url r) as [u |];
    [| cbn; rewrite andb_true_r; auto].
  destruct (negb (JStr.truthy (snd st)) && JStr.truthy u);
    [| cbn; rewrite andb_true_r; auto].
  destruct (pathname_of u); cbn;
    rewrite ?andb_true_r, ?andb_false_r; auto.
Qed.

Lemma validate_handlers_differ_on_bad_url_witness :
  fst (Validate.handleValidate_curlInput (fun _ => None)
         "curl example.com/api/users" (None, EmptyString)
         (Validate.Resolved
            (Validate.mkResponse true (Some "example.com/api/users"))))
  = Some (CrawlForm.mkValidation false).
Proof.
  destruct (validate_handlers_differ_on_bad_url (fun _ => None)
              "example.com/api/users" "curl example.com/api/users"
              (None, EmptyString)
              (Validate.mkResponse true (Some "example.com/api/users")))
    as (_ & H & _); [reflexivity | reflexivity |].
  exact H.
Defined.

(** ** The jobs list: the time left *)

(** X18: for an end date in the future the three parts shown are the
    whole days, the hours below 24 and the minutes below 60 of the time
    left, rounded down to the minute; with less than a minute left the
    text is [0m], not [Expired]. *)
Theorem time_remaining_parts (diff : Z) :
  0 < diff ->
  let d := JobsView.days diff in
  let h := JobsView.hours diff in
  let m := JobsView.minutes diff in
  0 <= d /\ 0 <= h < 24 /\ 0 <= m < 60
  /\ d * 86400000 + h * 3600000 + m * 60000 <= diff
     < d * 86400000 + h * 3600000 + (m + 1) * 60000
  /\ (diff < 60000 -> JobsView.getTimeRemaining (Some diff) = "0m").
Proof.
  intros Hpos d h m. subst d h m.
  unfold JobsView.days, JobsView.hours, JobsView.minutes, JS.rem.
  change (1000 * 60 * 60 * 24) with 86400000.
  change (1000 * 60 * 60) with 3600000.
  change (1000 * 60) with 60000.
  split; [| split; [| split; [| split]]].
  - Z.div_mod_to_equations. lia.
  - Z.quot_rem_to_equations. Z.div_mod_to_equations. lia.
  - Z.quot_rem_to_equations. Z.div_mod_to_equations. lia.
  - Z.quot_rem_to_equations. Z.div_mod_to_equations. lia.
  - intros Hlt. unfold JobsView.getTimeRemaining.
    destruct (Z.leb_spec diff 0); [lia |].
    unfold JobsView.days, JobsView.hours, JobsView.minutes, JS.rem.
    change (1000 * 60 * 60 * 24) with 86400000.
    change (1000 * 60 * 60) with 3600000.
    change (1000 * 60) with 60000.
    rewrite !Z.rem_small by lia. rewrite !Z.div_small by lia.
    reflexivity.
Qed.

Lemma time_remaining_parts_witness :
  JobsView.getTimeRemaining (Some 59999) = "0m".
Proof.
  destruct (time_remaining_parts 59999) as (_ & _ & _ & _ & H); [lia |].
  apply H. lia.
Defined.

(** ** Notifications.jsx *)

Lemma slice_first_five {A : Type} (l : list A) :
  JS.slice l 0 5 = firstn 5 l.
Proof. rewrite slice_window by lia. reflexivity. Qed.

Lemma filter_keeps_all {A : Type} (p : A -> bool) (l : list A) :
  (forall x, In x l -> p x = true) -> filter p l = l.
Proof.
  induction l as [| x l IH]; intros H; cbn; [reflexivity |].
  rewrite (H x) by (left; reflexivity).
  rewrite IH; [reflexivity |]. intros y Hy. apply H. right. exact Hy.
Qed.

Lemma firstn_app_firstn {A : Type} (n : nat) (a b : list A) :
  firstn n (a ++ firstn n b) = firstn n (a ++ b).
Proof.
  rewrite !firstn_app, firstn_firstn.
  f_equal. f_equal. lia.
Qed.

(** X19: the list [visible] in the state of the component never holds
    more than five notifications, whatever the polls return and whatever
    is dismissed.  The list may hold a notification more than once; what
    is drawn from it is not part of the statement. *)
Theorem visible_never_exceeds_five
  (st : Notifications.State) (events : list Notifications.event) :
  (List.length (Notifications.visible st) <= 5)%nat ->
  (List.length
     (Notifications.visible (fold_left Notifications.step events st))
   <= 5)%nat.
Proof.
  revert st. induction events as [| e events IH]; intros st H;
    [exact H |].
  cbn [fold_left]. apply IH.
  destruct e as [data | n]; cbn [Notifications.step].
  - unfold Notifications.poll, Notifications.fetched.
    match goal with
    | |- context [if ?b then _ else _] => destruct b
    end; [| exact H].
    cbn [Notifications.visible]. rewrite slice_first_five.
    apply firstn_le_length.
  - cbn [Notifications.handleDismiss Notifications.visible].
    etransitivity; [apply filter_length_le | exact H].
Qed.

Lemma visible_never_exceeds_five_witness :
  let n k := Notifications.mk k "info" "done" "2024-01-01T00:00:00Z" in
  le
    (List.length
       (Notifications.visible
          (fold_left Notifications.step
             [Notifications.Polled [n 1; n 2; n 3];
              Notifications.Polled [n 1; n 2; n 3; n 4]]
             Notifications.initial)))
    5%nat.
Proof.
  intros n. apply visible_never_exceeds_five. cbn. lia.
Defined.

(** X20: the polling callback is the one of the first render and
    compares with the empty list, so every poll that returns unread
    notifications puts all of them in front of the panel again: a
    notification that stays unread is shown once more at each poll, and
    dismissing it removes every copy. *)
Theorem unread_notifications_shown_again
  (data : list Notifications.Notification) (st : Notifications.State) :
  data <> [] ->
  Notifications.visible (Notifications.poll data st)
  = firstn 5 (data ++ Notifications.visible st)
  /\ Notifications.visible
       (Notifications.poll data (Notifications.poll data st))
     = firstn 5 (data ++ data ++ Notifications.visible st)
  /\ forall n m,
       In m (Notifications.visible
               (Notifications.handleDismiss n
                  (Notifications.poll data st))) ->
       Notifications.id m <> Notifications.id n.
Proof.
  intros Hne.
  assert (Hpoll : forall s,
             Notifications.visible (Notifications.poll data s)
             = firstn 5 (data ++ Notifications.visible s)).
  { intros s. unfold Notifications.poll, Notifications.fetched.
    cbn [map existsb negb].
    rewrite (filter_keeps_all (fun _ => true) data) by reflexivity.
    destruct data as [| x data]; [contradiction |].
    cbn [List.length Nat.ltb Nat.leb Notifications.visible].
    apply slice_first_five. }
  split; [apply Hpoll |]. split.
  - rewrite !Hpoll. apply firstn_app_firstn.
  - intros n m Hin. cbn [Notifications.handleDismiss Notifications.visible]
      in Hin.
    apply filter_In in Hin. destruct Hin as [_ Hin].
    apply negb_true_iff in Hin. apply Z.eqb_neq in Hin. exact Hin.
Qed.

Lemma unread_notifications_shown_again_witness :
  let n := Notifications.mk 7 "error" "failed" "2024-01-01T00:00:00Z" in
  Notifications.visible
    (Notifications.poll [n] (Notifications.poll [n] Notifications.initial))
  = [n; n].
Proof.
  intros n.
  destruct (unread_notifications_shown_again [n] Notifications.initial)
    as (_ & H & _); [discriminate |].
  exact H.
Defined.

(** ** CollectionManager.jsx *)

(** X21: a request added to a collection and then deleted by the
    identifier it was given leaves the collections as they were,
    provided no request of that collection already carries the
    identifier (the clock reading of the addition). *)
Theorem add_then_delete_request
  (collections : list CollectionManager.Collection)
  (collectionId : string) (r : SavedRequest.t) (now : Z) (iso : string) :
  (forall c q,
     In c collections -> CollectionManager.id c = collectionId ->
     In q (CollectionManager.requests c) ->
     CollectionManager.rid q <> CollectionManager.new_id now) ->
  CollectionManager.handleDeleteRequest
    (CollectionManager.addRequestToCollection collections collectionId r
       now iso)
    collectionId (CollectionManager.new_id now)
  = collections.
Proof.
  unfold CollectionManager.handleDeleteRequest,
    CollectionManager.addRequestToCollection.
  induction collections as [| c cs IH]; intros Hfresh; [reflexivity |].
  cbn [map]. rewrite IH.
  2:{ intros c' q Hc'. apply Hfresh. right. exact Hc'. }
  f_equal.
  destruct (String.eqb (CollectionManager.id c) collectionId) eqn:E.
  - cbn [CollectionManager.with_requests CollectionManager.id
         CollectionManager.name CollectionManager.requests
         CollectionManager.createdAt].
    rewrite E.
    cbn [CollectionManager.with_requests CollectionManager.id
         CollectionManager.name CollectionManager.requests
         CollectionManager.createdAt].
    rewrite filter_app. cbn [filter CollectionManager.rid].
    rewrite String.eqb_refl. cbn [negb].
    rewrite filter_keeps_all, app_nil_r; [destruct c; reflexivity |].
    intros q Hq. apply negb_true_iff. apply String.eqb_neq.
    apply (Hfresh c q); [left; reflexivity | | exact Hq].
    apply String.eqb_eq. exact E.
  - rewrite E. reflexivity.
Qed.

Lemma add_then_delete_request_witness :
  let r :=
    SavedRequest.handleSaveToCollection RequestBuilder.initial in
  let cs :=
    [CollectionManager.mkCollection "default" "My Collection"
       [CollectionManager.mkStored "1700000000000"
          "2023-11-14T22:13:20.000Z" r]
       "2023-11-14T22:00:00.000Z"] in
  CollectionManager.handleDeleteRequest
    (CollectionManager.addRequestToCollection cs "default" r
       1700000000001 "2023-11-14T22:13:20.001Z")
    "default" (CollectionManager.new_id 1700000000001)
  = cs.
Proof.
  intros r cs. apply add_then_delete_request.
  intros c q [<- | []] _ [<- | []]. vm_compute. discriminate.
Defined.

(** X22: the exported [addToCollection] answers [true] whenever the
    stored collections can be read, also when none of them has the
    identifier asked for, in which case nothing is stored; it answers
    [false] only when there is no stored item or it cannot be read. *)
Theorem addToCollection_success_without_target
  (collections : list CollectionManager.Collection)
  (collectionId : string) (r : SavedRequest.t) (now : Z) (iso : string) :
  (forall c, In c collections -> CollectionManager.id c <> collectionId) ->
  CollectionManager.addToCollection (CollectionManager.Saved collections)
    collectionId r now iso
  = (CollectionManager.Saved collections, true)
  /\ forall st,
       snd (CollectionManager.addToCollection st collectionId r now iso)
       = false
       <-> st = CollectionManager.Missing
           \/ st = CollectionManager.Unreadable.
Proof.
  intros Hno. split.
  - unfold CollectionManager.addToCollection,
      CollectionManager.addRequestToCollection.
    f_equal. f_equal.
    induction collections as [| c cs IH]; [reflexivity |].
    cbn [map].
    rewrite (proj2 (String.eqb_neq _ _) (Hno c (or_introl eq_refl))).
    f_equal. apply IH. intros c' Hc'. apply Hno. right. exact Hc'.
  - intros [| | cs]; cbn; split; auto; try discriminate.
    intros [H | H]; discriminate H.
Qed.

Lemma addToCollection_success_without_target_witness :
  let cs :=
    [CollectionManager.mkCollection "default" "My Collection" []
       "2023-11-14T22:00:00.000Z"] in
  CollectionManager.addToCollection (CollectionManager.Saved cs) "missing"
    (SavedRequest.handleSaveToCollection RequestBuilder.initial)
    1700000000001 "2023-11-14T22:13:20.001Z"
  = (CollectionManager.Saved cs, true).
Proof.
  intros cs.
  apply (addToCollection_success_without_target cs "missing").
  intros c [<- | []]. discriminate.
Defined.

Lemma underscore_spaces_clean (s : string) (in_run : bool) :
  JStr.forallb (fun c => negb (JStr.is_space c))
    (CollectionManager.underscore_spaces in_run s) = true.
Proof.
  revert in_run. induction s as [| c s IH]; intros in_run;
    cbn [CollectionManager.underscore_spaces]; [reflexivity |].
  destruct (JStr.is_space c) eqn:E.
  - destruct in_run; [apply IH |].
    cbn [JStr.forallb]. rewrite IH. reflexivity.
  - cbn [JStr.forallb]. rewrite E, IH. reflexivity.
Qed.

Lemma underscore_spaces_fixed (s : string) (in_run : bool) :
  JStr.forallb (fun c => negb (JStr.is_space c)) s = true ->
  CollectionManager.underscore_spaces in_run s = s.
Proof.
  revert in_run. induction s as [| c s IH]; intros in_run H;
    cbn [CollectionManager.underscore_spaces]; [reflexivity |].
  cbn [JStr.forallb] in H. apply andb_true_iff in H. destruct H as [Hc Hs].
  apply negb_true_iff in Hc. rewrite Hc. f_equal. apply IH. exact Hs.
Qed.

(** X23: the file name of an exported collection holds no white space
    whatever the name of the collection, and it is the name followed by
    [.json] when the name holds none. *)
Theorem export_file_name_has_no_space (c : CollectionManager.Collection) :
  JStr.forallb (fun ch => negb (JStr.is_space ch))
    (CollectionManager.export_file_name c) = true
  /\ (JStr.forallb (fun ch => negb (JStr.is_space ch))
        (CollectionManager.name c) = true ->
      CollectionManager.export_file_name c
      = CollectionManager.name c ++ ".json").
Proof.
  unfold CollectionManager.export_file_name. split.
  - rewrite forallb_app, underscore_spaces_clean. reflexivity.
  - intros H. rewrite underscore_spaces_fixed by exact H. reflexivity.
Qed.

(** ** usePolling.js *)

Lemma message_or_default_truthy (m : option Json.t) :
  Json.truthy (UsePolling.message_or_default m) = true.
Proof.
  unfold UsePolling.message_or_default.
  destruct m as [x |]; [| reflexivity].
  destruct (Json.truthy x) eqn:E; [exact E | reflexivity].
Qed.

Lemma fetch_failures {D : Type} (after : list (UsePolling.outcome D))
  (s : UsePolling.State D) :
  forallb Shape.threw after = true ->
  UsePolling.data (fold_left UsePolling.fetchData after s)
  = UsePolling.data s
  /\ (after <> [] ->
      UsePolling.loading (fold_left UsePolling.fetchData after s) = false)
  /\ (UsePolling.error (fold_left UsePolling.fetchData after s) = None
      <-> UsePolling.error s = None
          /\ forallb Shape.threw_nullish after = true)
  /\ ((forall e, UsePolling.error s = Some e -> Json.truthy e = true) ->
      forall e,
        UsePolling.error (fold_left UsePolling.fetchData after s) = Some e ->
        Json.truthy e = true).
Proof.
  revert s. induction after as [| o after IH]; intros s H.
  - cbn. split; [reflexivity |]. split; [intros C; contradiction |].
    split; [tauto | auto].
  - cbn [forallb] in H. apply andb_true_iff in H. destruct H as [Ho Ha].
    destruct o as [res | [| msg]]; [discriminate Ho | |];
      cbn [fold_left UsePolling.fetchData forallb Shape.threw_nullish andb].
    + destruct (IH (UsePolling.mkState (UsePolling.data s) false
                      (UsePolling.error s)) Ha)
        as (Hd & Hl & He & Ht).
      split; [exact Hd |]. split.
      { intros _. destruct after as [| o' after']; [reflexivity |].
        apply Hl. discriminate. }
      split; [exact He | exact Ht].
    + destruct (IH (UsePolling.mkState (UsePolling.data s) false
                      (Some (UsePolling.message_or_default msg)))
                  Ha)
        as (Hd & Hl & He & Ht).
      split; [exact Hd |]. split.
      { intros _. destruct after as [| o' after']; [reflexivity |].
        apply Hl. discriminate. }
      split.
      * rewrite He. cbn [UsePolling.error].
        split; [intros [C _] | intros [_ C]]; discriminate C.
      * intros _. apply Ht. cbn [UsePolling.error].
        intros e [= <-]. apply message_or_default_truthy.
Qed.

(** X24: the data of the polling hook is the result of the last fetch
    that succeeded: fetches that fail after it never erase it.  A
    failure sets an error, the message of the value thrown or a default
    text, which is never a falsy value, unless the value thrown is
    [undefined] or [null], which leaves the error as it was: after the
    last success the error is null exactly when every later failure
    threw [undefined] or [null].  Loading is over. *)
Theorem polling_keeps_last_result {D : Type}
  (st : UsePolling.State D) (before after : list (UsePolling.outcome D))
  (r : D) :
  forallb Shape.threw after = true ->
  let st' :=
    UsePolling.run st (before ++ UsePolling.Fetched r :: after) in
  UsePolling.data st' = Some r
  /\ UsePolling.loading st' = false
  /\ (UsePolling.error st' = None
      <-> forallb Shape.threw_nullish after = true)
  /\ (forall e, UsePolling.error st' = Some e -> Json.truthy e = true).
Proof.
  intros Hafter st'. subst st'. unfold UsePolling.run.
  rewrite fold_left_app. cbn [fold_left UsePolling.fetchData].
  set (s := UsePolling.mkState (Some r) false None).
  destruct (fetch_failures after s Hafter) as (Hd & Hl & He & Ht).
  split; [exact Hd |]. split.
  - destruct after as [| o after']; [reflexivity |].
    apply Hl. discriminate.
  - split.
    + rewrite He. cbn [UsePolling.error]. tauto.
    + apply Ht. cbn [UsePolling.error]. intros e C. discriminate C.
Qed.

Lemma polling_keeps_last_result_witness :
  let st' :=
    UsePolling.run UsePolling.initial
      [UsePolling.Threw (UsePolling.Value None); UsePolling.Fetched 3;
       UsePolling.Threw UsePolling.Nullish] in
  UsePolling.data st' = Some 3 /\ UsePolling.error st' = None.
Proof.
  intros st'.
  destruct (polling_keeps_last_result UsePolling.initial
              [UsePolling.Threw (UsePolling.Value None)]
              [UsePolling.Threw UsePolling.Nullish] 3)
    as (Hd & _ & He & _); [reflexivity |].
  split; [exact Hd |]. apply He. reflexivity.
Defined.

(** ** The table name posted by handleStartCrawl *)

Lemma trimStart_parts (s : string) :
  exists pre,
    s = pre ++ JStr.trimStart s /\ JStr.forallb JStr.is_space pre = true.
Proof.
  induction s as [| c s (pre & Hs & Hp)]; [exists EmptyString; auto |].
  cbn [JStr.trimStart]. destruct (JStr.is_space c) eqn:E.
  - exists (String c pre). cbn [String.append JStr.forallb].
    rewrite E, Hp. split; [f_equal; exact Hs | reflexivity].
  - exists EmptyString. auto.
Qed.

Lemma trimStart_fixed (c : ascii) (s : string) :
  JStr.is_space c = false -> JStr.trimStart (String c s) = String c s.
Proof. intros E. cbn [JStr.trimStart]. rewrite E. reflexivity. Qed.

Lemma trimStart_head (s : string) :
  JStr.trimStart s = EmptyString
  \/ exists c t, JStr.trimStart s = String c t /\ JStr.is_space c = false.
Proof.
  induction s as [| c s IH]; [left; reflexivity |].
  cbn [JStr.trimStart]. destruct (JStr.is_space c) eqn:E; [exact IH |].
  right. exists c, s. auto.
Qed.

Lemma trimStart_keeps_last (a : string) (c : ascii) :
  JStr.is_space c = false ->
  exists x,
    JStr.trimStart (a ++ String c EmptyString) = x ++ String c EmptyString.
Proof.
  intros E. induction a as [| d a (x & IH)].
  - exists EmptyString. cbn. rewrite E. reflexivity.
  - cbn [String.append JStr.trimStart].
    destruct (JStr.is_space d); [exists x; exact IH |].
    exists (String d a). reflexivity.
Qed.

Lemma rev_string_acc (s acc : string) :
  JStr.rev_string acc s = JStr.rev_string EmptyString s ++ acc.
Proof.
  revert acc. induction s as [| c s IH]; intros acc; cbn [JStr.rev_string];
    [reflexivity |].
  rewrite (IH (String c acc)), (IH (String c EmptyString)).
  rewrite append_assoc. reflexivity.
Qed.

Lemma rev_string_app (a b : string) :
  JStr.rev_string EmptyString (a ++ b)
  = JStr.rev_string EmptyString b ++ JStr.rev_string EmptyString a.
Proof.
  induction a as [| c a IH]; cbn [String.append JStr.rev_string].
  - now rewrite append_nil_r.
  - rewrite (rev_string_acc (a ++ b)), (rev_string_acc a), IH.
    now rewrite append_assoc.
Qed.

Lemma rev_string_involutive (s : string) :
  JStr.rev_string EmptyString (JStr.rev_string EmptyString s) = s.
Proof.
  induction s as [| c s IH]; [reflexivity |].
  cbn [JStr.rev_string].
  rewrite (rev_string_acc s (String c EmptyString)), rev_string_app, IH.
  reflexivity.
Qed.

Lemma rev_string_forallb (p : ascii -> bool) (s : string) :
  JStr.forallb p (JStr.rev_string EmptyString s) = JStr.forallb p s.
Proof.
  induction s as [| c s IH]; [reflexivity |].
  cbn [JStr.rev_string].
  rewrite (rev_string_acc s (String c EmptyString)), forallb_app, IH.
  cbn [JStr.forallb]. rewrite andb_true_r. apply andb_comm.
Qed.

Lemma trimEnd_parts (s : string) :
  exists post,
    s = JStr.trimEnd s ++ post /\ JStr.forallb JStr.is_space post = true.
Proof.
  unfold JStr.trimEnd.
  destruct (trimStart_parts (JStr.rev_string EmptyString s))
    as (pre & Hs & Hp).
  exists (JStr.rev_string EmptyString pre). split.
  - rewrite <- rev_string_app, <- Hs. symmetry.
    apply rev_string_involutive.
  - rewrite rev_string_forallb. exact Hp.
Qed.

Lemma trimStart_idempotent (s : string) :
  JStr.trimStart (JStr.trimStart s) = JStr.trimStart s.
Proof.
  destruct (trimStart_head s) as [-> | (c & t & -> & E)];
    [reflexivity | exact (trimStart_fixed c t E)].
Qed.

Lemma trim_fixed (s : string) : JStr.trim (JStr.trim s) = JStr.trim s.
Proof.
  unfold JStr.trim.
  assert (Hstart : JStr.trimStart (JStr.trimEnd (JStr.trimStart s))
                   = JStr.trimEnd (JStr.trimStart s)).
  { destruct (trimStart_head s) as [-> | (c & t & -> & E)];
      [reflexivity |].
    unfold JStr.trimEnd. cbn [JStr.rev_string].
    rewrite (rev_string_acc t).
    destruct (trimStart_keeps_last (JStr.rev_string EmptyString t) c E)
      as (x & ->).
    rewrite rev_string_app. cbn [JStr.rev_string String.append].
    apply trimStart_fixed. exact E. }
  rewrite Hstart. unfold JStr.trimEnd at 1.
  unfold JStr.trimEnd at 1. rewrite rev_string_involutive.
  rewrite trimStart_idempotent. reflexivity.
Qed.

(** X25: when handleStartCrawl posts a configuration, its command is
    the one given and its table name is the text of the form without
    the white space around it: not empty, unchanged by a further trim,
    and the form text is the name between two runs of white space.  A
    table name of white space alone posts nothing. *)
Theorem posted_table_name_is_trimmed
  (B : Browser) (curl_command : string) (f : CrawlForm.t)
  (c : Engine.JobConfig) :
  CrawlForm.handleStartCrawl B curl_command f = Some c ->
  Engine.cfg_curl_command c = curl_command
  /\ JStr.truthy (Engine.cfg_table_name c) = true
  /\ JStr.trim (Engine.cfg_table_name c) = Engine.cfg_table_name c
  /\ exists pre post,
       CrawlForm.tableName f = pre ++ Engine.cfg_table_name c ++ post
       /\ JStr.forallb JStr.is_space pre = true
       /\ JStr.forallb JStr.is_space post = true.
Proof.
  unfold CrawlForm.handleStartCrawl.
  destruct (negb _ || negb (JStr.truthy (JStr.trim (CrawlForm.tableName f))))
    eqn:Hguard; [discriminate |].
  apply orb_false_iff in Hguard. destruct Hguard as [_ Hname].
  apply negb_false_iff in Hname.
  destruct (CrawlForm.date_field B _ (CrawlForm.startDate f)) as [sd |];
    [| discriminate].
  destruct (CrawlForm.date_field B _ (CrawlForm.endDate f)) as [ed |];
    [| discriminate].
  intros [= <-]. cbn [Engine.cfg_curl_command Engine.cfg_table_name].
  split; [reflexivity |]. split; [exact Hname |].
  split; [apply trim_fixed |].
  destruct (trimStart_parts (CrawlForm.tableName f)) as (pre & Hs & Hp).
  destruct (trimEnd_parts (JStr.trimStart (CrawlForm.tableName f)))
    as (post & He & Hq).
  exists pre, post. split; [| split; assumption].
  unfold JStr.trim. rewrite <- He. exact Hs.
Qed.

Lemma posted_table_name_is_trimmed_witness :
  exists c,
    CrawlForm.handleStartCrawl echo_browser "curl http://localhost:3001"
      (CrawlForm.mk (Some (CrawlForm.mkValidation true)) "  users  "
         EmptyString "5" "15" true false EmptyString EmptyString)
    = Some c
    /\ JStr.trim (Engine.cfg_table_name c) = Engine.cfg_table_name c.
Proof.
  eexists. split; [reflexivity |].
  eapply (posted_table_name_is_trimmed echo_browser
            "curl http://localhost:3001"
            (CrawlForm.mk (Some (CrawlForm.mkValidation true)) "  users  "
               EmptyString "5" "15" true false EmptyString EmptyString)).
  reflexivity.
Defined.

(** ** The jobs list: headers in single quotes *)

Lemma span_parts (p : ascii -> bool) (s a b : string) :
  JStr.span p s = (a, b) -> s = a ++ b.
Proof.
  revert a b. induction s as [| c s IH]; intros a b; cbn [JStr.span].
  - intros [= <- <-]. reflexivity.
  - destruct (p c).
    + destruct (JStr.span p s) as [a' b'] eqn:E. intros [= <- <-].
      cbn [String.append]. f_equal. apply IH. reflexivity.
    + intros [= <- <-]. reflexivity.
Qed.

Lemma header_needs_double_quote (s : string) :
  JStr.forallb (fun c => negb (Ascii.eqb c JStr.DQ)) s = true ->
  JobsList.header_at s = None.
Proof.
  intros H. unfold JobsList.header_at.
  destruct (JStr.strip_prefix "-H" s) as [r |] eqn:Hs; [| reflexivity].
  apply strip_prefix_some in Hs. subst s.
  rewrite forallb_app in H. apply andb_true_iff in H. destruct H as [_ H].
  destruct (JStr.span JStr.is_space r) as [ws r1] eqn:Hsp.
  apply span_parts in Hsp. subst r.
  rewrite forallb_app in H. apply andb_true_iff in H. destruct H as [_ H].
  destruct (negb (JStr.truthy ws)); [reflexivity |].
  destruct r1 as [| c r1]; [reflexivity |].
  cbn [JStr.forallb] in H. apply andb_true_iff in H. destruct H as [Hc _].
  unfold JobsList.quoted_at. rewrite Hc. reflexivity.
Qed.

Lemma scan_needs_double_quote (s : string) (skip : nat) :
  JStr.forallb (fun c => negb (Ascii.eqb c JStr.DQ)) s = true ->
  JobsList.header_scan skip s = [].
Proof.
  revert skip. induction s as [| c s IH]; intros skip H; [reflexivity |].
  cbn [JobsList.header_scan]. destruct skip as [| k].
  - rewrite (header_needs_double_quote _ H).
    cbn [JStr.forallb] in H. apply andb_true_iff in H. apply IH, H.
  - cbn [JStr.forallb] in H. apply andb_true_iff in H. apply IH, H.
Qed.

(** X26: a job whose command holds no double quote is read back by the
    jobs list without any header: headers written in single quotes are
    lost when a job is saved as a request. *)
Theorem single_quoted_headers_are_lost
  (job : JobsList.Job) (curlCommand : string) :
  JobsList.curl_command job = Some curlCommand ->
  JStr.truthy curlCommand = true ->
  JStr.forallb (fun c => negb (Ascii.eqb c JStr.DQ)) curlCommand = true ->
  exists r,
    JobsList.extractRequestFromJob (Some job) = Some r
    /\ JobsList.headers r = [].
Proof.
  intros Hcmd Ht Hq. unfold JobsList.extractRequestFromJob.
  rewrite Hcmd, Ht. cbn [negb].
  eexists. split; [reflexivity |].
  cbn [JobsList.headers]. unfold JobsList.headerMatches.
  rewrite (scan_needs_double_quote _ 0 Hq). reflexivity.
Qed.

Lemma single_quoted_headers_are_lost_witness :
  exists r,
    JobsList.extractRequestFromJob
      (Some (JobsList.mkJob
               (Some "curl 'http://localhost:3001/api/users' -H 'Accept: text/csv'")
               (Some "users")))
    = Some r
    /\ JobsList.headers r = []
    /\ JobsList.url r = "http://localhost:3001/api/users".
Proof.
  destruct (single_quoted_headers_are_lost
              (JobsList.mkJob
                 (Some "curl 'http://localhost:3001/api/users' -H 'Accept: text/csv'")
                 (Some "users"))
              "curl 'http://localhost:3001/api/users' -H 'Accept: text/csv'")
    as (r & Hr & Hh); [reflexivity | reflexivity | reflexivity |].
  exists r. split; [exact Hr |]. split; [exact Hh |].
  cbn in Hr. injection Hr as <-. reflexivity.
Defined.

(** ** CollectionManager.jsx: what the request operations leave alone *)

Lemma per_collection_frame
  (f : CollectionManager.Collection -> list CollectionManager.Stored)
  (collectionId : string)
  (collections : list CollectionManager.Collection) :
  Forall2 (Shape.same_but_requests collectionId) collections
    (map (fun c =>
            if String.eqb (CollectionManager.id c) collectionId
            then CollectionManager.with_requests c (f c) else c)
       collections).
Proof.
  induction collections as [| c cs IH]; cbn [map]; constructor;
    [| exact IH].
  destruct (String.eqb_spec (CollectionManager.id c) collectionId)
    as [E | E].
  - repeat split; try reflexivity. intros C. contradiction.
  - repeat split; reflexivity.
Qed.

(** X27: adding, deleting, renaming or duplicating a request never
    adds, removes, reorders or renames a collection, and leaves every
    collection with another identifier exactly as it was. *)
Theorem request_operations_touch_one_collection
  (collections : list CollectionManager.Collection)
  (collectionId requestId newName iso : string) (r : SavedRequest.t)
  (q : CollectionManager.Stored) (now : Z) :
  Forall2 (Shape.same_but_requests collectionId) collections
    (CollectionManager.addRequestToCollection collections collectionId r
       now iso)
  /\ Forall2 (Shape.same_but_requests collectionId) collections
       (CollectionManager.handleDeleteRequest collections collectionId
          requestId)
  /\ Forall2 (Shape.same_but_requests collectionId) collections
       (CollectionManager.handleUpdateRequest collections collectionId
          requestId newName)
  /\ Forall2 (Shape.same_but_requests collectionId) collections
       (CollectionManager.handleDuplicateRequest collections collectionId
          q now iso).
Proof.
  unfold CollectionManager.handleDuplicateRequest,
    CollectionManager.addRequestToCollection,
    CollectionManager.handleDeleteRequest,
    CollectionManager.handleUpdateRequest.
  repeat split.
  - apply (per_collection_frame
             (fun c => (CollectionManager.requests c
                        ++ [CollectionManager.mkStored
                              (CollectionManager.new_id now) iso r])%list)).
  - apply (per_collection_frame
             (fun c => filter
                         (fun x => negb (String.eqb
                                           (CollectionManager.rid x)
                                           requestId))
                         (CollectionManager.requests c))).
  - apply (per_collection_frame
             (fun c => map
                         (fun x =>
                            if String.eqb (CollectionManager.rid x)
                                 requestId
                            then CollectionManager.mkStored
                                   (CollectionManager.rid x)
                                   (CollectionManager.rcreatedAt x)
                                   (CollectionManager.rename newName
                                      (CollectionManager.request x))
                            else x)
                         (CollectionManager.requests c))).
  - apply (per_collection_frame
             (fun c => (CollectionManager.requests c
                        ++ [CollectionManager.mkStored
                              (CollectionManager.new_id now) iso
                              (CollectionManager.rename
                                 (SavedRequest.name
                                    (CollectionManager.request q)
                                  ++ " (Copy)")
                                 (CollectionManager.request q))])%list)).
Qed.
